(** * ATtiny45 power-supply controller: a shallow embedding of [main.c]

    The firmware is a single C file for an ATtiny45 built with avr-gcc:
    [int] is 16 bits wide, [unsigned char] is 8 bits wide, and the I/O
    registers are 8-bit volatile objects.  Integers are modelled as [Z]
    with the wrap-around of their C type written out ([u8], [u16]).

    Every handler of the program is a computation in a small state and
    log monad: the state holds the I/O register file and the global
    variables, the log records the volatile accesses (register writes,
    reads of input registers, busy-wait delays) in program order. *)

From Stdlib Require Import ZArith List Bool Lia.
Import ListNotations.

Local Open Scope Z_scope.

(** ** Machine integers *)

Definition u8 (z : Z) : Z := z mod 256.
Definition u16 (z : Z) : Z := z mod 65536.

(** [_BV(bit)] of avr-libc: [1 << bit]. *)
Definition _BV (bit : Z) : Z := Z.shiftl 1 bit.

(** ** Pins and register bits *)

(** Pins, as [#define]d at the top of [main.c]; [PB0]..[PB4] are the
    bit numbers 0..4 of port B. *)
Definition LED_RED : Z := 0.
Definition OUT_ENA : Z := 1.
Definition LED_GRN : Z := 2.
Definition CHR_STA : Z := 3.
Definition USB_STA : Z := 4.

(** Bit numbers of the ATtiny45 I/O registers the program names; they
    come from the device header that [<avr/io.h>] includes. *)
Definition SE : Z := 5.
Definition SM1 : Z := 4.
Definition ADEN : Z := 7.
Definition ADSC : Z := 6.
Definition ADIE : Z := 3.
Definition ADPS2 : Z := 2.
Definition ADPS1 : Z := 1.
Definition OCIE0A : Z := 4.
Definition TOIE0 : Z := 1.
Definition CS01 : Z := 1.
Definition WGM01 : Z := 1.
Definition WGM00 : Z := 0.
Definition WDIE : Z := 6.
Definition WDP2 : Z := 2.
Definition WDP1 : Z := 1.
Definition WDP0 : Z := 0.
Definition MUX3 : Z := 3.
Definition MUX2 : Z := 2.
Definition PRTIM1 : Z := 3.
Definition PRUSI : Z := 1.

(** Registers the program writes, and registers it only reads. *)
Inductive ioreg : Set :=
  PORTB | DDRB | MCUCR | ADCSRA | TIMSK | TCCR0A | TCCR0B | OCR0A
| WDTCR | ADMUX | PRR.

Inductive inreg : Set := PINB | ADCL | ADCH.

Definition ioreg_eqb (a b : ioreg) : bool :=
  match a, b with
  | PORTB, PORTB | DDRB, DDRB | MCUCR, MCUCR | ADCSRA, ADCSRA
  | TIMSK, TIMSK | TCCR0A, TCCR0A | TCCR0B, TCCR0B | OCR0A, OCR0A
  | WDTCR, WDTCR | ADMUX, ADMUX | PRR, PRR => true
  | _, _ => false
  end.

(** ** Constants of the program *)

Definition START_ADC_1S_WATCHDOG : Z := 4.
Definition START_ADC_0_5S_WATCHDOG : Z := 8.
Definition PWM_RAMP_SPEED : Z := 3.
Definition PWM_MAX : Z := 253.
Definition PWM_MIN : Z := 0.
Definition BATTERY_GOOD : Z := 3419.
Definition BATTERY_LOW : Z := 3304.
Definition BATTERY_CRITICAL : Z := 3209.

(** ** Machine state *)

Record MCU : Type := mkMCU {
  io : ioreg -> Z;          (* register file *)
  watchdogCount : Z;        (* unsigned char  *)
  adcVal : Z;               (* unsigned short *)
  sumVolt : Z;              (* unsigned int, 16 bits *)
  voltage : Z;              (* unsigned short *)
  numSamples : Z;           (* unsigned char  *)
  countPWM : Z;             (* unsigned char  *)
  indexDirPWM : Z;          (* char, holds 1 or -1 *)
  indexPWM : Z;             (* unsigned char  *)
  mStatus : Z;              (* unsigned char  *)
  pStatus : Z;              (* unsigned char  *)
  grn_glw : Z;              (* unsigned char  *)
  red_glw : Z;              (* unsigned char  *)
  requestStatus : Z         (* unsigned char  *)
}.

(** The globals as their initialisers leave them ([mStatus], [adcVal]
    and [sumVolt] have none and start at zero), over a register file
    [regs]. *)
Definition power_up (regs : ioreg -> Z) : MCU :=
  {| io := regs;
     watchdogCount := 0; adcVal := 0; sumVolt := 0; voltage := 4000;
     numSamples := 0; countPWM := 0; indexDirPWM := 1; indexPWM := 70;
     mStatus := 0; pStatus := 0; grn_glw := 0; red_glw := 0;
     requestStatus := 1 |}.

Definition upd (r : ioreg) (v : Z) (f : ioreg -> Z) : ioreg -> Z :=
  fun r' => if ioreg_eqb r r' then v else f r'.

Definition set_io (f : ioreg -> Z) (s : MCU) : MCU :=
  mkMCU f (watchdogCount s) (adcVal s) (sumVolt s) (voltage s)
    (numSamples s) (countPWM s) (indexDirPWM s) (indexPWM s) (mStatus s)
    (pStatus s) (grn_glw s) (red_glw s) (requestStatus s).
Definition set_watchdogCount (v : Z) (s : MCU) : MCU :=
  mkMCU (io s) v (adcVal s) (sumVolt s) (voltage s)
    (numSamples s) (countPWM s) (indexDirPWM s) (indexPWM s) (mStatus s)
    (pStatus s) (grn_glw s) (red_glw s) (requestStatus s).
Definition set_adcVal (v : Z) (s : MCU) : MCU :=
  mkMCU (io s) (watchdogCount s) v (sumVolt s) (voltage s)
    (numSamples s) (countPWM s) (indexDirPWM s) (indexPWM s) (mStatus s)
    (pStatus s) (grn_glw s) (red_glw s) (requestStatus s).
Definition set_sumVolt (v : Z) (s : MCU) : MCU :=
  mkMCU (io s) (watchdogCount s) (adcVal s) v (voltage s)
    (numSamples s) (countPWM s) (indexDirPWM s) (indexPWM s) (mStatus s)
    (pStatus s) (grn_glw s) (red_glw s) (requestStatus s).
Definition set_voltage (v : Z) (s : MCU) : MCU :=
  mkMCU (io s) (watchdogCount s) (adcVal s) (sumVolt s) v
    (numSamples s) (countPWM s) (indexDirPWM s) (indexPWM s) (mStatus s)
    (pStatus s) (grn_glw s) (red_glw s) (requestStatus s).
Definition set_numSamples (v : Z) (s : MCU) : MCU :=
  mkMCU (io s) (watchdogCount s) (adcVal s) (sumVolt s) (voltage s)
    v (countPWM s) (indexDirPWM s) (indexPWM s) (mStatus s)
    (pStatus s) (grn_glw s) (red_glw s) (requestStatus s).
Definition set_countPWM (v : Z) (s : MCU) : MCU :=
  mkMCU (io s) (watchdogCount s) (adcVal s) (sumVolt s) (voltage s)
    (numSamples s) v (indexDirPWM s) (indexPWM s) (mStatus s)
    (pStatus s) (grn_glw s) (red_glw s) (requestStatus s).
Definition set_indexDirPWM (v : Z) (s : MCU) : MCU :=
  mkMCU (io s) (watchdogCount s) (adcVal s) (sumVolt s) (voltage s)
    (numSamples s) (countPWM s) v (indexPWM s) (mStatus s)
    (pStatus s) (grn_glw s) (red_glw s) (requestStatus s).
Definition set_indexPWM (v : Z) (s : MCU) : MCU :=
  mkMCU (io s) (watchdogCount s) (adcVal s) (sumVolt s) (voltage s)
    (numSamples s) (countPWM s) (indexDirPWM s) v (mStatus s)
    (pStatus s) (grn_glw s) (red_glw s) (requestStatus s).
Definition set_mStatus (v : Z) (s : MCU) : MCU :=
  mkMCU (io s) (watchdogCount s) (adcVal s) (sumVolt s) (voltage s)
    (numSamples s) (countPWM s) (indexDirPWM s) (indexPWM s) v
    (pStatus s) (grn_glw s) (red_glw s) (requestStatus s).
Definition set_pStatus (v : Z) (s : MCU) : MCU :=
  mkMCU (io s) (watchdogCount s) (adcVal s) (sumVolt s) (voltage s)
    (numSamples s) (countPWM s) (indexDirPWM s) (indexPWM s) (mStatus s)
    v (grn_glw s) (red_glw s) (requestStatus s).
Definition set_grn_glw (v : Z) (s : MCU) : MCU :=
  mkMCU (io s) (watchdogCount s) (adcVal s) (sumVolt s) (voltage s)
    (numSamples s) (countPWM s) (indexDirPWM s) (indexPWM s) (mStatus s)
    (pStatus s) v (red_glw s) (requestStatus s).
Definition set_red_glw (v : Z) (s : MCU) : MCU :=
  mkMCU (io s) (watchdogCount s) (adcVal s) (sumVolt s) (voltage s)
    (numSamples s) (countPWM s) (indexDirPWM s) (indexPWM s) (mStatus s)
    (pStatus s) (grn_glw s) v (requestStatus s).
Definition set_requestStatus (v : Z) (s : MCU) : MCU :=
  mkMCU (io s) (watchdogCount s) (adcVal s) (sumVolt s) (voltage s)
    (numSamples s) (countPWM s) (indexDirPWM s) (indexPWM s) (mStatus s)
    (pStatus s) (grn_glw s) (red_glw s) v.

(** ** Volatile accesses and the handler monad *)

Inductive hw_op : Set :=
| Wr (r : ioreg) (v : Z)        (* store to an I/O register *)
| Rd (r : inreg) (v : Z)        (* fetch from an input register *)
| Delay_us (n : Z).             (* [_delay_us(n)] busy wait *)

(** A computation returns its value, the new state and the accesses it
    made, oldest first. *)
Definition M (A : Type) : Type := MCU -> A * MCU * list hw_op.

Definition ret {A} (a : A) : M A := fun s => (a, s, []).

Definition bind {A B} (m : M A) (f : A -> M B) : M B :=
  fun s =>
    let r1 := m s in
    let r2 := f (fst (fst r1)) (snd (fst r1)) in
    (fst (fst r2), snd (fst r2), snd r1 ++ snd r2).

Definition value {A} (r : A * MCU * list hw_op) : A := fst (fst r).
Definition state {A} (r : A * MCU * list hw_op) : MCU := snd (fst r).
Definition ops {A} (r : A * MCU * list hw_op) : list hw_op := snd r.

Declare Scope mcu_scope.
Delimit Scope mcu_scope with mcu.
Notation "x <- m ;; k" := (bind m (fun x => k))
  (at level 61, m at next level, right associativity) : mcu_scope.
Notation "m ;; k" := (bind m (fun _ => k))
  (at level 61, right associativity) : mcu_scope.
Local Open Scope mcu_scope.

Definition gets {A} (f : MCU -> A) : M A := fun s => (f s, s, []).
Definition modify (f : MCU -> MCU) : M unit := fun s => (tt, f s, []).
Definition when (b : bool) (m : M unit) : M unit := if b then m else ret tt.

(** Store to a register: the value is truncated to the register's 8
    bits. *)
Definition reg_write (r : ioreg) (v : Z) : M unit :=
  fun s => (tt, set_io (upd r (u8 v) (io s)) s, [Wr r (u8 v)]).

(** The compound assignments [r |= m], [r &= m] and [r ^= m]. *)
Definition reg_or (r : ioreg) (m : Z) : M unit :=
  v <- gets (fun s => io s r) ;; reg_write r (Z.lor v m).
Definition reg_and (r : ioreg) (m : Z) : M unit :=
  v <- gets (fun s => io s r) ;; reg_write r (Z.land v m).
Definition reg_xor (r : ioreg) (m : Z) : M unit :=
  v <- gets (fun s => io s r) ;; reg_write r (Z.lxor v m).

Notation "r '|=' m" := (reg_or r m) (at level 60) : mcu_scope.
Notation "r '&=' m" := (reg_and r m) (at level 60) : mcu_scope.
Notation "r '^=' m" := (reg_xor r m) (at level 60) : mcu_scope.
Notation "'~~' x" := (Z.lnot x) (at level 35, right associativity) : mcu_scope.

(** Fetch from an input register; the environment supplies the value,
    of which the register holds 8 bits. *)
Definition reg_read (r : inreg) (v : Z) : M Z :=
  fun s => (u8 v, s, [Rd r (u8 v)]).

Definition _delay_us (n : Z) : M unit := fun s => (tt, s, [Delay_us n]).

(** [sleep_enable()] and [sleep_disable()] of [<avr/sleep.h>] set and
    clear the SE bit of MCUCR. *)
Definition sleep_enable : M unit := MCUCR |= _BV SE.
Definition sleep_disable : M unit := MCUCR &= ~~ _BV SE.

(** ** The mode evaluator *)

(** The values PINB holds at the (up to three) reads [getStatus] makes:
    the first tests [OUT_ENA], the second [USB_STA], the third
    [CHR_STA]. *)
Record PinReads : Set := mkPins { pin1 : Z; pin2 : Z; pin3 : Z }.

(** [if (x & (1 << b))]: the test is non-zero. *)
Definition bit_set (x b : Z) : bool := negb (Z.land x (_BV b) =? 0).

(** The three statements that start an acquisition. *)
Definition start_adc : M unit :=
  modify (set_watchdogCount 0) ;;
  MCUCR &= ~~ _BV SM1 ;;
  ADCSRA |= Z.lor (_BV ADEN) (_BV ADSC).

(** [watchdogCount++] on an [unsigned char]. *)
Definition incr_watchdogCount : M unit :=
  modify (fun s => set_watchdogCount (u8 (watchdogCount s + 1)) s).

(** Every path through the two-level [if] returns, so the closing
    [return 1;] of the source is never reached and has no counterpart
    here. *)
Definition getStatus (pins : PinReads) : M Z :=
  m <- gets mStatus ;;
  when (m =? 7) (DDRB &= ~~ _BV OUT_ENA ;; _delay_us 5) ;;
  p <- reg_read PINB (pin1 pins) ;;
  if negb (bit_set p OUT_ENA) then
    p <- reg_read PINB (pin2 pins) ;;
    if negb (bit_set p USB_STA) then ret 1
    else
      p <- reg_read PINB (pin3 pins) ;;
      if negb (bit_set p CHR_STA) then ret 2 else ret 3
  else
    p <- reg_read PINB (pin2 pins) ;;
    if negb (bit_set p USB_STA) then
      v <- gets voltage ;;
      if v >? BATTERY_GOOD then
        c <- gets watchdogCount ;;
        when (c mod START_ADC_1S_WATCHDOG =? 0) start_adc ;;
        incr_watchdogCount ;;
        ret 4
      else if v >? BATTERY_LOW then
        PORTB ^= _BV LED_RED ;;
        incr_watchdogCount ;;
        c <- gets watchdogCount ;;
        when (c mod START_ADC_1S_WATCHDOG =? 0) start_adc ;;
        ret 5
      else if v >? BATTERY_CRITICAL then
        PORTB ^= _BV LED_RED ;;
        incr_watchdogCount ;;
        c <- gets watchdogCount ;;
        when (c mod START_ADC_0_5S_WATCHDOG =? 0) start_adc ;;
        ret 6
      else
        incr_watchdogCount ;;
        c <- gets watchdogCount ;;
        when (c mod START_ADC_1S_WATCHDOG =? 0) start_adc ;;
        DDRB |= _BV OUT_ENA ;;
        ret 7
    else
      p <- reg_read PINB (pin3 pins) ;;
      if negb (bit_set p CHR_STA) then ret 8 else ret 9.

(** ** The mode actuator *)

(** Register settings shared by several modes. *)
Definition watchdog_1s : M unit :=
  WDTCR |= _BV WDP1 ;; WDTCR &= ~~ _BV WDP0.
Definition timer0_off : M unit :=
  TIMSK &= Z.land (~~ _BV OCIE0A) (~~ _BV TOIE0) ;;
  TCCR0B &= ~~ _BV CS01.
Definition timer0_on : M unit :=
  TIMSK |= Z.lor (_BV OCIE0A) (_BV TOIE0) ;;
  TCCR0B |= _BV CS01.

(** The bodies of the [case] labels of [setMode]. *)

(** [case 1] and [default]: off, no USB. *)
Definition mode_1 : M unit :=
  DDRB &= Z.land (Z.land (~~ _BV LED_GRN) (~~ _BV LED_RED)) (~~ _BV OUT_ENA) ;;
  PORTB &= Z.land (Z.land (~~ _BV LED_GRN) (~~ _BV LED_RED)) (~~ _BV OUT_ENA) ;;
  MCUCR |= _BV SM1 ;;
  timer0_off ;;
  watchdog_1s ;;
  ADCSRA &= ~~ _BV ADEN.

(** [case 2]: off, charging. *)
Definition mode_2 : M unit :=
  modify (set_red_glw 1) ;;
  modify (set_grn_glw 0) ;;
  DDRB |= _BV LED_RED ;;
  DDRB &= Z.land (~~ _BV LED_GRN) (~~ _BV OUT_ENA) ;;
  PORTB &= ~~ _BV LED_GRN ;;
  PORTB |= _BV LED_RED ;;
  MCUCR &= ~~ _BV SM1 ;;
  timer0_on ;;
  watchdog_1s ;;
  ADCSRA &= ~~ _BV ADEN.

(** [case 3]: off, fully charged. *)
Definition mode_3 : M unit :=
  DDRB |= _BV LED_RED ;;
  DDRB &= Z.land (~~ _BV LED_GRN) (~~ _BV OUT_ENA) ;;
  PORTB &= Z.land (~~ _BV LED_GRN) (~~ _BV LED_RED) ;;
  MCUCR |= _BV SM1 ;;
  timer0_off ;;
  watchdog_1s ;;
  ADCSRA &= ~~ _BV ADEN.

(** [case 4]: on, no USB, battery good. *)
Definition mode_4 : M unit :=
  DDRB |= _BV LED_GRN ;;
  DDRB &= Z.land (~~ _BV LED_RED) (~~ _BV OUT_ENA) ;;
  PORTB &= Z.land (~~ _BV LED_GRN) (~~ _BV LED_RED) ;;
  MCUCR |= _BV SM1 ;;
  timer0_off ;;
  watchdog_1s.

(** [case 5]: on, no USB, battery low. *)
Definition mode_5 : M unit :=
  DDRB |= Z.lor (_BV LED_GRN) (_BV LED_RED) ;;
  DDRB &= ~~ _BV OUT_ENA ;;
  PORTB &= Z.land (~~ _BV LED_GRN) (~~ _BV LED_RED) ;;
  MCUCR |= _BV SM1 ;;
  timer0_off ;;
  watchdog_1s.

(** [case 6]: on, no USB, battery critical; half-second watchdog. *)
Definition mode_6 : M unit :=
  DDRB |= Z.lor (_BV LED_GRN) (_BV LED_RED) ;;
  DDRB &= ~~ _BV OUT_ENA ;;
  PORTB &= Z.land (~~ _BV LED_GRN) (~~ _BV LED_RED) ;;
  MCUCR |= _BV SM1 ;;
  timer0_off ;;
  WDTCR |= _BV WDP0 ;;
  WDTCR &= ~~ _BV WDP1.

(** [case 7]: on, no USB, battery below critical. *)
Definition mode_7 : M unit :=
  DDRB &= Z.land (~~ _BV LED_GRN) (~~ _BV LED_RED) ;;
  DDRB |= _BV OUT_ENA ;;
  PORTB &= Z.land (~~ _BV LED_GRN) (~~ _BV LED_RED) ;;
  MCUCR |= _BV SM1 ;;
  timer0_off ;;
  watchdog_1s.

(** [case 8]: on, charging. *)
Definition mode_8 : M unit :=
  modify (set_red_glw 0) ;;
  modify (set_grn_glw 1) ;;
  DDRB |= _BV LED_GRN ;;
  DDRB &= Z.land (~~ _BV LED_RED) (~~ _BV OUT_ENA) ;;
  PORTB &= Z.land (~~ _BV LED_GRN) (~~ _BV LED_RED) ;;
  MCUCR &= ~~ _BV SM1 ;;
  timer0_on ;;
  watchdog_1s ;;
  ADCSRA &= ~~ _BV ADEN.

(** [case 9]: on, fully charged. *)
Definition mode_9 : M unit :=
  DDRB |= _BV LED_GRN ;;
  DDRB &= Z.land (~~ _BV LED_RED) (~~ _BV OUT_ENA) ;;
  PORTB &= Z.land (~~ _BV LED_GRN) (~~ _BV LED_RED) ;;
  MCUCR |= _BV SM1 ;;
  timer0_off ;;
  watchdog_1s ;;
  ADCSRA &= ~~ _BV ADEN.

(** [switch (mStatus)]. *)
Definition setMode : M unit :=
  m <- gets mStatus ;;
  if m =? 2 then mode_2
  else if m =? 3 then mode_3
  else if m =? 4 then mode_4
  else if m =? 5 then mode_5
  else if m =? 6 then mode_6
  else if m =? 7 then mode_7
  else if m =? 8 then mode_8
  else if m =? 9 then mode_9
  else mode_1.

(** ** Interrupt handlers *)

Definition WDT_vect : M unit :=
  sleep_disable ;;
  modify (set_requestStatus 1).

Definition TIM0_OVF_vect : M unit :=
  sleep_disable ;;
  g <- gets grn_glw ;;
  r <- gets red_glw ;;
  PORTB |= Z.lor (Z.shiftl g LED_GRN) (Z.shiftl r LED_RED).

(** [indexPWM += indexDirPWM] is computed in [int] and stored back into
    an [unsigned char]; [indexDirPWM] is kept as the signed value the
    source assigns (1 or -1). *)
Definition TIM0_COMPA_vect : M unit :=
  sleep_disable ;;
  modify (fun s => set_countPWM (u8 (countPWM s + 1)) s) ;;
  c <- gets countPWM ;;
  when (c >=? PWM_RAMP_SPEED) (
    modify (set_countPWM 0) ;;
    modify (fun s => set_indexPWM (u8 (indexPWM s + indexDirPWM s)) s) ;;
    i <- gets indexPWM ;;
    (if i >=? PWM_MAX then modify (set_indexDirPWM (-1))
     else if i <=? PWM_MIN then modify (set_indexDirPWM 1)
     else ret tt) ;;
    reg_write OCR0A i ;;
    g <- gets grn_glw ;;
    r <- gets red_glw ;;
    PORTB &= Z.land (~~ (Z.shiftl g LED_GRN)) (~~ (Z.shiftl r LED_RED))).

(** A handler that can fault: the division in [ADC_vect] is undefined
    for a zero divisor. *)
Definition F (A : Type) : Type := MCU -> option (A * MCU * list hw_op).

Definition lift {A} (m : M A) : F A := fun s => Some (m s).

Definition bindF {A B} (m : F A) (f : A -> F B) : F B :=
  fun s =>
    match m s with
    | None => None
    | Some r1 =>
        match f (value r1) (state r1) with
        | None => None
        | Some r2 => Some (value r2, state r2, ops r1 ++ ops r2)
        end
    end.

Definition div_checked (a b : Z) : F Z :=
  fun s => if b =? 0 then None else Some (a / b, s, []).

Notation "x <-? m ;; k" := (bindF m (fun x => k))
  (at level 61, m at next level, right associativity) : mcu_scope.

(** The two loads that assemble the conversion result. *)
Definition read_adc (adcl adch : Z) : M unit :=
  l <- reg_read ADCL adcl ;;
  modify (set_adcVal l) ;;
  h <- reg_read ADCH adch ;;
  modify (fun s => set_adcVal (u16 (Z.lor (adcVal s) (Z.shiftl h 8))) s).

(** [1126400 / adcVal] is a [long] division; adding it to [sumVolt]
    wraps at 16 bits, the width of [unsigned int]. *)
Definition ADC_vect (adcl adch : Z) : F unit :=
  _ <-? lift (read_adc adcl adch) ;;
  n <-? lift (gets numSamples) ;;
  if n <? 10 then
    _ <-? lift (modify (fun s => set_numSamples (u8 (numSamples s + 1)) s)) ;;
    a <-? lift (gets adcVal) ;;
    q <-? div_checked 1126400 a ;;
    _ <-? lift (modify (fun s => set_sumVolt (u16 (sumVolt s + q)) s)) ;;
    lift (ADCSRA |= _BV ADSC)
  else
    lift (
      modify (fun s => set_voltage (u16 (sumVolt s / 10)) s) ;;
      modify (set_numSamples 0) ;;
      modify (set_sumVolt 0) ;;
      MCUCR |= _BV SM1 ;;
      ADCSRA &= ~~ _BV ADEN).

(** ** Start-up and the main loop *)

Definition setup : M unit :=
  TCCR0A |= Z.lor (_BV WGM01) (_BV WGM00) ;;
  reg_write OCR0A 0 ;;
  ADMUX |= Z.lor (_BV MUX3) (_BV MUX2) ;;
  ADCSRA |= Z.lor (_BV ADPS2) (_BV ADPS1) ;;
  ADCSRA |= _BV ADIE ;;
  PRR |= Z.lor (_BV PRTIM1) (_BV PRUSI) ;;
  MCUCR |= _BV SM1 ;;
  WDTCR |= Z.lor (Z.lor (_BV WDIE) (_BV WDP2)) (Z.shiftl 0 WDP1).

(** The body of [if (requestStatus == 1)] in [main]. *)
Definition evaluate (pins : PinReads) : M unit :=
  r <- gets requestStatus ;;
  when (r =? 1) (
    m <- getStatus pins ;;
    modify (set_mStatus m) ;;
    m <- gets mStatus ;;
    p <- gets pStatus ;;
    when (negb (m =? p)) setMode ;;
    modify (fun s => set_pStatus (mStatus s) s) ;;
    modify (set_requestStatus 0)).

(** One pass of the [while (1)] body up to the point where
    [sleep_mode()] halts the processor; [sleep_mode()] clears SE again
    once an interrupt has woken it. *)
Definition loop_body (pins : PinReads) : M unit :=
  evaluate pins ;; sleep_enable.

Definition wake_up : M unit := sleep_disable.

(** ** The program as a transition system *)

Inductive event : Set :=
| EvLoop (pins : PinReads)     (* main loop runs until it sleeps *)
| EvWake                       (* processor leaves [sleep_mode()] *)
| EvWDT                        (* watchdog interrupt *)
| EvADC (adcl adch : Z)        (* conversion-complete interrupt *)
| EvOVF                        (* timer 0 overflow interrupt *)
| EvCOMPA.                     (* timer 0 compare-match interrupt *)

Definition handle (e : event) : F unit :=
  match e with
  | EvLoop pins => lift (loop_body pins)
  | EvWake => lift wake_up
  | EvWDT => lift WDT_vect
  | EvADC adcl adch => ADC_vect adcl adch
  | EvOVF => lift TIM0_OVF_vect
  | EvCOMPA => lift TIM0_COMPA_vect
  end.

(** The state [main] is in when it enters its loop. *)
Definition boot (regs : ioreg -> Z) : MCU := state (setup (power_up regs)).

Inductive step (s : MCU) (e : event) (s' : MCU) : Prop :=
| step_handle (r : unit * MCU * list hw_op) :
    handle e s = Some r -> s' = state r -> step s e s'.

Inductive reachable (regs : ioreg -> Z) : MCU -> Prop :=
| reach_boot : reachable regs (boot regs)
| reach_step s e s' : reachable regs s -> step s e s' -> reachable regs s'.

(** What [getStatus] observes on the pins. *)
Definition out_observed (pins : PinReads) : bool :=
  Z.testbit (pin1 pins) OUT_ENA.
Definition usb_observed (pins : PinReads) : bool :=
  Z.testbit (pin2 pins) USB_STA.
(** The charger pulls [CHR_STA] low while it charges. *)
Definition charging_observed (pins : PinReads) : bool :=
  negb (Z.testbit (pin3 pins) CHR_STA).

(** ** Auxiliary definitions for the statements *)

(** The voltage ladder of modes 4 to 7. *)
Definition battery_mode (v : Z) : Z :=
  if v >? BATTERY_GOOD then 4
  else if v >? BATTERY_LOW then 5
  else if v >? BATTERY_CRITICAL then 6
  else 7.

(** The decision tree as a function of what is observed. *)
Definition mode_of (out usb chg : bool) (v : Z) : Z :=
  if out then
    if usb then (if chg then 8 else 9) else battery_mode v
  else
    if usb then (if chg then 2 else 3) else 1.


(** ** The analog converter, as the program drives it

    A conversion is in progress while ADEN and ADSC are both set.  When
    it completes, the hardware clears ADSC, presents the result in ADCL
    and ADCH, and (ADIE is set by [setup]) runs [ADC_vect]. *)

Definition converting (s : MCU) : bool :=
  Z.testbit (io s ADCSRA) ADEN && Z.testbit (io s ADCSRA) ADSC.

Definition conversion_done (s : MCU) : MCU :=
  set_io (upd ADCSRA (Z.land (io s ADCSRA) (~~ _BV ADSC)) (io s)) s.

(** A sample is the pair of bytes the converter leaves in ADCL and
    ADCH; [raw_code] is the value [ADC_vect] assembles from them. *)
Definition raw_code (sample : Z * Z) : Z :=
  u16 (Z.lor (u8 (fst sample)) (Z.shiftl (u8 (snd sample)) 8)).

Definition millivolts (sample : Z * Z) : Z := 1126400 / raw_code sample.

Definition sum_millivolts (samples : list (Z * Z)) : Z :=
  fold_right Z.add 0 (map millivolts samples).

Inductive outcome : Type :=
| Finished (n : nat) (s : MCU)  (* converter idle after [n] conversions *)
| Faulted                       (* [ADC_vect] divided by zero *)
| Starved.                      (* still converting, no sample left *)

(** Runs the converter until it is idle, feeding it [samples]; counts
    the conversions it performs. *)
Fixpoint acquire (samples : list (Z * Z)) (s : MCU) : outcome :=
  if converting s then
    match samples with
    | [] => Starved
    | x :: rest =>
        match ADC_vect (fst x) (snd x) (conversion_done s) with
        | None => Faulted
        | Some r =>
            match acquire rest (state r) with
            | Finished n s' => Finished (S n) s'
            | o => o
            end
        end
    end
  else Finished 0 s.

(** The state after each of [samples] has completed a conversion,
    whether or not the converter was re-armed in between. *)
Fixpoint convert (samples : list (Z * Z)) (s : MCU) : option MCU :=
  match samples with
  | [] => Some s
  | x :: rest =>
      match ADC_vect (fst x) (snd x) (conversion_done s) with
      | None => None
      | Some r => convert rest (state r)
      end
  end.

(** ** Evaluation cycles *)

(** A log requests an acquisition when it stores a value with ADEN and
    ADSC set into ADCSRA. *)
Definition starts_conversion (o : hw_op) : bool :=
  match o with
  | Wr ADCSRA v => Z.testbit v ADEN && Z.testbit v ADSC
  | _ => false
  end.

Definition acq_requested (l : list hw_op) : bool :=
  existsb starts_conversion l.

(** The evaluation cycles of a run of events: a pass of the main loop
    with [requestStatus] set is a cycle; each is recorded with the mode
    it evaluates to and whether it requests an acquisition. *)
Fixpoint cycles (es : list event) (s : MCU) : option (list (Z * bool)) :=
  match es with
  | [] => Some []
  | e :: es' =>
      match handle e s with
      | None => None
      | Some r =>
          match cycles es' (state r) with
          | None => None
          | Some tr =>
              match e with
              | EvLoop _ =>
                  if requestStatus s =? 1
                  then Some ((mStatus (state r), acq_requested (ops r)) :: tr)
                  else Some tr
              | _ => Some tr
              end
          end
      end
  end.

Definition requests_in (tr : list (Z * bool)) : nat :=
  length (filter snd tr).

(** [n] consecutive cycles starting at position [i]. *)
Definition window (i n : nat) (tr : list (Z * bool)) : list (Z * bool) :=
  firstn n (skipn i tr).

(** ** Before the first reading *)

(** An event publishes a voltage when it is a conversion-complete
    interrupt that finds ten samples collected. *)
Definition publishes (e : event) (s : MCU) : bool :=
  match e with
  | EvADC _ _ => negb (numSamples s <? 10)
  | _ => false
  end.

Inductive unpublished (regs : ioreg -> Z) : MCU -> Prop :=
| unpub_boot : unpublished regs (boot regs)
| unpub_step s e s' :
    unpublished regs s -> publishes e s = false -> step s e s' ->
    unpublished regs s'.

(** ** Pin drive *)

(** A port B pin is driven low when it is an output (DDRB bit set) and
    its PORTB latch is clear. *)
Definition driven_low (s : MCU) (pin : Z) : bool :=
  Z.testbit (io s DDRB) pin && negb (Z.testbit (io s PORTB) pin).

(** ** Groups of variables *)

Definition same_adc (s s' : MCU) : Prop :=
  adcVal s' = adcVal s /\ sumVolt s' = sumVolt s /\
  voltage s' = voltage s /\ numSamples s' = numSamples s.

Definition same_pwm (s s' : MCU) : Prop :=
  countPWM s' = countPWM s /\ indexDirPWM s' = indexDirPWM s /\
  indexPWM s' = indexPWM s.

(** What an acquisition leaves behind. *)
Definition conversions (o : outcome) : option nat :=
  match o with Finished n _ => Some n | _ => None end.

Definition published (o : outcome) : option Z :=
  match o with Finished _ s => Some (voltage s) | _ => None end.

(** The accumulator invariant: at most ten samples are held, the sum
    fits its 16 bits, and it is zero when no sample is held. *)
Definition adc_inv (s : MCU) : Prop :=
  0 <= numSamples s <= 10 /\ 0 <= sumVolt s < 65536 /\
  (numSamples s = 0 -> sumVolt s = 0).

(** ** Invariants *)

(** The ramp invariant: the index is within its bounds and, at a bound,
    the direction already points away from it. *)
Definition pwm_inv (s : MCU) : Prop :=
  PWM_MIN <= indexPWM s <= PWM_MAX /\
  (indexDirPWM s = 1 \/ indexDirPWM s = -1) /\
  (indexPWM s = PWM_MAX -> indexDirPWM s = -1) /\
  (indexPWM s = PWM_MIN -> indexDirPWM s = 1).

(** The request pattern of a counter compared modulo [P]: entry [i] is
    set when [a + i] is a multiple of [P]. *)
Fixpoint beat (P a : Z) (n : nat) : list bool :=
  match n with
  | O => []
  | S n' => (a mod P =? 0) :: beat P (a + 1) n'
  end.

Definition count_true (l : list bool) : nat :=
  length (filter (fun b => b) l).

(** The port invariant: the PORTB latch of the output-enable pin is
    clear, and the glow flags are 0 or 1. *)
Definition port_inv (s : MCU) : Prop :=
  Z.testbit (io s PORTB) OUT_ENA = false /\
  (red_glw s = 0 \/ red_glw s = 1) /\
  (grn_glw s = 0 \/ grn_glw s = 1).

(** ** Concrete runs *)

(** The state a run of events leads to. *)
Fixpoint run (es : list event) (s : MCU) : option MCU :=
  match es with
  | [] => Some s
  | e :: es' =>
      match handle e s with
      | None => None
      | Some r => run es' (state r)
      end
  end.

(** The state after [main] has booted over zeroed registers and made
    its first pass through the loop with the output switched on and no
    USB: mode 4 is applied and the first acquisition is started. *)
Definition first_pass : MCU :=
  state (loop_body (mkPins 2 0 0) (boot (fun _ => 0))).

(** A second concrete run: after the first pass, eleven conversions of
    raw code 360 publish 3128 mV; the next evaluation finds mode 7, and
    a watchdog interrupt requests the evaluation after that. *)
Definition low_battery_run : list event :=
  EvLoop (mkPins 2 0 0) :: repeat (EvADC 104 1) 11
  ++ [EvWDT; EvLoop (mkPins 2 0 0); EvWDT].

Definition low_battery : MCU :=
  match run low_battery_run (boot (fun _ => 0)) with
  | Some s => s
  | None => boot (fun _ => 0)
  end.

(** * Further definitions: the rest of the program's behaviour *)

(** ** Weakest preconditions

    [wp m s Q]: running [m] from [s] yields a value, a state and a log
    that satisfy [Q]. *)
Definition wp {A} (m : M A) (s : MCU)
    (Q : A -> MCU -> list hw_op -> Prop) : Prop :=
  Q (value (m s)) (state (m s)) (ops (m s)).

(** ** The register effect of [getStatus] in closed form *)

(** Whether an evaluation that returns mode [m] with the counter at
    [wc] starts an acquisition: mode 4 tests the counter as it finds
    it, modes 5 to 7 test it after the increment. *)
Definition due (m wc : Z) : bool :=
  if m =? 4 then wc mod START_ADC_1S_WATCHDOG =? 0
  else if (m =? 5) || (m =? 7) then
    u8 (wc + 1) mod START_ADC_1S_WATCHDOG =? 0
  else if m =? 6 then u8 (wc + 1) mod START_ADC_0_5S_WATCHDOG =? 0
  else false.

(** The counter an evaluation leaves. *)
Definition count_after (m wc : Z) : Z :=
  if m =? 4 then (if due m wc then 1 else u8 (wc + 1))
  else if (4 <? m) && (m <=? 7) then (if due m wc then 0 else u8 (wc + 1))
  else wc.

(** The register file an evaluation leaves, given the mode [m] it
    returns. *)
Definition status_regs (m : Z) (s : MCU) (r : ioreg) : Z :=
  match r with
  | DDRB =>
      let d := if mStatus s =? 7
               then u8 (Z.land (io s DDRB) (~~ _BV OUT_ENA))
               else io s DDRB in
      if m =? 7 then u8 (Z.lor d (_BV OUT_ENA)) else d
  | PORTB =>
      if (m =? 5) || (m =? 6)
      then u8 (Z.lxor (io s PORTB) (_BV LED_RED))
      else io s PORTB
  | MCUCR =>
      if due m (watchdogCount s)
      then u8 (Z.land (io s MCUCR) (~~ _BV SM1))
      else io s MCUCR
  | ADCSRA =>
      if due m (watchdogCount s)
      then u8 (Z.lor (io s ADCSRA) (Z.lor (_BV ADEN) (_BV ADSC)))
      else io s ADCSRA
  | _ => io s r
  end.

(** ** The actuation table

    The bits [setMode] sets and clears, as functions of the mode. *)
Definition timer_mode (m : Z) : bool := (m =? 2) || (m =? 8).
Definition green_mode (m : Z) : bool :=
  (m =? 4) || (m =? 5) || (m =? 6) || (m =? 8) || (m =? 9).
Definition red_mode (m : Z) : bool :=
  (m =? 2) || (m =? 3) || (m =? 5) || (m =? 6).
Definition battery_range (m : Z) : bool := (4 <=? m) && (m <=? 7).

(** State [s] carries the register settings of mode [m]: pin
    directions, timer 0 enables, watchdog prescaler (once a mode has
    been applied) and, outside the battery modes, a disabled
    converter. *)
Definition actuated (m : Z) (s : MCU) : Prop :=
  Z.testbit (io s DDRB) OUT_ENA = (m =? 7) /\
  Z.testbit (io s DDRB) LED_GRN = green_mode m /\
  Z.testbit (io s DDRB) LED_RED = red_mode m /\
  Z.testbit (io s TIMSK) OCIE0A = timer_mode m /\
  Z.testbit (io s TIMSK) TOIE0 = timer_mode m /\
  Z.testbit (io s TCCR0B) CS01 = timer_mode m /\
  (m <> 0 ->
   Z.testbit (io s WDTCR) WDP0 = (m =? 6) /\
   Z.testbit (io s WDTCR) WDP1 = negb (m =? 6)) /\
  (battery_range m = false -> Z.testbit (io s ADCSRA) ADEN = false).

(** The glow flags: at most one is set, and the charging modes have
    theirs. *)
Definition glow_inv (s : MCU) : Prop :=
  ((red_glw s = 0 /\ grn_glw s = 0) \/
   (red_glw s = 1 /\ grn_glw s = 0) \/
   (red_glw s = 0 /\ grn_glw s = 1)) /\
  (mStatus s = 2 -> red_glw s = 1 /\ grn_glw s = 0) /\
  (mStatus s = 8 -> red_glw s = 0 /\ grn_glw s = 1).

Definition mode_inv (s : MCU) : Prop :=
  mStatus s = pStatus s /\ 0 <= mStatus s <= 9 /\
  actuated (mStatus s) s /\ glow_inv s.

(** Register bits that are clear after a reset of the device and that
    the invariants start from. *)
Definition clean_reset (regs : ioreg -> Z) : Prop :=
  Z.testbit (regs DDRB) OUT_ENA = false /\
  Z.testbit (regs DDRB) LED_GRN = false /\
  Z.testbit (regs DDRB) LED_RED = false /\
  Z.testbit (regs TIMSK) OCIE0A = false /\
  Z.testbit (regs TIMSK) TOIE0 = false /\
  Z.testbit (regs TCCR0B) CS01 = false /\
  Z.testbit (regs ADCSRA) ADEN = false /\
  Z.testbit (regs PORTB) OUT_ENA = false.

(** What no handler but [getStatus] and [setMode] changes. *)
Definition mode_kept (s s' : MCU) : Prop :=
  mStatus s' = mStatus s /\ pStatus s' = pStatus s /\
  red_glw s' = red_glw s /\ grn_glw s' = grn_glw s /\
  io s' DDRB = io s DDRB /\ io s' TIMSK = io s TIMSK /\
  io s' TCCR0B = io s TCCR0B /\ io s' WDTCR = io s WDTCR /\
  (Z.testbit (io s ADCSRA) ADEN = false ->
   Z.testbit (io s' ADCSRA) ADEN = false).

(** The configuration [setup] writes and nothing changes afterwards. *)
Definition config_kept (s s' : MCU) : Prop :=
  io s' TCCR0A = io s TCCR0A /\ io s' ADMUX = io s ADMUX /\
  io s' PRR = io s PRR /\
  Z.testbit (io s' DDRB) CHR_STA = Z.testbit (io s DDRB) CHR_STA /\
  Z.testbit (io s' DDRB) USB_STA = Z.testbit (io s DDRB) USB_STA /\
  Z.testbit (io s' ADCSRA) ADIE = Z.testbit (io s ADCSRA) ADIE /\
  Z.testbit (io s' ADCSRA) ADPS2 = Z.testbit (io s ADCSRA) ADPS2 /\
  Z.testbit (io s' ADCSRA) ADPS1 = Z.testbit (io s ADCSRA) ADPS1 /\
  Z.testbit (io s' WDTCR) WDIE = Z.testbit (io s WDTCR) WDIE /\
  Z.testbit (io s' WDTCR) WDP2 = Z.testbit (io s WDTCR) WDP2.

(** The stored mode and the previously applied mode agree between
    handlers, and lie in 0..9. *)
Definition sync_inv (s : MCU) : Prop :=
  mStatus s = pStatus s /\ 0 <= mStatus s <= 9.

(** A third concrete run: after the first pass, eleven conversions of
    raw code 336 publish 3352 mV; the next evaluation finds mode 5, and
    a watchdog interrupt requests the evaluation after that. *)
Definition warning_run : list event :=
  EvLoop (mkPins 2 0 0) :: repeat (EvADC 80 1) 11
  ++ [EvWDT; EvLoop (mkPins 2 0 0); EvWDT].

Definition warning : MCU :=
  match run warning_run (boot (fun _ => 0)) with
  | Some s => s
  | None => boot (fun _ => 0)
  end.

(** [n] compare-match interrupts in a row. *)
Fixpoint ticks (n : nat) (s : MCU) : MCU :=
  match n with
  | O => s
  | S n' => ticks n' (state (TIM0_COMPA_vect s))
  end.

(** The duty-cycle register holds the ramp index, or still the 0 that
    [setup] stored while the index has its initial value. *)
Definition ocr_inv (s : MCU) : Prop :=
  io s OCR0A = indexPWM s \/ (io s OCR0A = 0 /\ indexPWM s = 70).

Definition count_inv (s : MCU) : Prop := 0 <= countPWM s < PWM_RAMP_SPEED.

(** The LED that glows in a charging mode. *)
Definition glow_led (m : Z) : Z := if m =? 2 then LED_RED else LED_GRN.

(** A fourth concrete state: the first pass made with the output
    switched on, USB connected and the charger active applies mode 8. *)
Definition charging : MCU :=
  state (loop_body (mkPins 2 16 0) (boot (fun _ => 0))).

(** The watchdog interrupts in a run of events. *)
Definition is_wdt (e : event) : bool :=
  match e with EvWDT => true | _ => false end.

Definition watchdogs (es : list event) : nat := length (filter is_wdt es).

(** One evaluation is pending when [requestStatus] is 1. *)
Definition pending (s : MCU) : nat := if requestStatus s =? 1 then 1 else 0.

(** The published voltage is at most a tenth of the largest 16-bit
    sum. *)
Definition voltage_inv (s : MCU) : Prop := 0 <= voltage s <= 6553.

(** The value of the last store to [r] in an access log, if there is
    one. *)
Fixpoint last_store (r : ioreg) (l : list hw_op) : option Z :=
  match l with
  | [] => None
  | o :: l' =>
      match last_store r l' with
      | Some v => Some v
      | None =>
          match o with
          | Wr r' v => if ioreg_eqb r r' then Some v else None
          | _ => None
          end
      end
  end.
(** * Properties *)

(** ** Bits *)

Lemma testbit_u8 (x b : Z) :
  0 <= b < 8 -> Z.testbit (u8 x) b = Z.testbit x b.
Proof.
  intros Hb. unfold u8. change 256 with (2 ^ 8).
  rewrite Z.testbit_mod_pow2 by lia.
  destruct (Z.ltb_spec b 8); [reflexivity | lia].
Qed.

Lemma testbit_BV (b i : Z) : 0 <= b -> Z.testbit (_BV b) i = (b =? i).
Proof.
  intros Hb. unfold _BV. rewrite Z.shiftl_1_l. now apply Z.pow2_bits_eqb.
Qed.

Lemma bit_set_testbit (x b : Z) : 0 <= b -> bit_set x b = Z.testbit x b.
Proof.
  intros Hb. unfold bit_set.
  destruct (Z.testbit x b) eqn:E.
  - destruct (Z.eqb_spec (Z.land x (_BV b)) 0) as [H0|]; [|reflexivity].
    assert (Hbit : Z.testbit (Z.land x (_BV b)) b = true).
    { rewrite Z.land_spec, E, testbit_BV, Z.eqb_refl by assumption.
      reflexivity. }
    rewrite H0, Z.bits_0 in Hbit. discriminate.
  - assert (H0 : Z.land x (_BV b) = 0).
    { apply Z.bits_inj'. intros i Hi.
      rewrite Z.land_spec, Z.bits_0, testbit_BV by assumption.
      destruct (Z.eqb_spec b i); subst; rewrite ?E; auto using andb_false_r. }
    rewrite H0. reflexivity.
Qed.

Lemma bit_set_u8 (x b : Z) : 0 <= b < 8 -> bit_set (u8 x) b = Z.testbit x b.
Proof.
  intros Hb. rewrite bit_set_testbit by lia. now apply testbit_u8.
Qed.

(** ** The mode returned by [getStatus] *)

(** Symbolic execution of a handler: call-by-value unfolding of the
    monad and of the state accessors, leaving arithmetic untouched. *)
Ltac mcu_eval :=
  cbv [getStatus start_adc incr_watchdogCount setMode mode_1 mode_2 mode_3
       mode_4 mode_5 mode_6 mode_7 mode_8 mode_9 watchdog_1s
       timer0_off timer0_on WDT_vect TIM0_OVF_vect TIM0_COMPA_vect
       ADC_vect read_adc bindF lift div_checked setup wake_up
       when bind gets modify ret
       reg_or reg_and reg_xor reg_write reg_read _delay_us
       sleep_enable sleep_disable value state ops fst snd app
       set_io set_watchdogCount set_adcVal set_sumVolt set_voltage
       set_numSamples set_countPWM set_indexDirPWM set_indexPWM
       set_mStatus set_pStatus set_grn_glw set_red_glw set_requestStatus
       io watchdogCount adcVal sumVolt voltage numSamples countPWM
       indexDirPWM indexPWM mStatus pStatus grn_glw red_glw requestStatus
       upd ioreg_eqb].

Ltac atomic_test c :=
  lazymatch c with
  | context [if _ then _ else _] => fail
  | _ => idtac
  end.

(** Case split on a test that is not itself blocked by another one. *)
Ltac case_if :=
  match goal with
  | |- context [if negb ?c then _ else _] =>
      atomic_test c;
      let E := fresh "E" in destruct c eqn:E; cbv beta iota delta [negb]
  | |- context [if ?c then _ else _] =>
      atomic_test c;
      let E := fresh "E" in destruct c eqn:E; cbv beta iota
  end.

Lemma getStatus_mode (pins : PinReads) (s : MCU) :
  value (getStatus pins s) =
  mode_of (out_observed pins) (usb_observed pins) (charging_observed pins)
    (voltage s).
Proof.
  unfold out_observed, usb_observed, charging_observed.
  rewrite <- (bit_set_u8 (pin1 pins) OUT_ENA) by (unfold OUT_ENA; lia).
  rewrite <- (bit_set_u8 (pin2 pins) USB_STA) by (unfold USB_STA; lia).
  rewrite <- (bit_set_u8 (pin3 pins) CHR_STA) by (unfold CHR_STA; lia).
  unfold mode_of, battery_mode.
  destruct s; mcu_eval.
  repeat case_if; reflexivity.
Qed.

(** C1.  With the output-enable pin read high and the USB pin read low,
    the mode follows from the stored voltage alone, by strict
    comparisons: above 3419 it is 4, above 3304 and up to 3419 it is 5,
    above 3209 and up to 3304 it is 6, and up to 3209 it is 7; a voltage
    equal to a threshold gives the lower mode. *)
Theorem battery_thresholds (pins : PinReads) (s : MCU) :
  out_observed pins = true ->
  usb_observed pins = false ->
  (voltage s > 3419 -> value (getStatus pins s) = 4) /\
  (3304 < voltage s <= 3419 -> value (getStatus pins s) = 5) /\
  (3209 < voltage s <= 3304 -> value (getStatus pins s) = 6) /\
  (voltage s <= 3209 -> value (getStatus pins s) = 7) /\
  (voltage s = 3419 -> value (getStatus pins s) = 5) /\
  (voltage s = 3304 -> value (getStatus pins s) = 6) /\
  (voltage s = 3209 -> value (getStatus pins s) = 7).
Proof.
  intros Hout Husb. rewrite getStatus_mode, Hout, Husb.
  unfold mode_of, battery_mode, BATTERY_GOOD, BATTERY_LOW, BATTERY_CRITICAL.
  repeat split; intros Hv;
    repeat match goal with
      | |- context [?a >? ?b] => destruct (Z.gtb_spec a b); try lia
      end; reflexivity.
Qed.

(** A reading of exactly 3419 mV with the output on and no USB. *)
Lemma battery_thresholds_witness :
  value (getStatus (mkPins 2 0 0) (set_voltage 3419 (power_up (fun _ => 0))))
  = 5.
Proof.
  apply (battery_thresholds (mkPins 2 0 0)
           (set_voltage 3419 (power_up (fun _ => 0))));
    reflexivity.
Defined.

(** C2.  The branch taken on the three observed booleans: output off
    gives mode 1 without USB, mode 2 with USB while charging and mode 3
    with USB when not charging; output on with USB gives mode 8 while
    charging and mode 9 when not; output on without USB gives one of the
    battery modes 4 to 7.  Every combination falls in exactly one
    branch. *)
Theorem branch_structure (pins : PinReads) (s : MCU) :
  match out_observed pins, usb_observed pins, charging_observed pins with
  | false, false, _ => value (getStatus pins s) = 1
  | false, true, true => value (getStatus pins s) = 2
  | false, true, false => value (getStatus pins s) = 3
  | true, true, true => value (getStatus pins s) = 8
  | true, true, false => value (getStatus pins s) = 9
  | true, false, _ => 4 <= value (getStatus pins s) <= 7
  end.
Proof.
  rewrite getStatus_mode.
  destruct (out_observed pins), (usb_observed pins),
    (charging_observed pins); cbn [mode_of]; try reflexivity;
    unfold battery_mode;
    repeat match goal with
      | |- context [?a >? ?b] => destruct (a >? b)
      end; lia.
Qed.

(** C9.  The mode returned depends only on the three observed pin
    levels and the stored voltage: two evaluations that agree on them
    return the same mode, whatever the rest of the two states (previous
    mode, cadence counter, registers) holds. *)
Theorem mode_memoryless (pins1 pins2 : PinReads) (s1 s2 : MCU) :
  out_observed pins1 = out_observed pins2 ->
  usb_observed pins1 = usb_observed pins2 ->
  charging_observed pins1 = charging_observed pins2 ->
  voltage s1 = voltage s2 ->
  value (getStatus pins1 s1) = value (getStatus pins2 s2).
Proof.
  intros Ho Hu Hc Hv. rewrite !getStatus_mode. congruence.
Qed.

(** Same pins and voltage; previous mode 7 and counter 3 on one side,
    previous mode 4 and counter 0 on the other. *)
Lemma mode_memoryless_witness :
  value (getStatus (mkPins 2 0 0)
           (set_mStatus 7 (set_watchdogCount 3 (power_up (fun _ => 0)))))
  = value (getStatus (mkPins 3 0 0)
           (set_mStatus 4 (power_up (fun _ => 255)))).
Proof.
  apply (mode_memoryless (mkPins 2 0 0) (mkPins 3 0 0)
           (set_mStatus 7 (set_watchdogCount 3 (power_up (fun _ => 0))))
           (set_mStatus 4 (power_up (fun _ => 255))));
    reflexivity.
Defined.

(** ** What each handler leaves alone *)

(** Each handler is characterised by the fields it may change. *)
Lemma getStatus_state (pins : PinReads) (s : MCU) :
  state (getStatus pins s) =
  set_watchdogCount (watchdogCount (state (getStatus pins s)))
    (set_io (io (state (getStatus pins s))) s).
Proof. destruct s; mcu_eval; repeat case_if; reflexivity. Qed.

Lemma setMode_state (s : MCU) :
  state (setMode s) =
  set_red_glw (red_glw (state (setMode s)))
    (set_grn_glw (grn_glw (state (setMode s)))
       (set_io (io (state (setMode s))) s)).
Proof. destruct s; mcu_eval; repeat case_if; reflexivity. Qed.

Lemma WDT_vect_state (s : MCU) :
  state (WDT_vect s) = set_requestStatus 1 (set_io (io (state (WDT_vect s))) s).
Proof. destruct s; reflexivity. Qed.

Lemma TIM0_OVF_vect_state (s : MCU) :
  state (TIM0_OVF_vect s) = set_io (io (state (TIM0_OVF_vect s))) s.
Proof. destruct s; reflexivity. Qed.

Lemma sleep_enable_state (s : MCU) :
  state (sleep_enable s) = set_io (io (state (sleep_enable s))) s.
Proof. destruct s; reflexivity. Qed.

Lemma wake_up_state (s : MCU) :
  state (wake_up s) = set_io (io (state (wake_up s))) s.
Proof. destruct s; reflexivity. Qed.

Lemma TIM0_COMPA_vect_state (s : MCU) :
  state (TIM0_COMPA_vect s) =
  set_indexPWM (indexPWM (state (TIM0_COMPA_vect s)))
    (set_indexDirPWM (indexDirPWM (state (TIM0_COMPA_vect s)))
       (set_countPWM (countPWM (state (TIM0_COMPA_vect s)))
          (set_io (io (state (TIM0_COMPA_vect s))) s))).
Proof. destruct s; mcu_eval; repeat case_if; reflexivity. Qed.

Lemma ADC_vect_state (adcl adch : Z) (s : MCU) r :
  ADC_vect adcl adch s = Some r ->
  state r =
  set_numSamples (numSamples (state r))
    (set_voltage (voltage (state r))
       (set_sumVolt (sumVolt (state r))
          (set_adcVal (adcVal (state r))
             (set_io (io (state r)) s)))).
Proof.
  destruct s; mcu_eval; repeat case_if; intros [= <-]; reflexivity.
Qed.

(** Projections of updated states. *)
Ltac proj_simpl :=
  cbn [io watchdogCount adcVal sumVolt voltage numSamples countPWM
       indexDirPWM indexPWM mStatus pStatus grn_glw red_glw requestStatus
       set_io set_watchdogCount set_adcVal set_sumVolt set_voltage
       set_numSamples set_countPWM set_indexDirPWM set_indexPWM
       set_mStatus set_pStatus set_grn_glw set_red_glw set_requestStatus].

Lemma bind_value {A B} (m : M A) (f : A -> M B) (s : MCU) :
  value (bind m f s) = value (f (value (m s)) (state (m s))).
Proof. reflexivity. Qed.

Lemma bind_state {A B} (m : M A) (f : A -> M B) (s : MCU) :
  state (bind m f s) = state (f (value (m s)) (state (m s))).
Proof. reflexivity. Qed.

Lemma bind_ops {A B} (m : M A) (f : A -> M B) (s : MCU) :
  ops (bind m f s) = ops (m s) ++ ops (f (value (m s)) (state (m s))).
Proof. reflexivity. Qed.

(** ** The main loop's evaluation block *)

Lemma getStatus_pStatus (pins : PinReads) (s : MCU) :
  pStatus (state (getStatus pins s)) = pStatus s.
Proof. rewrite getStatus_state. reflexivity. Qed.

Lemma setMode_mStatus (s : MCU) : mStatus (state (setMode s)) = mStatus s.
Proof. rewrite setMode_state. reflexivity. Qed.

(** Stepping through a sequence one projection at a time keeps a single
    copy of the continuation. *)
Ltac step_state :=
  rewrite bind_state; cbn [value state ops fst snd gets modify ret].
Ltac step_ops :=
  rewrite bind_ops, ?bind_state;
  cbn [value state ops fst snd gets modify ret app].

Lemma evaluate_idle (pins : PinReads) (s : MCU) :
  requestStatus s <> 1 -> evaluate pins s = (tt, s, []).
Proof.
  intros H. unfold evaluate.
  change (bind (gets requestStatus) ?f s) with
    (let r2 := f (requestStatus s) s in (fst (fst r2), snd (fst r2), snd r2)).
  cbv beta zeta.
  destruct (Z.eqb_spec (requestStatus s) 1); [contradiction | reflexivity].
Qed.

Lemma evaluate_state_same (pins : PinReads) (s : MCU) :
  requestStatus s = 1 ->
  value (getStatus pins s) = pStatus s ->
  state (evaluate pins s) =
    set_requestStatus 0
      (set_pStatus (value (getStatus pins s))
         (set_mStatus (value (getStatus pins s)) (state (getStatus pins s)))).
Proof.
  intros Hreq Hsame. unfold evaluate.
  step_state. rewrite Hreq. change (when (1 =? 1) ?m) with m.
  do 4 step_state.
  cbn [mStatus pStatus set_mStatus].
  rewrite getStatus_pStatus, Hsame, Z.eqb_refl.
  cbn [negb when]. do 2 step_state. reflexivity.
Qed.

Lemma evaluate_ops_same (pins : PinReads) (s : MCU) :
  requestStatus s = 1 ->
  value (getStatus pins s) = pStatus s ->
  ops (evaluate pins s) = ops (getStatus pins s).
Proof.
  intros Hreq Hsame. unfold evaluate.
  step_ops. rewrite Hreq. change (when (1 =? 1) ?m) with m.
  do 4 step_ops.
  cbn [mStatus pStatus set_mStatus].
  rewrite getStatus_pStatus, Hsame, Z.eqb_refl.
  cbn [negb when]. do 2 step_ops. apply app_nil_r.
Qed.

Lemma evaluate_state_new (pins : PinReads) (s : MCU) :
  requestStatus s = 1 ->
  value (getStatus pins s) <> pStatus s ->
  state (evaluate pins s) =
    set_requestStatus 0
      (set_pStatus (value (getStatus pins s))
         (state (setMode (set_mStatus (value (getStatus pins s))
                            (state (getStatus pins s)))))).
Proof.
  intros Hreq Hnew. unfold evaluate.
  step_state. rewrite Hreq. change (when (1 =? 1) ?m) with m.
  do 4 step_state.
  cbn [mStatus pStatus set_mStatus].
  rewrite getStatus_pStatus.
  destruct (Z.eqb_spec (value (getStatus pins s)) (pStatus s)) as [E|_];
    [contradiction|].
  cbn [negb when]. do 2 step_state.
  rewrite setMode_mStatus. reflexivity.
Qed.

Lemma evaluate_ops_new (pins : PinReads) (s : MCU) :
  requestStatus s = 1 ->
  value (getStatus pins s) <> pStatus s ->
  ops (evaluate pins s) =
    ops (getStatus pins s) ++
    ops (setMode (set_mStatus (value (getStatus pins s))
                    (state (getStatus pins s)))).
Proof.
  intros Hreq Hnew. unfold evaluate.
  step_ops. rewrite Hreq. change (when (1 =? 1) ?m) with m.
  do 4 step_ops.
  cbn [mStatus pStatus set_mStatus].
  rewrite getStatus_pStatus.
  destruct (Z.eqb_spec (value (getStatus pins s)) (pStatus s)) as [E|_];
    [contradiction|].
  cbn [negb when]. do 2 step_ops. rewrite app_nil_r. reflexivity.
Qed.

Lemma evaluate_pStatus (pins : PinReads) (s : MCU) :
  requestStatus s = 1 ->
  pStatus (state (evaluate pins s)) = value (getStatus pins s).
Proof.
  intros Hreq.
  destruct (Z.eq_dec (value (getStatus pins s)) (pStatus s)) as [E|E].
  - rewrite evaluate_state_same by assumption. reflexivity.
  - rewrite evaluate_state_new by assumption. reflexivity.
Qed.

Lemma evaluate_mStatus (pins : PinReads) (s : MCU) :
  requestStatus s = 1 ->
  mStatus (state (evaluate pins s)) = value (getStatus pins s).
Proof.
  intros Hreq.
  destruct (Z.eq_dec (value (getStatus pins s)) (pStatus s)) as [E|E].
  - rewrite evaluate_state_same by assumption. reflexivity.
  - rewrite evaluate_state_new by assumption.
    cbn [mStatus set_requestStatus set_pStatus].
    rewrite setMode_mStatus. reflexivity.
Qed.

(** *** Applying a mode twice *)

Lemma testbit_u8_any (x i : Z) :
  0 <= i -> Z.testbit (u8 x) i = (i <? 8) && Z.testbit x i.
Proof.
  intros Hi. unfold u8. change 256 with (2 ^ 8).
  apply Z.testbit_mod_pow2. lia.
Qed.

Ltac bool_cases :=
  repeat match goal with
    | |- context [Z.testbit ?x ?i] => destruct (Z.testbit x i)
    | |- context [?a =? ?b] => destruct (a =? b)
    | |- context [?a <? ?b] => destruct (a <? b)
    end; reflexivity.

(** Equality of two register values, bit by bit. *)
Ltac reg_eq :=
  try reflexivity;
  apply Z.bits_inj'; intros i Hi;
  unfold LED_RED, OUT_ENA, LED_GRN, SM1, ADEN, OCIE0A, TOIE0, CS01, WDP0,
    WDP1;
  repeat first
    [ rewrite testbit_u8_any by lia
    | rewrite Z.lor_spec
    | rewrite Z.land_spec
    | rewrite Z.lnot_spec by lia
    | rewrite testbit_BV by lia ];
  bool_cases.

Lemma setMode_dispatch (s : MCU) :
  setMode s =
  (if mStatus s =? 2 then mode_2
   else if mStatus s =? 3 then mode_3
   else if mStatus s =? 4 then mode_4
   else if mStatus s =? 5 then mode_5
   else if mStatus s =? 6 then mode_6
   else if mStatus s =? 7 then mode_7
   else if mStatus s =? 8 then mode_8
   else if mStatus s =? 9 then mode_9
   else mode_1) s.
Proof.
  unfold setMode, bind, gets. cbn [fst snd].
  match goal with |- context [?f s] =>
    lazymatch f with (if _ then _ else _) =>
      destruct (f s) as [[? ?] ?] end end.
  reflexivity.
Qed.

(** [setMode] sets and clears fixed bits: run a second time on the same
    mode it stores the values the registers already hold. *)
Lemma setMode_idempotent (s : MCU) :
  (forall r, io (state (setMode (state (setMode s)))) r
             = io (state (setMode s)) r) /\
  red_glw (state (setMode (state (setMode s)))) = red_glw (state (setMode s)) /\
  grn_glw (state (setMode (state (setMode s)))) = grn_glw (state (setMode s)).
Proof.
  rewrite (setMode_dispatch (state (setMode s))), setMode_mStatus.
  rewrite (setMode_dispatch s).
  repeat case_if; destruct s; mcu_eval;
    (split; [intros r; destruct r; reg_eq | split; reflexivity]).
Qed.

(** C7.  Actuation happens on a change of mode only, and it is
    idempotent.  In a cycle whose evaluated mode equals the previously
    applied one, the register accesses of the cycle are exactly those
    of [getStatus] and the register file is as [getStatus] left it; in
    a cycle whose mode differs, [setMode] runs once, after [getStatus],
    on the new mode.  Hence of two successive cycles that evaluate to
    the same mode the second causes no access from actuation.  Were
    [setMode] run twice on one mode, the second run would leave every
    register as the first left it. *)
Theorem edge_triggered_actuation (pins pins' : PinReads) (s t : MCU) :
  requestStatus s = 1 ->
  requestStatus t = 1 ->
  pStatus t = pStatus (state (evaluate pins s)) ->
  (value (getStatus pins s) = pStatus s ->
     ops (evaluate pins s) = ops (getStatus pins s) /\
     io (state (evaluate pins s)) = io (state (getStatus pins s))) /\
  (value (getStatus pins s) <> pStatus s ->
     ops (evaluate pins s) =
       ops (getStatus pins s) ++
       ops (setMode (set_mStatus (value (getStatus pins s))
                       (state (getStatus pins s))))) /\
  (value (getStatus pins' t) = value (getStatus pins s) ->
     ops (evaluate pins' t) = ops (getStatus pins' t) /\
     io (state (evaluate pins' t)) = io (state (getStatus pins' t))) /\
  (forall r, io (state (setMode (state (setMode s)))) r
             = io (state (setMode s)) r).
Proof.
  intros Hs Ht Hp. repeat split.
  - now apply evaluate_ops_same.
  - rewrite evaluate_state_same by assumption. reflexivity.
  - now apply evaluate_ops_new.
  - apply evaluate_ops_same; [assumption|].
    rewrite Hp, evaluate_pStatus by assumption. assumption.
  - rewrite evaluate_state_same; [reflexivity | assumption |].
    rewrite Hp, evaluate_pStatus by assumption. assumption.
  - apply setMode_idempotent.
Qed.

(** Boot, one evaluation (mode 4), a watchdog interrupt, and a second
    evaluation with the same pin levels. *)
Lemma edge_triggered_actuation_witness :
  ops (evaluate (mkPins 2 0 0)
         (state (WDT_vect
            (state (loop_body (mkPins 2 0 0) (boot (fun _ => 0)))))))
  = [Rd PINB 2; Rd PINB 0].
Proof.
  refine (eq_trans
    (proj1 (proj1 (proj2 (proj2
       (edge_triggered_actuation (mkPins 2 0 0) (mkPins 2 0 0)
          (boot (fun _ => 0))
          (state (WDT_vect
             (state (loop_body (mkPins 2 0 0) (boot (fun _ => 0))))))
          _ _ _))) _)) _);
    vm_compute; reflexivity.
Defined.

(** ** The conversion-complete interrupt *)

Lemma ADC_vect_accumulate (adcl adch : Z) (s : MCU) :
  numSamples s < 10 ->
  raw_code (adcl, adch) <> 0 ->
  ADC_vect adcl adch s =
  Some (tt,
        set_io (upd ADCSRA (u8 (Z.lor (io s ADCSRA) (_BV ADSC))) (io s))
          (set_sumVolt (u16 (sumVolt s + millivolts (adcl, adch)))
             (set_numSamples (u8 (numSamples s + 1))
                (set_adcVal (raw_code (adcl, adch)) s))),
        [Rd ADCL (u8 adcl); Rd ADCH (u8 adch);
         Wr ADCSRA (u8 (Z.lor (io s ADCSRA) (_BV ADSC)))]).
Proof.
  intros Hn Hraw. unfold millivolts, raw_code in *. cbn [fst snd] in *.
  destruct s; mcu_eval. cbn [numSamples] in Hn.
  destruct (Z.ltb_spec numSamples0 10); [|lia].
  destruct (Z.eqb_spec (u16 (Z.lor (u8 adcl) (Z.shiftl (u8 adch) 8))) 0);
    [contradiction|].
  reflexivity.
Qed.

Lemma ADC_vect_fault (adcl adch : Z) (s : MCU) :
  numSamples s < 10 ->
  raw_code (adcl, adch) = 0 ->
  ADC_vect adcl adch s = None.
Proof.
  intros Hn Hraw. unfold raw_code in *. cbn [fst snd] in *.
  destruct s; mcu_eval. cbn [numSamples] in Hn.
  destruct (Z.ltb_spec numSamples0 10); [|lia].
  rewrite Hraw. reflexivity.
Qed.

Lemma ADC_vect_publish (adcl adch : Z) (s : MCU) :
  10 <= numSamples s ->
  ADC_vect adcl adch s =
  Some (tt,
        set_io (upd ADCSRA
                  (u8 (Z.land (upd MCUCR (u8 (Z.lor (io s MCUCR) (_BV SM1)))
                                 (io s) ADCSRA) (~~ _BV ADEN)))
                  (upd MCUCR (u8 (Z.lor (io s MCUCR) (_BV SM1))) (io s)))
          (set_sumVolt 0
             (set_numSamples 0
                (set_voltage (u16 (sumVolt s / 10))
                   (set_adcVal (raw_code (adcl, adch)) s)))),
        [Rd ADCL (u8 adcl); Rd ADCH (u8 adch);
         Wr MCUCR (u8 (Z.lor (io s MCUCR) (_BV SM1)));
         Wr ADCSRA (u8 (Z.land (io s ADCSRA) (~~ _BV ADEN)))]).
Proof.
  intros Hn. unfold raw_code. cbn [fst snd].
  destruct s; mcu_eval. cbn [numSamples] in Hn.
  destruct (Z.ltb_spec numSamples0 10); [lia|].
  reflexivity.
Qed.

(** Bit-level rewriting for register values. *)
Ltac bits :=
  unfold LED_RED, OUT_ENA, LED_GRN, CHR_STA, USB_STA, SE, SM1, ADEN, ADSC,
    ADIE, OCIE0A, TOIE0, CS01, WDP0, WDP1, WDP2, WDIE in *;
  repeat first
    [ rewrite testbit_u8 by lia
    | rewrite Z.lor_spec
    | rewrite Z.land_spec
    | rewrite Z.lxor_spec
    | rewrite Z.lnot_spec by lia
    | rewrite testbit_BV by lia ];
  cbn [Z.eqb Pos.eqb negb andb orb];
  rewrite ?andb_true_r, ?andb_false_r, ?orb_true_r, ?orb_false_r.

Lemma converting_spec (s : MCU) :
  converting s = true <->
  Z.testbit (io s ADCSRA) ADEN = true /\ Z.testbit (io s ADCSRA) ADSC = true.
Proof. unfold converting. apply andb_true_iff. Qed.

Lemma rearmed (x : Z) :
  Z.testbit (u8 (Z.lor (Z.land x (~~ _BV ADSC)) (_BV ADSC))) ADSC = true /\
  Z.testbit (u8 (Z.lor (Z.land x (~~ _BV ADSC)) (_BV ADSC))) ADEN =
    Z.testbit x ADEN.
Proof. split; bits; reflexivity. Qed.

Lemma sum_wraps (a b c : Z) : u16 (u16 (a + b) + c) = u16 (a + (b + c)).
Proof.
  unfold u16. rewrite Zplus_mod_idemp_l. f_equal. lia.
Qed.

Lemma acquire_idle (samples : list (Z * Z)) (s : MCU) :
  converting s = false -> acquire samples s = Finished 0 s.
Proof. intros H. destruct samples; cbn [acquire]; rewrite H; reflexivity. Qed.

(** While fewer than ten samples are held and the converter is running,
    every completed conversion is accumulated and starts the next one. *)
Lemma acquire_collecting (samples : list (Z * Z)) :
  forall s : MCU,
    0 <= numSamples s ->
    numSamples s + Z.of_nat (length samples) <= 10 ->
    0 <= sumVolt s < 65536 ->
    Forall (fun x => raw_code x <> 0) samples ->
    converting s = true ->
    exists s',
      convert samples s = Some s' /\
      converting s' = true /\
      numSamples s' = numSamples s + Z.of_nat (length samples) /\
      sumVolt s' = u16 (sumVolt s + sum_millivolts samples) /\
      voltage s' = voltage s /\
      io s' MCUCR = io s MCUCR /\
      forall rest,
        acquire (samples ++ rest) s =
        match acquire rest s' with
        | Finished n sf => Finished (length samples + n) sf
        | o => o
        end.
Proof.
  induction samples as [|[l h] samples IH];
    intros s Hn0 Hlen Hsv Hnz Hconv.
  - exists s. repeat split; try assumption.
    + cbn. lia.
    + cbn. rewrite Z.add_0_r. unfold u16. now rewrite Z.mod_small.
    + intros rest. cbn [app length Nat.add]. destruct (acquire rest s); reflexivity.
  - cbn [length] in Hlen. rewrite Nat2Z.inj_succ in Hlen.
    inversion Hnz as [|? ? Hraw Hnz']; subst.
    cbn [acquire convert fst snd app]. rewrite Hconv.
    rewrite ADC_vect_accumulate
      by (try assumption; cbn [numSamples conversion_done set_io]; lia).
    cbn [state fst snd].
    set (s1 := set_io _ _).
    apply converting_spec in Hconv. destruct Hconv as [Hen Hsc].
    assert (Hconv1 : converting s1 = true).
    { apply converting_spec. subst s1.
      cbn [io set_io conversion_done upd ioreg_eqb].
      destruct (rearmed (io s ADCSRA)) as [H1 H2].
      rewrite H1, H2. auto. }
    assert (Hn1 : numSamples s1 = numSamples s + 1).
    { subst s1. cbn [numSamples set_io set_sumVolt set_numSamples
                     conversion_done].
      unfold u8. apply Z.mod_small. lia. }
    assert (Hs1 : sumVolt s1 = u16 (sumVolt s + millivolts (l, h))).
    { reflexivity. }
    destruct (IH s1) as (s' & Hc & Hcv & Hns & Hsum & Hv & Hm & Hacq);
      try assumption; try lia.
    { rewrite Hs1. unfold u16. apply Z.mod_pos_bound. lia. }
    exists s'. repeat split; try assumption.
    + rewrite Hns, Hn1. cbn [length]. lia.
    + rewrite Hsum, Hs1.
      unfold sum_millivolts. cbn [map fold_right].
      apply sum_wraps.
    + intros rest. rewrite Hacq.
      destruct (acquire rest s'); reflexivity.
Qed.

(** A started acquisition that finds the sample counter at zero: the
    first ten conversions are accumulated, the eleventh publishes. *)
Lemma acquire_cycle (samples : list (Z * Z)) (x : Z * Z)
      (more : list (Z * Z)) (s : MCU) :
  numSamples s = 0 ->
  0 <= sumVolt s < 65536 ->
  length samples = 10%nat ->
  Forall (fun x => raw_code x <> 0) samples ->
  converting s = true ->
  exists s10 sf,
    convert samples s = Some s10 /\
    converting s10 = true /\
    numSamples s10 = 10 /\
    voltage s10 = voltage s /\
    acquire samples s = Starved /\
    acquire (samples ++ x :: more) s = Finished 11 sf /\
    voltage sf = u16 (u16 (sumVolt s + sum_millivolts samples) / 10) /\
    numSamples sf = 0 /\
    sumVolt sf = 0 /\
    Z.testbit (io sf ADCSRA) ADEN = false /\
    Z.testbit (io sf ADCSRA) ADSC = false /\
    Z.testbit (io sf MCUCR) SM1 = true.
Proof.
  intros Hn Hsv Hlen Hnz Hconv.
  destruct (acquire_collecting samples s)
    as (s10 & Hc & Hcv & Hns & Hsum & Hv & Hm & Hacq);
    try assumption; try lia.
  rewrite Hn, Hlen in Hns. cbn in Hns.
  pose proof (ADC_vect_publish (fst x) (snd x) (conversion_done s10)) as Hp.
  cbn [numSamples conversion_done set_io] in Hp.
  specialize (Hp ltac:(lia)).
  set (sf := set_io _ _) in Hp.
  assert (Hen : Z.testbit (io sf ADCSRA) ADEN = false).
  { subst sf. cbn [io set_io upd ioreg_eqb]. bits. reflexivity. }
  assert (Hsc : Z.testbit (io sf ADCSRA) ADSC = false).
  { subst sf. cbn [io set_io upd ioreg_eqb set_sumVolt set_numSamples
                   set_voltage set_adcVal conversion_done].
    bits. reflexivity. }
  assert (Hidle : converting sf = false).
  { unfold converting. rewrite Hen. reflexivity. }
  exists s10, sf. repeat split; try assumption.
  - specialize (Hacq []). rewrite app_nil_r in Hacq. rewrite Hacq.
    cbn [acquire]. rewrite Hcv. reflexivity.
  - rewrite Hacq. cbn [acquire]. rewrite Hcv, Hp. cbn [state fst snd].
    rewrite acquire_idle by assumption. rewrite Hlen. reflexivity.
  - subst sf. cbn [voltage set_io set_sumVolt set_numSamples set_voltage
                   set_adcVal conversion_done sumVolt].
    rewrite Hsum. reflexivity.
  - subst sf. cbn [io set_io upd ioreg_eqb]. bits. reflexivity.
Qed.

(** ** Frames of the transitions *)

Lemma loop_body_state (pins : PinReads) (s : MCU) :
  state (loop_body pins s) =
  set_io (io (state (loop_body pins s))) (state (evaluate pins s)).
Proof.
  unfold loop_body. rewrite bind_state. apply sleep_enable_state.
Qed.

Lemma evaluate_frame (pins : PinReads) (s : MCU) :
  same_adc s (state (evaluate pins s)) /\
  same_pwm s (state (evaluate pins s)).
Proof.
  unfold same_adc, same_pwm.
  destruct (Z.eq_dec (requestStatus s) 1) as [Hreq|Hreq].
  - destruct (Z.eq_dec (value (getStatus pins s)) (pStatus s)) as [E|E].
    + rewrite evaluate_state_same by assumption.
      rewrite getStatus_state. repeat split; reflexivity.
    + rewrite evaluate_state_new by assumption.
      rewrite setMode_state. proj_simpl.
      rewrite getStatus_state. repeat split; reflexivity.
  - rewrite evaluate_idle by assumption. repeat split; reflexivity.
Qed.

Lemma step_same_pwm (s s' : MCU) (e : event) :
  step s e s' -> e <> EvCOMPA -> same_pwm s s'.
Proof.
  intros [r Hr ->] He. unfold same_pwm.
  destruct e; cbn [handle lift] in Hr; try (injection Hr as <-).
  - rewrite loop_body_state. proj_simpl.
    apply (evaluate_frame pins s).
  - rewrite wake_up_state. repeat split; reflexivity.
  - rewrite WDT_vect_state. repeat split; reflexivity.
  - rewrite (ADC_vect_state _ _ _ _ Hr). repeat split; reflexivity.
  - rewrite TIM0_OVF_vect_state. repeat split; reflexivity.
  - contradiction.
Qed.

Lemma step_same_adc (s s' : MCU) (e : event) :
  step s e s' -> (forall l h, e <> EvADC l h) -> same_adc s s'.
Proof.
  intros [r Hr ->] He. unfold same_adc.
  destruct e; cbn [handle lift] in Hr; try (injection Hr as <-).
  - rewrite loop_body_state. proj_simpl.
    apply (evaluate_frame pins s).
  - rewrite wake_up_state. repeat split; reflexivity.
  - rewrite WDT_vect_state. repeat split; reflexivity.
  - exfalso. eapply He. reflexivity.
  - rewrite TIM0_OVF_vect_state. repeat split; reflexivity.
  - rewrite TIM0_COMPA_vect_state. repeat split; reflexivity.
Qed.

Lemma boot_vars (regs : ioreg -> Z) :
  boot regs = set_io (io (boot regs)) (power_up regs).
Proof. reflexivity. Qed.

Lemma reachable_adc_inv (regs : ioreg -> Z) (s : MCU) :
  reachable regs s -> adc_inv s.
Proof.
  induction 1 as [|s e s' _ IH Hstep].
  - rewrite boot_vars. unfold adc_inv. cbn. lia.
  - destruct IH as (Hn & Hsv & Hz).
    destruct e;
      try (destruct (step_same_adc _ _ _ Hstep) as (_ & Hs & _ & Hns);
           [discriminate | unfold adc_inv; rewrite Hs, Hns; auto]).
    destruct Hstep as [r Hr ->]. cbn [handle] in Hr. unfold adc_inv.
    destruct (Z_lt_le_dec (numSamples s) 10) as [Hlt|Hge].
    + destruct (Z.eq_dec (raw_code (adcl, adch)) 0) as [H0|H0].
      * rewrite ADC_vect_fault in Hr by assumption. discriminate.
      * rewrite ADC_vect_accumulate in Hr by assumption.
        injection Hr as <-. cbn [state fst snd]. proj_simpl.
        assert (Hu : u8 (numSamples s + 1) = numSamples s + 1)
          by (unfold u8; apply Z.mod_small; lia).
        rewrite Hu.
        repeat split; try lia;
          try (unfold u16; apply Z.mod_pos_bound; lia).
    + rewrite ADC_vect_publish in Hr by assumption.
      injection Hr as <-. cbn [state fst snd]. proj_simpl. lia.
Qed.

Lemma Forall_prefix {A} (P : A -> Prop) (k : nat) (l : list A) :
  Forall P l -> Forall P (firstn k l).
Proof.
  intros H. rewrite <- (firstn_skipn k l) in H.
  apply Forall_app in H. tauto.
Qed.

Lemma millivolts_nonneg (x : Z * Z) : raw_code x <> 0 -> 0 <= millivolts x.
Proof.
  intros H. unfold millivolts. apply Z.div_pos; [lia|].
  assert (0 <= raw_code x < 65536)
    by (unfold raw_code, u16; apply Z.mod_pos_bound; lia).
  lia.
Qed.

Lemma sum_millivolts_nonneg (samples : list (Z * Z)) :
  Forall (fun y => raw_code y <> 0) samples -> 0 <= sum_millivolts samples.
Proof.
  induction 1 as [|x l Hx _ IH]; cbn; [lia|].
  fold (sum_millivolts l). pose proof (millivolts_nonneg x Hx). lia.
Qed.

(** C4 (as the program behaves).  An acquisition started with no sample
    held, whose first ten raw codes are not zero, performs eleven
    conversions: while fewer than ten samples are held each completed
    conversion is accumulated and starts the next, so the converter is
    still running after any [k <= 10] of them; the completion of the
    eleventh, whatever its result, starts no further conversion, clears
    ADEN, selects power-down sleep (SM1) and publishes a tenth of the
    ten accumulated values' sum as the 16-bit accumulator holds it,
    which is their average when the sum is below 65536. *)
Theorem acquisition_runs_eleven_conversions
    (regs : ioreg -> Z) (s : MCU) (samples : list (Z * Z)) (x : Z * Z)
    (more : list (Z * Z)) :
  reachable regs s ->
  numSamples s = 0 ->
  converting s = true ->
  length samples = 10%nat ->
  Forall (fun y => raw_code y <> 0) samples ->
  (forall k, (k <= 10)%nat -> acquire (firstn k samples) s = Starved) /\
  exists sf,
    acquire (samples ++ x :: more) s = Finished 11 sf /\
    converting sf = false /\
    Z.testbit (io sf ADCSRA) ADEN = false /\
    Z.testbit (io sf ADCSRA) ADSC = false /\
    Z.testbit (io sf MCUCR) SM1 = true /\
    numSamples sf = 0 /\
    voltage sf = u16 (sum_millivolts samples) / 10 /\
    (sum_millivolts samples < 65536 ->
     voltage sf = sum_millivolts samples / 10).
Proof.
  intros Hreach Hn Hconv Hlen Hnz.
  destruct (reachable_adc_inv _ _ Hreach) as (_ & Hsv & Hz).
  split.
  - intros k Hk.
    destruct (acquire_collecting (firstn k samples) s)
      as (s' & _ & Hcv & _ & _ & _ & _ & Hacq); try assumption; try lia.
    + rewrite Hn, length_firstn, Hlen. lia.
    + now apply Forall_prefix.
    + specialize (Hacq []). rewrite app_nil_r in Hacq. rewrite Hacq.
      cbn [acquire]. rewrite Hcv. reflexivity.
  - destruct (acquire_cycle samples x more s)
      as (s10 & sf & _ & _ & _ & _ & _ & Hacq & Hv & Hns & _ & Hen & Hsc & Hsm);
      try assumption.
    assert (Hpub : voltage sf = u16 (sum_millivolts samples) / 10).
    { rewrite Hv, (Hz Hn), Z.add_0_l. unfold u16 at 1. apply Z.mod_small.
      assert (0 <= u16 (sum_millivolts samples) < 65536)
        by (unfold u16; apply Z.mod_pos_bound; lia).
      split; [apply Z.div_pos; lia|].
      apply Z.div_lt_upper_bound; lia. }
    exists sf. repeat split; try assumption.
    + unfold converting. rewrite Hen. reflexivity.
    + intros Hfit. rewrite Hpub.
      pose proof (sum_millivolts_nonneg samples Hnz) as H0.
      unfold u16. rewrite Z.mod_small by lia. reflexivity.
Qed.

Lemma first_pass_reachable : reachable (fun _ => 0) first_pass.
Proof.
  eapply reach_step; [apply reach_boot|].
  apply (step_handle _ (EvLoop (mkPins 2 0 0)) _
           (loop_body (mkPins 2 0 0) (boot (fun _ => 0))));
    reflexivity.
Qed.

(** Twelve conversions are on offer after the first pass, ten of raw
    code 300 and two of raw code 0; eleven are taken, and 3754 mV, the
    value of raw code 300, is published. *)
Lemma acquisition_runs_eleven_conversions_witness :
  (forall k, (k <= 10)%nat ->
     acquire (firstn k (repeat (44, 1) 10)) first_pass = Starved) /\
  exists sf,
    acquire (repeat (44, 1) 10 ++ (0, 0) :: [(0, 0)]) first_pass
      = Finished 11 sf /\
    converting sf = false /\
    Z.testbit (io sf ADCSRA) ADEN = false /\
    Z.testbit (io sf ADCSRA) ADSC = false /\
    Z.testbit (io sf MCUCR) SM1 = true /\
    numSamples sf = 0 /\
    voltage sf = 3754 /\
    (sum_millivolts (repeat (44, 1) 10) < 65536 -> voltage sf = 3754).
Proof.
  apply (acquisition_runs_eleven_conversions (fun _ => 0) first_pass
           (repeat (44, 1) 10) (0, 0) [(0, 0)]).
  - exact first_pass_reachable.
  - vm_compute; reflexivity.
  - vm_compute; reflexivity.
  - reflexivity.
  - repeat constructor; vm_compute; discriminate.
Defined.

(** C4 as stated fails: when ten conversions have completed, ten
    samples are held, the converter has been started again and is still
    enabled; the acquisition performs eleven conversions, not ten. *)
Lemma ten_conversions_counterexample :
  option_map numSamples (convert (repeat (44, 1) 10) first_pass) = Some 10 /\
  option_map converting (convert (repeat (44, 1) 10) first_pass) = Some true /\
  acquire (repeat (44, 1) 10) first_pass = Starved /\
  conversions (acquire (repeat (44, 1) 20) first_pass) = Some 11%nat /\
  conversions (acquire (repeat (44, 1) 20) first_pass) <> Some 10%nat.
Proof. repeat split; vm_compute; (reflexivity || discriminate). Qed.

(** ** The published average *)

Lemma sum_millivolts_identical (r : Z) (samples : list (Z * Z)) :
  Forall (fun y => raw_code y = r) samples ->
  sum_millivolts samples = Z.of_nat (length samples) * (1126400 / r).
Proof.
  induction 1 as [|x l Hx _ IH]; [reflexivity|].
  unfold sum_millivolts in *. cbn [map fold_right length].
  rewrite IH, Nat2Z.inj_succ. unfold millivolts. rewrite Hx. lia.
Qed.

(** Raw codes of 172 and more are worth at most 6548 mV each, and ten
    of them fit the accumulator. *)
Lemma sum_millivolts_fits (samples : list (Z * Z)) :
  Forall (fun y => 172 <= raw_code y) samples ->
  sum_millivolts samples <= 6548 * Z.of_nat (length samples).
Proof.
  induction 1 as [|x l Hx _ IH]; [cbn; lia|].
  unfold sum_millivolts in *. cbn [map fold_right length].
  rewrite Nat2Z.inj_succ.
  assert (millivolts x <= 6548).
  { unfold millivolts. change 6548 with (1126400 / 172).
    apply Z.div_le_compat_l; lia. }
  lia.
Qed.

(** Whatever the samples, the eleventh interrupt publishes the 16-bit
    accumulator divided by ten. *)
Lemma published_wrapped (regs : ioreg -> Z) (s : MCU)
      (samples : list (Z * Z)) (x : Z * Z) (more : list (Z * Z)) :
  reachable regs s ->
  numSamples s = 0 ->
  converting s = true ->
  length samples = 10%nat ->
  Forall (fun y => raw_code y <> 0) samples ->
  published (acquire (samples ++ x :: more) s)
  = Some (u16 (sum_millivolts samples) / 10).
Proof.
  intros Hreach Hn Hconv Hlen Hnz.
  destruct (reachable_adc_inv _ _ Hreach) as (_ & Hsv & Hz).
  destruct (acquire_cycle samples x more s)
    as (s10 & sf & _ & _ & _ & _ & _ & Hacq & Hv & _); try assumption.
  rewrite Hacq. cbn [published]. rewrite Hv, (Hz Hn), Z.add_0_l.
  f_equal. unfold u16 at 1. apply Z.mod_small.
  assert (0 <= u16 (sum_millivolts samples) < 65536)
    by (unfold u16; apply Z.mod_pos_bound; lia).
  split; [apply Z.div_pos; lia|].
  apply Z.div_lt_upper_bound; lia.
Qed.

(** C3 (as the program behaves).  When the ten per-sample values
    [1126400 / raw] sum to less than 65536, the capacity of the 16-bit
    accumulator, the voltage published at the end of the cycle is their
    sum divided by ten; ten samples of one raw code [r] then publish
    exactly [1126400 / r]. *)
Theorem published_average
    (regs : ioreg -> Z) (s : MCU) (samples : list (Z * Z)) (x : Z * Z)
    (more : list (Z * Z)) :
  reachable regs s ->
  numSamples s = 0 ->
  converting s = true ->
  length samples = 10%nat ->
  Forall (fun y => raw_code y <> 0) samples ->
  sum_millivolts samples < 65536 ->
  published (acquire (samples ++ x :: more) s)
    = Some (sum_millivolts samples / 10) /\
  (forall r, Forall (fun y => raw_code y = r) samples ->
     published (acquire (samples ++ x :: more) s) = Some (1126400 / r)).
Proof.
  intros Hreach Hn Hconv Hlen Hnz Hfit.
  pose proof (sum_millivolts_nonneg samples Hnz) as H0.
  assert (Hpub : published (acquire (samples ++ x :: more) s)
                 = Some (sum_millivolts samples / 10)).
  { rewrite (published_wrapped regs) by assumption.
    unfold u16. rewrite Z.mod_small by lia. reflexivity. }
  split; [exact Hpub|].
  intros r Hr. rewrite Hpub, (sum_millivolts_identical r) by assumption.
  rewrite Hlen. f_equal.
  change (Z.of_nat 10) with 10. rewrite Z.mul_comm. apply Z.div_mul. lia.
Qed.

(** Ten samples of raw code 300 (low byte 44, high byte 1) publish
    3754 mV. *)
Lemma published_average_witness :
  published (acquire (repeat (44, 1) 10 ++ (44, 1) :: []) first_pass)
    = Some 3754.
Proof.
  refine (eq_trans
    (proj1 (published_average (fun _ => 0) first_pass
              (repeat (44, 1) 10) (44, 1) [] _ _ _ _ _ _)) _).
  - exact first_pass_reachable.
  - vm_compute; reflexivity.
  - vm_compute; reflexivity.
  - reflexivity.
  - repeat constructor; vm_compute; discriminate.
  - vm_compute; reflexivity.
  - vm_compute; reflexivity.
Defined.

(** C3 as stated fails: ten samples of raw code 100 are worth 11264 mV
    each; their sum 112640 wraps to 47104 in the 16-bit accumulator and
    4710 is published, which is neither the average of the ten values
    nor the value of a single sample. *)
Lemma average_counterexample :
  published (acquire (repeat (100, 0) 10 ++ [(100, 0)]) first_pass)
    = Some 4710 /\
  published (acquire (repeat (100, 0) 10 ++ [(100, 0)]) first_pass)
    <> Some (sum_millivolts (repeat (100, 0) 10) / 10) /\
  published (acquire (repeat (100, 0) 10 ++ [(100, 0)]) first_pass)
    <> Some (1126400 / raw_code (100, 0)).
Proof. repeat split; vm_compute; (reflexivity || discriminate). Qed.

(** ** The PWM ramp *)

(** Under [-funsigned-char] the direction -1 is stored as 255; the
    index it produces is the same. *)
Lemma ramp_step_char_sign (i : Z) : u8 (i + u8 (-1)) = u8 (i + -1).
Proof.
  unfold u8. rewrite Zplus_mod_idemp_r. reflexivity.
Qed.

(** The compare-match interrupt on the ramp variables: every
    [PWM_RAMP_SPEED]-th call moves the index by the direction and turns
    the direction at a bound; the other calls only count. *)
Lemma compa_ramp (s : MCU) :
  (u8 (countPWM s + 1) < PWM_RAMP_SPEED ->
     indexPWM (state (TIM0_COMPA_vect s)) = indexPWM s /\
     indexDirPWM (state (TIM0_COMPA_vect s)) = indexDirPWM s) /\
  (PWM_RAMP_SPEED <= u8 (countPWM s + 1) ->
     indexPWM (state (TIM0_COMPA_vect s)) = u8 (indexPWM s + indexDirPWM s) /\
     indexDirPWM (state (TIM0_COMPA_vect s)) =
       if u8 (indexPWM s + indexDirPWM s) >=? PWM_MAX then -1
       else if u8 (indexPWM s + indexDirPWM s) <=? PWM_MIN then 1
       else indexDirPWM s).
Proof.
  destruct s; mcu_eval.
  destruct (Z.geb_spec (u8 (countPWM0 + 1)) PWM_RAMP_SPEED);
    (split; intros; [|]); try lia; cbv beta iota;
    repeat case_if; split; reflexivity.
Qed.

Lemma compa_pwm_inv (s : MCU) :
  pwm_inv s -> pwm_inv (state (TIM0_COMPA_vect s)).
Proof.
  unfold pwm_inv, PWM_MIN, PWM_MAX. intros (Hb & Hd & Hmax & Hmin).
  destruct (compa_ramp s) as [Hkeep Hmove].
  destruct (Z_lt_le_dec (u8 (countPWM s + 1)) PWM_RAMP_SPEED) as [H|H].
  - destruct (Hkeep H) as [-> ->]. auto.
  - destruct (Hmove H) as [-> ->]. clear Hkeep Hmove.
    assert (Hin : 0 <= indexPWM s + indexDirPWM s <= 253) by lia.
    unfold u8. rewrite Z.mod_small by lia.
    unfold PWM_MAX, PWM_MIN.
    destruct (Z.geb_spec (indexPWM s + indexDirPWM s) 253);
      [|destruct (Z.leb_spec (indexPWM s + indexDirPWM s) 0)]; lia.
Qed.

Lemma reachable_pwm_inv (regs : ioreg -> Z) (s : MCU) :
  reachable regs s -> pwm_inv s.
Proof.
  induction 1 as [|s e s' _ IH Hstep].
  - rewrite boot_vars. unfold pwm_inv, PWM_MIN, PWM_MAX. cbn. lia.
  - destruct e;
      try (destruct (step_same_pwm _ _ _ Hstep) as (_ & Hd & Hi);
           [discriminate | unfold pwm_inv in *; rewrite Hd, Hi; exact IH]).
    destruct Hstep as [r Hr ->]. cbn [handle lift] in Hr.
    injection Hr as <-. now apply compa_pwm_inv.
Qed.

Lemma ticks_reachable (regs : ioreg -> Z) (n : nat) :
  forall s, reachable regs s -> reachable regs (ticks n s).
Proof.
  induction n as [|n IH]; intros s Hs; cbn [ticks]; [exact Hs|].
  apply IH. apply (reach_step _ s EvCOMPA); [exact Hs|].
  now apply (step_handle _ _ _ (TIM0_COMPA_vect s)).
Qed.

(** C6.  In every reachable state the ramp index lies in [0, 253].  A
    compare-match interrupt that finds the count at 2 moves the index
    one step in the stored direction.  A compare-match interrupt
    changes the direction exactly when it moves the index onto a bound:
    onto 253 it turns the direction from 1 to -1, onto 0 from -1 to 1,
    and in no other case does the direction change. *)
Theorem pwm_index_bounds (regs : ioreg -> Z) (s : MCU) :
  reachable regs s ->
  PWM_MIN <= indexPWM s <= PWM_MAX /\
  0 <= indexPWM s <= 253 /\
  (indexDirPWM (state (TIM0_COMPA_vect s)) <> indexDirPWM s <->
     indexPWM (state (TIM0_COMPA_vect s)) <> indexPWM s /\
     (indexPWM (state (TIM0_COMPA_vect s)) = 253 \/
      indexPWM (state (TIM0_COMPA_vect s)) = 0)) /\
  (indexPWM (state (TIM0_COMPA_vect s)) <> indexPWM s ->
   indexPWM (state (TIM0_COMPA_vect s)) = 253 ->
   indexDirPWM s = 1 /\ indexDirPWM (state (TIM0_COMPA_vect s)) = -1) /\
  (indexPWM (state (TIM0_COMPA_vect s)) <> indexPWM s ->
   indexPWM (state (TIM0_COMPA_vect s)) = 0 ->
   indexDirPWM s = -1 /\ indexDirPWM (state (TIM0_COMPA_vect s)) = 1) /\
  (countPWM s = 2 ->
   indexPWM (state (TIM0_COMPA_vect s)) = indexPWM s + indexDirPWM s /\
   indexPWM (state (TIM0_COMPA_vect s)) <> indexPWM s).
Proof.
  intros Hreach.
  destruct (reachable_pwm_inv _ _ Hreach) as (Hb & Hd & Hmax & Hmin).
  unfold PWM_MIN, PWM_MAX in *.
  split; [exact Hb|]. split; [exact Hb|].
  destruct (compa_ramp s) as [Hkeep Hmove].
  destruct (Z_lt_le_dec (u8 (countPWM s + 1)) PWM_RAMP_SPEED) as [H|H].
  - destruct (Hkeep H) as [-> ->]. repeat split; intros; try tauto;
      match goal with
      | E : countPWM s = 2 |- _ =>
          rewrite E in H; vm_compute in H; discriminate H
      end.
  - destruct (Hmove H) as [-> ->]. clear Hkeep Hmove.
    assert (Hin : 0 <= indexPWM s + indexDirPWM s <= 253) by lia.
    unfold u8. rewrite Z.mod_small by lia.
    unfold PWM_MAX, PWM_MIN.
    destruct (Z.geb_spec (indexPWM s + indexDirPWM s) 253);
      [|destruct (Z.leb_spec (indexPWM s + indexDirPWM s) 0)];
      repeat split; intros; lia.
Qed.

(** The ramp at its bounds.  After the first pass of the main loop, 548
    compare-match interrupts bring the index to 252 with the direction
    still 1; the next one moves it onto 253 and turns the direction to
    -1.  After 1307 the index is 1 with direction -1; the next one
    moves it onto 0 and turns the direction to 1. *)
Lemma pwm_index_bounds_witness :
  (indexPWM (ticks 548 first_pass) = 252 /\
   indexDirPWM (ticks 548 first_pass) = 1 /\
   indexPWM (state (TIM0_COMPA_vect (ticks 548 first_pass))) = 253 /\
   indexDirPWM (state (TIM0_COMPA_vect (ticks 548 first_pass))) = -1) /\
  (indexPWM (ticks 1307 first_pass) = 1 /\
   indexDirPWM (ticks 1307 first_pass) = -1 /\
   indexPWM (state (TIM0_COMPA_vect (ticks 1307 first_pass))) = 0 /\
   indexDirPWM (state (TIM0_COMPA_vect (ticks 1307 first_pass))) = 1).
Proof.
  split.
  - assert (Hi : indexPWM (ticks 548 first_pass) = 252)
      by (vm_compute; reflexivity).
    assert (Hd : indexDirPWM (ticks 548 first_pass) = 1)
      by (vm_compute; reflexivity).
    assert (Hc : countPWM (ticks 548 first_pass) = 2)
      by (vm_compute; reflexivity).
    destruct (pwm_index_bounds (fun _ => 0) (ticks 548 first_pass)
                (ticks_reachable _ 548 _ first_pass_reachable))
      as (_ & _ & _ & Hup & _ & Hstep).
    destruct (Hstep Hc) as [Hmove Hne].
    rewrite Hi, Hd in Hmove. change (252 + 1) with 253 in Hmove.
    destruct (Hup Hne Hmove) as [_ Hturn].
    repeat split; assumption.
  - assert (Hi : indexPWM (ticks 1307 first_pass) = 1)
      by (vm_compute; reflexivity).
    assert (Hd : indexDirPWM (ticks 1307 first_pass) = -1)
      by (vm_compute; reflexivity).
    assert (Hc : countPWM (ticks 1307 first_pass) = 2)
      by (vm_compute; reflexivity).
    destruct (pwm_index_bounds (fun _ => 0) (ticks 1307 first_pass)
                (ticks_reachable _ 1307 _ first_pass_reachable))
      as (_ & _ & _ & _ & Hdown & Hstep).
    destruct (Hstep Hc) as [Hmove Hne].
    rewrite Hi, Hd in Hmove. change (1 + -1) with 0 in Hmove.
    destruct (Hdown Hne Hmove) as [_ Hturn].
    repeat split; assumption.
Defined.

(** ** Before the first reading *)

Lemma unpublished_voltage (regs : ioreg -> Z) (s : MCU) :
  unpublished regs s -> voltage s = 4000.
Proof.
  induction 1 as [|s e s' _ IH Hpub Hstep].
  - reflexivity.
  - destruct e;
      try (destruct (step_same_adc _ _ _ Hstep) as (_ & _ & Hv & _);
           [discriminate | rewrite Hv; exact IH]).
    destruct Hstep as [r Hr ->]. cbn [handle publishes] in *.
    apply negb_false_iff, Z.ltb_lt in Hpub.
    destruct (Z.eq_dec (raw_code (adcl, adch)) 0) as [H0|H0].
    + rewrite ADC_vect_fault in Hr by assumption. discriminate.
    + rewrite ADC_vect_accumulate in Hr by assumption.
      injection Hr as <-. exact IH.
Qed.

(** C10.  From power-up until a conversion-complete interrupt publishes
    a voltage for the first time, the stored voltage is the initialiser
    4000, whatever samples the converter has delivered; an evaluation in
    that window that reads the output-enable pin high and the USB pin
    low returns mode 4. *)
Theorem initial_reading (regs : ioreg -> Z) (s : MCU) (pins : PinReads) :
  unpublished regs s ->
  voltage (power_up regs) = 4000 /\
  voltage s = 4000 /\
  (out_observed pins = true -> usb_observed pins = false ->
   value (getStatus pins s) = 4).
Proof.
  intros Hs. pose proof (unpublished_voltage _ _ Hs) as Hv.
  repeat split; [exact Hv|].
  intros Hout Husb. rewrite getStatus_mode, Hout, Husb, Hv. reflexivity.
Qed.

(** The evaluation that follows the first pass of the loop. *)
Lemma initial_reading_witness :
  value (getStatus (mkPins 2 0 0) first_pass) = 4.
Proof.
  refine (proj2 (proj2
            (initial_reading (fun _ => 0) first_pass (mkPins 2 0 0) _))
            eq_refl eq_refl).
  apply (unpub_step _ (boot (fun _ => 0)) (EvLoop (mkPins 2 0 0))).
  - apply unpub_boot.
  - reflexivity.
  - apply (step_handle _ _ _
             (loop_body (mkPins 2 0 0) (boot (fun _ => 0))));
      reflexivity.
Defined.

(** ** Sampling cadence *)

Lemma acq_requested_app (l1 l2 : list hw_op) :
  acq_requested (l1 ++ l2) = acq_requested l1 || acq_requested l2.
Proof. apply existsb_app. Qed.

Lemma setMode_no_request (s : MCU) : acq_requested (ops (setMode s)) = false.
Proof.
  destruct s; mcu_eval; repeat case_if;
    cbn [acq_requested existsb starts_conversion orb]; bits; reflexivity.
Qed.

(** One evaluation in a battery mode: whether it requests an
    acquisition, and the counter it leaves. *)
Lemma getStatus_cadence (pins : PinReads) (s : MCU) :
  (value (getStatus pins s) = 4 ->
     acq_requested (ops (getStatus pins s))
       = (watchdogCount s mod 4 =? 0) /\
     watchdogCount (state (getStatus pins s))
       = if watchdogCount s mod 4 =? 0 then 1 else u8 (watchdogCount s + 1)) /\
  (value (getStatus pins s) = 5 \/ value (getStatus pins s) = 7 ->
     acq_requested (ops (getStatus pins s))
       = (u8 (watchdogCount s + 1) mod 4 =? 0) /\
     watchdogCount (state (getStatus pins s))
       = if u8 (watchdogCount s + 1) mod 4 =? 0 then 0
         else u8 (watchdogCount s + 1)) /\
  (value (getStatus pins s) = 6 ->
     acq_requested (ops (getStatus pins s))
       = (u8 (watchdogCount s + 1) mod 8 =? 0) /\
     watchdogCount (state (getStatus pins s))
       = if u8 (watchdogCount s + 1) mod 8 =? 0 then 0
         else u8 (watchdogCount s + 1)).
Proof.
  unfold START_ADC_1S_WATCHDOG, START_ADC_0_5S_WATCHDOG.
  destruct s; mcu_eval.
  unfold START_ADC_1S_WATCHDOG, START_ADC_0_5S_WATCHDOG.
  repeat case_if;
    (split; [|split]); intros H; try discriminate H;
    try (destruct H as [H|H]; discriminate H);
    (split;
     [cbn [acq_requested existsb starts_conversion orb]; bits; reflexivity
     |reflexivity]).
Qed.

Lemma sleep_enable_no_request (s : MCU) :
  acq_requested (ops (sleep_enable s)) = false.
Proof. reflexivity. Qed.

(** A pass of the loop that evaluates: the mode it stores, whether it
    requests an acquisition and the counter it leaves are those of
    [getStatus]. *)
Lemma loop_cycle (pins : PinReads) (s : MCU) :
  requestStatus s = 1 ->
  mStatus (state (loop_body pins s)) = value (getStatus pins s) /\
  acq_requested (ops (loop_body pins s))
    = acq_requested (ops (getStatus pins s)) /\
  watchdogCount (state (loop_body pins s))
    = watchdogCount (state (getStatus pins s)).
Proof.
  intros Hreq. rewrite loop_body_state. proj_simpl.
  split; [now apply evaluate_mStatus|].
  unfold loop_body. rewrite bind_ops, acq_requested_app.
  rewrite sleep_enable_no_request, orb_false_r.
  destruct (Z.eq_dec (value (getStatus pins s)) (pStatus s)) as [E|E].
  - rewrite evaluate_ops_same, evaluate_state_same by assumption.
    split; reflexivity.
  - rewrite evaluate_ops_new, evaluate_state_new by assumption.
    rewrite acq_requested_app, setMode_no_request, orb_false_r.
    split; [reflexivity|]. proj_simpl. rewrite setMode_state. reflexivity.
Qed.

(** Nothing but an evaluating pass of the loop touches the counter. *)
Lemma quiet_step_count (e : event) (s : MCU) r :
  handle e s = Some r ->
  match e with EvLoop _ => requestStatus s <> 1 | _ => True end ->
  watchdogCount (state r) = watchdogCount s.
Proof.
  intros Hr Hq.
  destruct e; cbn [handle lift] in Hr; try (injection Hr as <-).
  - rewrite loop_body_state. proj_simpl.
    rewrite evaluate_idle by assumption. reflexivity.
  - rewrite wake_up_state. reflexivity.
  - rewrite WDT_vect_state. reflexivity.
  - rewrite (ADC_vect_state _ _ _ _ Hr). reflexivity.
  - rewrite TIM0_OVF_vect_state. reflexivity.
  - rewrite TIM0_COMPA_vect_state. reflexivity.
Qed.

Lemma beat_mod (P : Z) (n : nat) :
  forall a a', a mod P = a' mod P -> beat P a n = beat P a' n.
Proof.
  induction n as [|n IH]; intros a a' H; cbn [beat]; [reflexivity|].
  rewrite H. f_equal. apply IH.
  rewrite (Zplus_mod a), (Zplus_mod a'), H. reflexivity.
Qed.

Lemma beat_window (P : Z) (k : nat) :
  forall (i n : nat) (a : Z),
    (i + k <= n)%nat ->
    firstn k (skipn i (beat P a n)) = beat P (a + Z.of_nat i) k.
Proof.
  induction i as [|i IH]; intros n a H.
  - cbn [skipn]. rewrite Z.add_0_r. revert n a H.
    induction k as [|k IHk]; intros n a H; [reflexivity|].
    destruct n as [|n]; [lia|]. cbn [beat firstn]. f_equal.
    apply IHk. lia.
  - destruct n as [|n]; [lia|]. cbn [beat skipn].
    rewrite IH by lia. f_equal. lia.
Qed.

Lemma beat_4_once (a : Z) : count_true (beat 4 a 4) = 1%nat.
Proof.
  rewrite (beat_mod 4 4 a (a mod 4)) by (now rewrite Z.mod_mod).
  assert (H : 0 <= a mod 4 < 4) by (apply Z.mod_pos_bound; lia).
  assert (C : a mod 4 = 0 \/ a mod 4 = 1 \/ a mod 4 = 2 \/ a mod 4 = 3)
    by lia.
  destruct C as [-> | [-> | [-> | ->]]]; reflexivity.
Qed.

Lemma beat_8_once (a : Z) : count_true (beat 8 a 8) = 1%nat.
Proof.
  rewrite (beat_mod 8 8 a (a mod 8)) by (now rewrite Z.mod_mod).
  assert (H : 0 <= a mod 8 < 8) by (apply Z.mod_pos_bound; lia).
  assert (C : a mod 8 = 0 \/ a mod 8 = 1 \/ a mod 8 = 2 \/ a mod 8 = 3 \/
              a mod 8 = 4 \/ a mod 8 = 5 \/ a mod 8 = 6 \/ a mod 8 = 7)
    by lia.
  destruct C as [-> | [-> | [-> | [-> | [-> | [-> | [-> | ->]]]]]]];
    reflexivity.
Qed.

Lemma requests_in_count (tr : list (Z * bool)) :
  requests_in tr = count_true (map snd tr).
Proof.
  unfold requests_in, count_true.
  induction tr as [|[m b] tr IH]; [reflexivity|].
  cbn [filter map snd]. destruct b; cbn [length]; now rewrite IH.
Qed.

Section Cadence.

(** A set of modes that compare the counter modulo [P], after adding
    [d] to it ([d] is 1 where the counter is incremented before the
    test, 0 where it is incremented after). *)
Variables (P d : Z) (ok : Z -> Prop).
Hypothesis P_pos : 0 < P.
Hypothesis ok_step :
  forall pins s,
    ok (value (getStatus pins s)) ->
    acq_requested (ops (getStatus pins s))
      = ((watchdogCount s + d) mod P =? 0) /\
    (watchdogCount (state (getStatus pins s)) + d) mod P
      = (watchdogCount s + d + 1) mod P.

Lemma cycles_beat (es : list event) :
  forall (s : MCU) (tr : list (Z * bool)),
    cycles es s = Some tr ->
    Forall (fun c => ok (fst c)) tr ->
    map snd tr = beat P (watchdogCount s + d) (length tr).
Proof.
  induction es as [|e es IH]; intros s tr Hc Hok.
  - injection Hc as <-. reflexivity.
  - cbn [cycles] in Hc.
    destruct (handle e s) as [r|] eqn:Hr; [|discriminate].
    destruct (cycles es (state r)) as [tr'|] eqn:Hc'; [|discriminate].
    assert (Hquiet :
      match e with EvLoop _ => requestStatus s <> 1 | _ => True end ->
      tr = tr' -> map snd tr = beat P (watchdogCount s + d) (length tr)).
    { intros Hq ->.
      rewrite <- (quiet_step_count e s r Hr Hq). now apply IH. }
    destruct e; try (apply Hquiet; [exact I | congruence]).
    destruct (Z.eqb_spec (requestStatus s) 1) as [Hreq|Hreq];
      [|apply Hquiet; [exact Hreq | congruence]].
    injection Hc as <-. cbn [handle lift] in Hr. injection Hr as <-.
    pose proof (Forall_inv Hok) as Hm.
    pose proof (Forall_inv_tail Hok) as Hok'.
    change (ok (mStatus (state (loop_body pins s)))) in Hm.
    destruct (loop_cycle pins s Hreq) as (HmS & Hacq & Hwc).
    rewrite HmS in Hm. destruct (ok_step pins s Hm) as [Hreqd Hnext].
    cbn [map snd length beat]. rewrite Hacq, Hreqd. f_equal.
    rewrite (IH _ _ Hc' Hok'), Hwc.
    apply beat_mod. exact Hnext.
Qed.

Lemma window_beat (es : list event) (s : MCU) (tr : list (Z * bool))
      (i k : nat) :
  cycles es s = Some tr ->
  Forall (fun c => ok (fst c)) tr ->
  (i + k <= length tr)%nat ->
  requests_in (window i k tr)
    = count_true (beat P (watchdogCount s + d + Z.of_nat i) k).
Proof.
  intros Hc Hok Hlen. unfold window.
  rewrite requests_in_count, <- firstn_map, <- skipn_map.
  rewrite (cycles_beat es s tr Hc Hok).
  now rewrite beat_window.
Qed.

End Cadence.

Lemma cadence_mode_4 (pins : PinReads) (s : MCU) :
  value (getStatus pins s) = 4 ->
  acq_requested (ops (getStatus pins s))
    = ((watchdogCount s + 0) mod 4 =? 0) /\
  (watchdogCount (state (getStatus pins s)) + 0) mod 4
    = (watchdogCount s + 0 + 1) mod 4.
Proof.
  intros H. destruct (getStatus_cadence pins s) as [H4 _].
  destruct (H4 H) as [-> ->]. rewrite !Z.add_0_r. split; [reflexivity|].
  destruct (Z.eqb_spec (watchdogCount s mod 4) 0); unfold u8;
    Z.div_mod_to_equations; lia.
Qed.

Lemma cadence_mode_5_7 (pins : PinReads) (s : MCU) :
  value (getStatus pins s) = 5 \/ value (getStatus pins s) = 7 ->
  acq_requested (ops (getStatus pins s))
    = ((watchdogCount s + 1) mod 4 =? 0) /\
  (watchdogCount (state (getStatus pins s)) + 1) mod 4
    = (watchdogCount s + 1 + 1) mod 4.
Proof.
  intros H. destruct (getStatus_cadence pins s) as (_ & H57 & _).
  destruct (H57 H) as [-> ->].
  assert (E : u8 (watchdogCount s + 1) mod 4 = (watchdogCount s + 1) mod 4)
    by (unfold u8; Z.div_mod_to_equations; lia).
  rewrite E. split; [reflexivity|].
  destruct (Z.eqb_spec ((watchdogCount s + 1) mod 4) 0); unfold u8;
    Z.div_mod_to_equations; lia.
Qed.

Lemma cadence_mode_6 (pins : PinReads) (s : MCU) :
  value (getStatus pins s) = 6 ->
  acq_requested (ops (getStatus pins s))
    = ((watchdogCount s + 1) mod 8 =? 0) /\
  (watchdogCount (state (getStatus pins s)) + 1) mod 8
    = (watchdogCount s + 1 + 1) mod 8.
Proof.
  intros H. destruct (getStatus_cadence pins s) as (_ & _ & H6).
  destruct (H6 H) as [-> ->].
  assert (E : u8 (watchdogCount s + 1) mod 8 = (watchdogCount s + 1) mod 8)
    by (unfold u8; Z.div_mod_to_equations; lia).
  rewrite E. split; [reflexivity|].
  destruct (Z.eqb_spec ((watchdogCount s + 1) mod 8) 0); unfold u8;
    Z.div_mod_to_equations; lia.
Qed.

(** C5.  Take the evaluation cycles of any run of events.  If all of
    them evaluate to mode 4, or all of them to mode 5 or 7, every four
    consecutive cycles contain exactly one that requests an
    acquisition; if all of them evaluate to mode 6, every eight
    consecutive cycles contain exactly one. *)
Theorem sampling_cadence (es : list event) (s : MCU)
    (tr : list (Z * bool)) :
  cycles es s = Some tr ->
  (Forall (fun c => fst c = 4) tr \/
   Forall (fun c => fst c = 5 \/ fst c = 7) tr ->
   forall i, (i + 4 <= length tr)%nat ->
     requests_in (window i 4 tr) = 1%nat) /\
  (Forall (fun c => fst c = 6) tr ->
   forall i, (i + 8 <= length tr)%nat ->
     requests_in (window i 8 tr) = 1%nat).
Proof.
  intros Hc. split.
  - intros [H4|H57] i Hi.
    + rewrite (window_beat 4 0 (fun m => m = 4) cadence_mode_4 es s tr)
        by assumption.
      apply beat_4_once.
    + rewrite (window_beat 4 1 (fun m => m = 5 \/ m = 7) cadence_mode_5_7
                 es s tr) by assumption.
      apply beat_4_once.
  - intros H6 i Hi.
    rewrite (window_beat 8 1 (fun m => m = 6) cadence_mode_6 es s tr)
      by assumption.
    apply beat_8_once.
Qed.

(** Boot, then six evaluation cycles in mode 4, a watchdog interrupt
    between any two. *)
Lemma sampling_cadence_witness :
  requests_in
    (window 1 4
       [(4, true); (4, false); (4, false); (4, false); (4, true); (4, false)])
  = 1%nat.
Proof.
  refine (proj1
    (sampling_cadence
       (flat_map (fun _ => [EvLoop (mkPins 2 0 0); EvWDT]) (seq 0 6))
       (boot (fun _ => 0)) _ _) (or_introl _) 1%nat _).
  - vm_compute; reflexivity.
  - repeat constructor.
  - cbn; lia.
Defined.

(** C5 as stated fails for a run spent in modes 4 and 5.  From boot the
    first evaluation is in mode 4 and requests an acquisition; its
    eleven conversions of raw code 336 publish 3352 mV, so the next
    three evaluations, a watchdog interrupt before each, are in mode 5,
    and the third of them requests again: these four consecutive
    cycles, all in mode 4 or 5, contain two requests, not one. *)
Lemma mixed_cadence_counterexample :
  cycles
    (EvLoop (mkPins 2 0 0) :: repeat (EvADC 80 1) 11
     ++ flat_map (fun _ => [EvWDT; EvLoop (mkPins 2 0 0)]) (seq 0 3))
    (boot (fun _ => 0))
  = Some [(4, true); (5, false); (5, false); (5, true)] /\
  forallb (fun c => (fst c =? 4) || (fst c =? 5) || (fst c =? 7))
    [(4, true); (5, false); (5, false); (5, true)] = true /\
  requests_in (window 0 4 [(4, true); (5, false); (5, false); (5, true)])
    = 2%nat /\
  requests_in (window 0 4 [(4, true); (5, false); (5, false); (5, true)])
    <> 1%nat.
Proof. repeat split; vm_compute; (reflexivity || discriminate). Qed.

(** The two cadences are out of phase: mode 4 tests the counter before
    incrementing it, modes 5 to 7 after.  When the mode changes from 5
    to 4 right after a request, the next cycle requests again. *)
Example cadence_across_mode_change :
  cycles
    (flat_map (fun _ => [EvLoop (mkPins 2 0 0); EvWDT]) (seq 0 4)
     ++ repeat (EvADC 25 1) 11
     ++ [EvLoop (mkPins 2 0 0)])
    (set_voltage 3350 (boot (fun _ => 0)))
  = Some [(5, false); (5, false); (5, false); (5, true); (4, true)].
Proof. vm_compute; reflexivity. Qed.

(** ** The output-enable line *)

Lemma getStatus_drive (pins : PinReads) (s : MCU) :
  value (getStatus pins s) = 7 ->
  Z.testbit (io (state (getStatus pins s)) DDRB) OUT_ENA = true.
Proof.
  destruct s; mcu_eval; repeat case_if; intros H; try discriminate H;
    bits; reflexivity.
Qed.

Lemma getStatus_portb (pins : PinReads) (s : MCU) :
  Z.testbit (io (state (getStatus pins s)) PORTB) OUT_ENA
  = Z.testbit (io s PORTB) OUT_ENA.
Proof.
  destruct s; mcu_eval; repeat case_if; bits;
    rewrite ?xorb_false_r; reflexivity.
Qed.

Lemma setMode_portb (s : MCU) :
  Z.testbit (io s PORTB) OUT_ENA = false ->
  Z.testbit (io (state (setMode s)) PORTB) OUT_ENA = false.
Proof.
  destruct s; mcu_eval; intros H; repeat case_if; bits;
    rewrite ?H; reflexivity.
Qed.

Lemma setMode_drive (s : MCU) :
  mStatus s = 7 ->
  Z.testbit (io (state (setMode s)) DDRB) OUT_ENA = true.
Proof.
  destruct s; cbn [mStatus]; intros H; mcu_eval; repeat case_if;
    try lia; bits; reflexivity.
Qed.

Lemma setMode_glow (s : MCU) :
  (red_glw s = 0 \/ red_glw s = 1) /\ (grn_glw s = 0 \/ grn_glw s = 1) ->
  (red_glw (state (setMode s)) = 0 \/ red_glw (state (setMode s)) = 1) /\
  (grn_glw (state (setMode s)) = 0 \/ grn_glw (state (setMode s)) = 1).
Proof.
  destruct s; mcu_eval; intros H; repeat case_if; auto.
Qed.

Lemma getStatus_port_inv (pins : PinReads) (s : MCU) :
  port_inv s -> port_inv (state (getStatus pins s)).
Proof.
  assert (Hr : red_glw (state (getStatus pins s)) = red_glw s)
    by (rewrite getStatus_state; reflexivity).
  assert (Hg : grn_glw (state (getStatus pins s)) = grn_glw s)
    by (rewrite getStatus_state; reflexivity).
  unfold port_inv. rewrite getStatus_portb, Hr, Hg. auto.
Qed.

Lemma evaluate_port_inv (pins : PinReads) (s : MCU) :
  port_inv s -> port_inv (state (evaluate pins s)).
Proof.
  intros Hinv.
  pose proof (getStatus_port_inv pins s Hinv) as (Hp & Hglow).
  destruct (Z.eq_dec (requestStatus s) 1) as [Hreq|Hreq].
  - destruct (Z.eq_dec (value (getStatus pins s)) (pStatus s)) as [E|E].
    + rewrite evaluate_state_same by assumption.
      unfold port_inv. proj_simpl. auto.
    + rewrite evaluate_state_new by assumption.
      unfold port_inv. proj_simpl.
      split; [apply setMode_portb; exact Hp|].
      apply setMode_glow. exact Hglow.
  - rewrite evaluate_idle by assumption. exact Hinv.
Qed.

Lemma ADC_vect_portb (adcl adch : Z) (s : MCU) r :
  ADC_vect adcl adch s = Some r -> io (state r) PORTB = io s PORTB.
Proof.
  intros Hr.
  destruct (Z_lt_le_dec (numSamples s) 10) as [Hlt|Hge].
  - destruct (Z.eq_dec (raw_code (adcl, adch)) 0) as [H0|H0].
    + rewrite ADC_vect_fault in Hr by assumption. discriminate.
    + rewrite ADC_vect_accumulate in Hr by assumption.
      injection Hr as <-. reflexivity.
  - rewrite ADC_vect_publish in Hr by assumption.
    injection Hr as <-. reflexivity.
Qed.

Lemma TIM0_OVF_vect_port_inv (s : MCU) :
  port_inv s -> port_inv (state (TIM0_OVF_vect s)).
Proof.
  unfold port_inv. destruct s; mcu_eval. intros (Hp & Hr & Hg).
  repeat split; try assumption.
  bits. rewrite Hp, !Z.shiftl_spec by lia.
  rewrite Z.testbit_neg_r by lia.
  destruct Hr as [-> | ->]; reflexivity.
Qed.

Lemma TIM0_COMPA_vect_port_inv (s : MCU) :
  port_inv s -> port_inv (state (TIM0_COMPA_vect s)).
Proof.
  unfold port_inv. destruct s; mcu_eval. intros (Hp & Hr & Hg).
  repeat case_if; (repeat split; try assumption);
    bits; rewrite Hp; reflexivity.
Qed.

Lemma reachable_port_inv (regs : ioreg -> Z) (s : MCU) :
  Z.testbit (regs PORTB) OUT_ENA = false ->
  reachable regs s -> port_inv s.
Proof.
  intros Hreset. induction 1 as [|s e s' _ IH Hstep].
  - unfold port_inv. rewrite boot_vars. cbn. auto.
  - destruct Hstep as [r Hr ->].
    destruct e; cbn [handle lift] in Hr; try (injection Hr as <-).
    + unfold loop_body. rewrite bind_state.
      pose proof (evaluate_port_inv pins s IH) as Hinv.
      unfold port_inv in *. rewrite sleep_enable_state. exact Hinv.
    + unfold port_inv in *. rewrite wake_up_state. exact IH.
    + unfold port_inv in *. rewrite WDT_vect_state. exact IH.
    + unfold port_inv in *. rewrite (ADC_vect_portb _ _ _ _ Hr).
      rewrite (ADC_vect_state _ _ _ _ Hr). exact IH.
    + now apply TIM0_OVF_vect_port_inv.
    + now apply TIM0_COMPA_vect_port_inv.
Qed.

Lemma run_reachable (regs : ioreg -> Z) (es : list event) :
  forall s s', reachable regs s -> run es s = Some s' -> reachable regs s'.
Proof.
  induction es as [|e es IH]; intros s s' Hs Hrun; cbn [run] in Hrun.
  - injection Hrun as <-. exact Hs.
  - destruct (handle e s) as [r|] eqn:Hr; [|discriminate].
    apply (IH (state r)); [|exact Hrun].
    apply (reach_step _ s e); [exact Hs|].
    now apply (step_handle _ _ _ r).
Qed.

Lemma low_battery_reachable : reachable (fun _ => 0) low_battery.
Proof.
  unfold low_battery.
  destruct (run low_battery_run (boot (fun _ => 0))) as [s|] eqn:E.
  - apply (run_reachable _ low_battery_run (boot (fun _ => 0)));
      [apply reach_boot | exact E].
  - apply reach_boot.
Qed.

(** The first accesses of [getStatus]: entered with the previous mode
    7 it clears the DDRB bit of the output-enable pin, waits 5 us and
    only then reads PINB; entered with another mode it reads PINB at
    once. *)
Lemma getStatus_first_ops (pins : PinReads) (s : MCU) :
  (mStatus s = 7 ->
   firstn 3 (ops (getStatus pins s))
   = [Wr DDRB (u8 (Z.land (io s DDRB) (~~ _BV OUT_ENA))); Delay_us 5;
      Rd PINB (u8 (pin1 pins))]) /\
  (mStatus s <> 7 ->
   firstn 1 (ops (getStatus pins s)) = [Rd PINB (u8 (pin1 pins))]).
Proof.
  destruct s; cbn [mStatus]; mcu_eval.
  repeat case_if; (split; intros H; try lia; reflexivity).
Qed.

(** C8.  Over registers whose PORTB latch for the output-enable pin is
    clear at reset: an evaluation that reads the output-enable pin high
    and the USB pin low while the stored voltage is at most 3209
    returns mode 7 and leaves the pin driven low (DDRB bit set, PORTB
    bit clear), and so does the whole evaluation block of the main
    loop.  An evaluation entered with the previous mode 7 first releases
    the pin (clears its DDRB bit), then waits 5 us, and only then reads
    PINB. *)
Theorem critical_cutoff (regs : ioreg -> Z) (s : MCU) (pins : PinReads) :
  Z.testbit (regs PORTB) OUT_ENA = false ->
  reachable regs s ->
  (out_observed pins = true -> usb_observed pins = false ->
   voltage s <= 3209 ->
     value (getStatus pins s) = 7 /\
     driven_low (state (getStatus pins s)) OUT_ENA = true /\
     (requestStatus s = 1 ->
        mStatus (state (evaluate pins s)) = 7 /\
        driven_low (state (evaluate pins s)) OUT_ENA = true)) /\
  (mStatus s = 7 ->
     firstn 3 (ops (getStatus pins s))
     = [Wr DDRB (u8 (Z.land (io s DDRB) (~~ _BV OUT_ENA))); Delay_us 5;
        Rd PINB (u8 (pin1 pins))] /\
     Z.testbit (u8 (Z.land (io s DDRB) (~~ _BV OUT_ENA))) OUT_ENA = false).
Proof.
  intros Hreset Hreach.
  pose proof (reachable_port_inv regs s Hreset Hreach) as Hinv.
  split.
  - intros Hout Husb Hv.
    assert (H7 : value (getStatus pins s) = 7).
    { rewrite getStatus_mode, Hout, Husb.
      unfold mode_of, battery_mode, BATTERY_GOOD, BATTERY_LOW,
        BATTERY_CRITICAL.
      repeat match goal with
        | |- context [?a >? ?b] => destruct (Z.gtb_spec a b); try lia
        end. }
    pose proof (getStatus_port_inv pins s Hinv) as (Hp & Hglow).
    pose proof (getStatus_drive pins s H7) as Hd.
    split; [exact H7|]. split.
    + unfold driven_low. rewrite Hd, Hp. reflexivity.
    + intros Hreq. split; [rewrite evaluate_mStatus; assumption|].
      unfold driven_low.
      destruct (Z.eq_dec (value (getStatus pins s)) (pStatus s)) as [E|E].
      * rewrite evaluate_state_same by assumption. proj_simpl.
        rewrite Hd, Hp. reflexivity.
      * rewrite evaluate_state_new by assumption. proj_simpl.
        rewrite setMode_drive, setMode_portb; try reflexivity.
        -- proj_simpl. exact Hp.
        -- proj_simpl. exact H7.
  - intros H7. split; [now apply getStatus_first_ops|].
    bits. reflexivity.
Qed.

(** The evaluation that follows [low_battery_run]: the stored voltage
    is 3128 and the previous mode is 7. *)
Lemma critical_cutoff_witness :
  (value (getStatus (mkPins 2 0 0) low_battery) = 7 /\
   driven_low (state (getStatus (mkPins 2 0 0) low_battery)) OUT_ENA = true /\
   (requestStatus low_battery = 1 ->
    mStatus (state (evaluate (mkPins 2 0 0) low_battery)) = 7 /\
    driven_low (state (evaluate (mkPins 2 0 0) low_battery)) OUT_ENA = true))
  /\
  (firstn 3 (ops (getStatus (mkPins 2 0 0) low_battery))
   = [Wr DDRB (u8 (Z.land (io low_battery DDRB) (~~ _BV OUT_ENA)));
      Delay_us 5; Rd PINB (u8 (pin1 (mkPins 2 0 0)))] /\
   Z.testbit (u8 (Z.land (io low_battery DDRB) (~~ _BV OUT_ENA))) OUT_ENA
   = false).
Proof.
  pose proof (critical_cutoff (fun _ => 0) low_battery (mkPins 2 0 0)
                eq_refl low_battery_reachable) as [Ha Hb].
  split.
  - apply Ha; vm_compute; (reflexivity || discriminate).
  - apply Hb; vm_compute; reflexivity.
Defined.

(** * Further properties *)

(** ** Symbolic execution along one path at a time *)

Lemma wp_bind {A B} (m : M A) (f : A -> M B) (s : MCU) Q :
  wp m s (fun a s1 l1 => wp (f a) s1 (fun b s2 l2 => Q b s2 (l1 ++ l2))) ->
  wp (bind m f) s Q.
Proof. exact (fun H => H). Qed.

Lemma wp_ret {A} (a : A) (s : MCU) (Q : A -> MCU -> list hw_op -> Prop) :
  Q a s [] -> wp (ret a) s Q.
Proof. exact (fun H => H). Qed.

Lemma wp_gets {A} (f : MCU -> A) (s : MCU)
      (Q : A -> MCU -> list hw_op -> Prop) :
  Q (f s) s [] -> wp (gets f) s Q.
Proof. exact (fun H => H). Qed.

Lemma wp_modify (f : MCU -> MCU) (s : MCU) Q :
  Q tt (f s) [] -> wp (modify f) s Q.
Proof. exact (fun H => H). Qed.

Lemma wp_reg_write (r : ioreg) (v : Z) (s : MCU) Q :
  Q tt (set_io (upd r (u8 v) (io s)) s) [Wr r (u8 v)] ->
  wp (reg_write r v) s Q.
Proof. exact (fun H => H). Qed.

Lemma wp_reg_or (r : ioreg) (m : Z) (s : MCU) Q :
  Q tt (set_io (upd r (u8 (Z.lor (io s r) m)) (io s)) s)
    [Wr r (u8 (Z.lor (io s r) m))] ->
  wp (reg_or r m) s Q.
Proof. exact (fun H => H). Qed.

Lemma wp_reg_and (r : ioreg) (m : Z) (s : MCU) Q :
  Q tt (set_io (upd r (u8 (Z.land (io s r) m)) (io s)) s)
    [Wr r (u8 (Z.land (io s r) m))] ->
  wp (reg_and r m) s Q.
Proof. exact (fun H => H). Qed.

Lemma wp_reg_xor (r : ioreg) (m : Z) (s : MCU) Q :
  Q tt (set_io (upd r (u8 (Z.lxor (io s r) m)) (io s)) s)
    [Wr r (u8 (Z.lxor (io s r) m))] ->
  wp (reg_xor r m) s Q.
Proof. exact (fun H => H). Qed.

Lemma wp_reg_read (r : inreg) (v : Z) (s : MCU) Q :
  Q (u8 v) s [Rd r (u8 v)] -> wp (reg_read r v) s Q.
Proof. exact (fun H => H). Qed.

Lemma wp_delay (n : Z) (s : MCU) Q :
  Q tt s [Delay_us n] -> wp (_delay_us n) s Q.
Proof. exact (fun H => H). Qed.

Ltac wp_simpl :=
  cbv beta;
  cbn [io watchdogCount adcVal sumVolt voltage numSamples countPWM
       indexDirPWM indexPWM mStatus pStatus grn_glw red_glw requestStatus
       set_io set_watchdogCount set_adcVal set_sumVolt set_voltage
       set_numSamples set_countPWM set_indexDirPWM set_indexPWM
       set_mStatus set_pStatus set_grn_glw set_red_glw set_requestStatus
       upd ioreg_eqb app].

Ltac wp_split c :=
  let E := fresh "E" in destruct c eqn:E; cbv beta iota delta [when negb].

Ltac wp_step :=
  lazymatch goal with
  | |- wp (bind _ _) _ _ => apply wp_bind
  | |- wp (ret _) _ _ => apply wp_ret
  | |- wp (gets _) _ _ => apply wp_gets
  | |- wp (modify _) _ _ => apply wp_modify
  | |- wp (reg_write _ _) _ _ => apply wp_reg_write
  | |- wp (reg_or _ _) _ _ => apply wp_reg_or
  | |- wp (reg_and _ _) _ _ => apply wp_reg_and
  | |- wp (reg_xor _ _) _ _ => apply wp_reg_xor
  | |- wp (reg_read _ _) _ _ => apply wp_reg_read
  | |- wp (_delay_us _) _ _ => apply wp_delay
  | |- wp (when ?c _) _ _ => wp_split c
  | |- wp (if negb ?c then _ else _) _ _ => wp_split c
  | |- wp (if ?c then _ else _) _ _ => wp_split c
  | |- wp ?m _ _ =>
      let h := head_of m in unfold h
  end; wp_simpl
with head_of m :=
  lazymatch m with
  | ?f _ => head_of f
  | _ => m
  end.

Ltac wp_run := repeat wp_step.

(** ** [getStatus] in closed form *)

(** One symbolic execution of [getStatus] gives its registers, its
    counter and its request in closed form. *)
Lemma getStatus_closed (pins : PinReads) (s : MCU) :
  (forall r, io (state (getStatus pins s)) r
             = status_regs (value (getStatus pins s)) s r) /\
  watchdogCount (state (getStatus pins s))
    = count_after (value (getStatus pins s)) (watchdogCount s) /\
  acq_requested (ops (getStatus pins s))
    = due (value (getStatus pins s)) (watchdogCount s).
Proof.
  change (wp (getStatus pins) s (fun m s' l =>
    (forall r, io s' r = status_regs m s r) /\
    watchdogCount s' = count_after m (watchdogCount s) /\
    acq_requested l = due m (watchdogCount s))).
  unfold status_regs, count_after, due.
  wp_run;
    (split; [intros r; destruct r; reflexivity|]);
    (split; [reflexivity|]);
    cbn [acq_requested existsb starts_conversion orb]; bits; reflexivity.
Qed.

Lemma getStatus_io (pins : PinReads) (s : MCU) (r : ioreg) :
  io (state (getStatus pins s)) r
  = status_regs (value (getStatus pins s)) s r.
Proof. apply getStatus_closed. Qed.

Lemma getStatus_count (pins : PinReads) (s : MCU) :
  watchdogCount (state (getStatus pins s))
  = count_after (value (getStatus pins s)) (watchdogCount s).
Proof. apply getStatus_closed. Qed.

Lemma getStatus_requests (pins : PinReads) (s : MCU) :
  acq_requested (ops (getStatus pins s))
  = due (value (getStatus pins s)) (watchdogCount s).
Proof. apply getStatus_closed. Qed.

Lemma getStatus_range (pins : PinReads) (s : MCU) :
  1 <= value (getStatus pins s) <= 9.
Proof.
  rewrite getStatus_mode. unfold mode_of, battery_mode.
  destruct (out_observed pins), (usb_observed pins),
    (charging_observed pins);
    repeat match goal with
      | |- context [?a >? ?b] => destruct (a >? b)
      end; lia.
Qed.

(** ** The actuation table of [setMode] *)

Ltac eqb_hyps :=
  repeat match goal with
    | E : (_ =? _) = true |- _ => apply Z.eqb_eq in E
    | E : (_ =? _) = false |- _ => apply Z.eqb_neq in E
    end.

(** In a leaf of [setMode] the mode is known. *)
Ltac known_mode s :=
  eqb_hyps;
  first [ match goal with E : mStatus s = _ |- _ => rewrite !E in * end
        | replace (mStatus s) with 1 in * by lia ].

Ltac table_bits :=
  repeat match goal with
    | |- _ /\ _ => split
    | |- _ -> _ => intro
    | H : battery_range _ = false |- _ => vm_compute in H; discriminate H
    end;
  bits; reflexivity.

Lemma setMode_actuated (s : MCU) :
  1 <= mStatus s <= 9 -> actuated (mStatus s) (state (setMode s)).
Proof.
  intros Hm.
  change (wp setMode s (fun _ s' _ => actuated (mStatus s) s')).
  wp_run; known_mode s; unfold actuated; wp_simpl; table_bits.
Qed.

Ltac leaf_facts :=
  eqb_hyps; repeat (split || intro); first [reflexivity | lia].

Lemma setMode_flags (s : MCU) :
  (mStatus s = 2 ->
   red_glw (state (setMode s)) = 1 /\ grn_glw (state (setMode s)) = 0) /\
  (mStatus s = 8 ->
   red_glw (state (setMode s)) = 0 /\ grn_glw (state (setMode s)) = 1) /\
  (mStatus s <> 2 -> mStatus s <> 8 ->
   red_glw (state (setMode s)) = red_glw s /\
   grn_glw (state (setMode s)) = grn_glw s).
Proof.
  change (wp setMode s (fun _ s' _ =>
    (mStatus s = 2 -> red_glw s' = 1 /\ grn_glw s' = 0) /\
    (mStatus s = 8 -> red_glw s' = 0 /\ grn_glw s' = 1) /\
    (mStatus s <> 2 -> mStatus s <> 8 ->
     red_glw s' = red_glw s /\ grn_glw s' = grn_glw s))).
  wp_run; leaf_facts.
Qed.

Ltac bits_x :=
  unfold ADPS2, ADPS1, ADIE, WGM01, WGM00, MUX3, MUX2, PRTIM1, PRUSI in *;
  bits.

(** Closes a goal between boolean combinations of register bits. *)
Ltac bool_done :=
  try reflexivity; try assumption;
  repeat match goal with
    | |- context [Z.testbit ?x ?i] =>
        let E := fresh "E" in destruct (Z.testbit x i) eqn:E
    end;
  first [reflexivity | congruence].

Ltac kept_bits :=
  unfold mode_kept, config_kept; wp_simpl;
  repeat (split || intro); try reflexivity; try assumption;
  bits_x; bool_done.

Lemma setMode_config (s : MCU) : config_kept s (state (setMode s)).
Proof.
  change (wp setMode s (fun _ s' _ => config_kept s s')).
  wp_run; kept_bits.
Qed.

Lemma getStatus_config (pins : PinReads) (s : MCU) :
  config_kept s (state (getStatus pins s)).
Proof.
  unfold config_kept. rewrite !getStatus_io. unfold status_regs.
  destruct (mStatus s =? 7), (value (getStatus pins s) =? 7),
    (due (value (getStatus pins s)) (watchdogCount s));
    repeat split; bits_x; bool_done.
Qed.

Lemma WDT_vect_kept (s : MCU) :
  mode_kept s (state (WDT_vect s)) /\ config_kept s (state (WDT_vect s)).
Proof.
  change (wp WDT_vect s (fun _ s' _ => mode_kept s s' /\ config_kept s s')).
  wp_run; kept_bits.
Qed.

Lemma TIM0_OVF_vect_kept (s : MCU) :
  mode_kept s (state (TIM0_OVF_vect s)) /\
  config_kept s (state (TIM0_OVF_vect s)).
Proof.
  change (wp TIM0_OVF_vect s
            (fun _ s' _ => mode_kept s s' /\ config_kept s s')).
  wp_run; kept_bits.
Qed.

Lemma TIM0_COMPA_vect_kept (s : MCU) :
  mode_kept s (state (TIM0_COMPA_vect s)) /\
  config_kept s (state (TIM0_COMPA_vect s)).
Proof.
  change (wp TIM0_COMPA_vect s
            (fun _ s' _ => mode_kept s s' /\ config_kept s s')).
  wp_run; kept_bits.
Qed.

Lemma sleep_enable_kept (s : MCU) :
  mode_kept s (state (sleep_enable s)) /\
  config_kept s (state (sleep_enable s)).
Proof.
  change (wp sleep_enable s
            (fun _ s' _ => mode_kept s s' /\ config_kept s s')).
  wp_run; kept_bits.
Qed.

Lemma wake_up_kept (s : MCU) :
  mode_kept s (state (wake_up s)) /\ config_kept s (state (wake_up s)).
Proof.
  change (wp wake_up s (fun _ s' _ => mode_kept s s' /\ config_kept s s')).
  wp_run; kept_bits.
Qed.

Lemma ADC_vect_kept (adcl adch : Z) (s : MCU) r :
  ADC_vect adcl adch s = Some r ->
  mode_kept s (state r) /\ config_kept s (state r).
Proof.
  intros Hr.
  destruct (Z_lt_le_dec (numSamples s) 10) as [Hlt|Hge].
  - destruct (Z.eq_dec (raw_code (adcl, adch)) 0) as [H0|H0].
    + rewrite ADC_vect_fault in Hr by assumption. discriminate.
    + rewrite ADC_vect_accumulate in Hr by assumption.
      injection Hr as <-. cbn [state fst snd]. split; kept_bits.
  - rewrite ADC_vect_publish in Hr by assumption.
    injection Hr as <-. cbn [state fst snd]. split; kept_bits.
Qed.

(** Interrupts, wake-ups and the [sleep_enable] that ends a loop pass
    leave the mode and the configuration alone. *)
Lemma isr_kept (e : event) (s : MCU) r :
  handle e s = Some r ->
  (forall pins, e <> EvLoop pins) ->
  mode_kept s (state r) /\ config_kept s (state r).
Proof.
  intros Hr He.
  destruct e; cbn [handle lift] in Hr; try (injection Hr as <-).
  - exfalso. eapply He. reflexivity.
  - apply wake_up_kept.
  - apply WDT_vect_kept.
  - eapply ADC_vect_kept. exact Hr.
  - apply TIM0_OVF_vect_kept.
  - apply TIM0_COMPA_vect_kept.
Qed.

(** ** The mode invariant *)

Lemma getStatus_mode_fields (pins : PinReads) (s : MCU) :
  mStatus (state (getStatus pins s)) = mStatus s /\
  pStatus (state (getStatus pins s)) = pStatus s /\
  red_glw (state (getStatus pins s)) = red_glw s /\
  grn_glw (state (getStatus pins s)) = grn_glw s.
Proof. rewrite getStatus_state. repeat split. Qed.

Ltac numeral z :=
  lazymatch z with
  | Z0 => idtac
  | Zpos ?p => lazymatch p with
               | xH => idtac | xO _ => idtac | xI _ => idtac end
  end.

(** Evaluates the comparisons of numerals in the goal. *)
Ltac lit_tests :=
  repeat match goal with
    | |- context [?a =? ?b] =>
        numeral a; numeral b;
        let v := eval compute in (a =? b) in change (a =? b) with v
    end;
  cbv beta iota zeta delta [orb andb negb].

(** An evaluation that returns the mode already applied keeps its
    register settings. *)
Lemma getStatus_actuated (pins : PinReads) (s : MCU) :
  value (getStatus pins s) = mStatus s ->
  actuated (mStatus s) s ->
  actuated (mStatus s) (state (getStatus pins s)).
Proof.
  intros Hm Ha. pose proof (getStatus_range pins s) as Hr.
  unfold actuated in *. rewrite !getStatus_io. unfold status_regs.
  rewrite Hm in *. clear Hm.
  destruct Ha as (H1 & H2 & H3 & H4 & H5 & H6 & H7 & H8).
  assert (C : mStatus s = 1 \/ mStatus s = 2 \/ mStatus s = 3 \/
              mStatus s = 4 \/ mStatus s = 5 \/ mStatus s = 6 \/
              mStatus s = 7 \/ mStatus s = 8 \/ mStatus s = 9) by lia.
  destruct C as [C|[C|[C|[C|[C|[C|[C|[C|C]]]]]]]];
    rewrite C in *; unfold due; lit_tests;
    (repeat split; try assumption; try (apply H7; lia);
     try (intros Hb; vm_compute in Hb; discriminate Hb);
     try (intros Hb; apply H8; exact Hb);
     bits; bool_done).
Qed.

Lemma mode_kept_inv (s s' : MCU) :
  mode_kept s s' -> mode_inv s -> mode_inv s'.
Proof.
  unfold mode_kept, mode_inv, actuated, glow_inv.
  intros (-> & -> & -> & -> & -> & -> & -> & -> & Haden).
  intros (Hp & Hr & Ha & Hg). repeat split; try tauto; try lia.
Qed.

Lemma evaluate_mode_inv (pins : PinReads) (s : MCU) :
  mode_inv s -> mode_inv (state (evaluate pins s)).
Proof.
  intros Hinv. pose proof (getStatus_range pins s) as Hr.
  destruct (getStatus_mode_fields pins s) as (Gm & Gp & Gr & Gg).
  destruct (Z.eq_dec (requestStatus s) 1) as [Hreq|Hreq];
    [|rewrite evaluate_idle by assumption; exact Hinv].
  destruct Hinv as (Hp & _ & Ha & Hg).
  destruct (Z.eq_dec (value (getStatus pins s)) (pStatus s)) as [E|E].
  - rewrite evaluate_state_same by assumption.
    assert (Em : value (getStatus pins s) = mStatus s) by congruence.
    split; [reflexivity|]. split; [proj_simpl; lia|]. split.
    + change (actuated (value (getStatus pins s))
                (state (getStatus pins s))).
      rewrite Em. now apply getStatus_actuated.
    + unfold glow_inv in *. proj_simpl. rewrite Gr, Gg, Em. exact Hg.
  - rewrite evaluate_state_new by assumption.
    set (s1 := set_mStatus _ _).
    assert (M1 : mStatus s1 = value (getStatus pins s)) by reflexivity.
    pose proof (setMode_actuated s1) as Hact. rewrite M1 in Hact.
    destruct (setMode_flags s1) as (F2 & F8 & Fo). rewrite M1 in F2, F8, Fo.
    assert (R1 : red_glw s1 = red_glw s) by (subst s1; exact Gr).
    assert (G1 : grn_glw s1 = grn_glw s) by (subst s1; exact Gg).
    split; [proj_simpl; rewrite setMode_mStatus; exact M1|].
    split; [proj_simpl; rewrite setMode_mStatus, M1; lia|]. split.
    + proj_simpl. rewrite setMode_mStatus, M1.
      change (actuated (value (getStatus pins s)) (state (setMode s1))).
      exact (Hact Hr).
    + unfold glow_inv in *. proj_simpl. rewrite setMode_mStatus, M1.
      split; [|split; assumption].
      destruct (Z.eq_dec (value (getStatus pins s)) 2) as [K|K];
        [destruct (F2 K) as [-> ->]; auto|].
      destruct (Z.eq_dec (value (getStatus pins s)) 8) as [K'|K'];
        [destruct (F8 K') as [-> ->]; auto|].
      destruct (Fo K K') as [-> ->]. rewrite R1, G1. apply Hg.
Qed.

Lemma config_kept_refl (s : MCU) : config_kept s s.
Proof. unfold config_kept. repeat split. Qed.

Lemma config_kept_trans (s1 s2 s3 : MCU) :
  config_kept s1 s2 -> config_kept s2 s3 -> config_kept s1 s3.
Proof.
  unfold config_kept.
  intros (A1 & A2 & A3 & A4 & A5 & A6 & A7 & A8 & A9 & A10)
         (B1 & B2 & B3 & B4 & B5 & B6 & B7 & B8 & B9 & B10).
  repeat split; congruence.
Qed.

Lemma evaluate_config (pins : PinReads) (s : MCU) :
  config_kept s (state (evaluate pins s)).
Proof.
  destruct (Z.eq_dec (requestStatus s) 1) as [Hreq|Hreq];
    [|rewrite evaluate_idle by assumption; apply config_kept_refl].
  destruct (Z.eq_dec (value (getStatus pins s)) (pStatus s)) as [E|E].
  - rewrite evaluate_state_same by assumption.
    exact (getStatus_config pins s).
  - rewrite evaluate_state_new by assumption.
    apply (config_kept_trans _ (state (getStatus pins s)));
      [apply getStatus_config|].
    exact (setMode_config (set_mStatus (value (getStatus pins s))
                             (state (getStatus pins s)))).
Qed.

Lemma loop_body_invs (pins : PinReads) (s : MCU) :
  (mode_inv s -> mode_inv (state (loop_body pins s))) /\
  config_kept s (state (loop_body pins s)).
Proof.
  unfold loop_body. rewrite bind_state. cbv beta.
  destruct (sleep_enable_kept (state (evaluate pins s))) as [Hm Hc].
  split.
  - intros Hinv. apply (mode_kept_inv _ _ Hm). now apply evaluate_mode_inv.
  - apply (config_kept_trans _ (state (evaluate pins s)));
      [apply evaluate_config | exact Hc].
Qed.

Lemma boot_mode_inv (regs : ioreg -> Z) :
  clean_reset regs -> mode_inv (boot regs).
Proof.
  unfold clean_reset, mode_inv, actuated, glow_inv.
  intros (H1 & H2 & H3 & H4 & H5 & H6 & H7 & H8).
  change (wp setup (power_up regs) (fun _ s _ =>
    mStatus s = pStatus s /\ 0 <= mStatus s <= 9 /\
    (Z.testbit (io s DDRB) OUT_ENA = (mStatus s =? 7) /\
     Z.testbit (io s DDRB) LED_GRN = green_mode (mStatus s) /\
     Z.testbit (io s DDRB) LED_RED = red_mode (mStatus s) /\
     Z.testbit (io s TIMSK) OCIE0A = timer_mode (mStatus s) /\
     Z.testbit (io s TIMSK) TOIE0 = timer_mode (mStatus s) /\
     Z.testbit (io s TCCR0B) CS01 = timer_mode (mStatus s) /\
     (mStatus s <> 0 ->
      Z.testbit (io s WDTCR) WDP0 = (mStatus s =? 6) /\
      Z.testbit (io s WDTCR) WDP1 = negb (mStatus s =? 6)) /\
     (battery_range (mStatus s) = false ->
      Z.testbit (io s ADCSRA) ADEN = false)) /\
    ((red_glw s = 0 /\ grn_glw s = 0) \/
     (red_glw s = 1 /\ grn_glw s = 0) \/
     (red_glw s = 0 /\ grn_glw s = 1)) /\
    (mStatus s = 2 -> red_glw s = 1 /\ grn_glw s = 0) /\
    (mStatus s = 8 -> red_glw s = 0 /\ grn_glw s = 1))).
  wp_run. cbn [power_up io mStatus pStatus red_glw grn_glw].
  repeat split; try assumption; try lia; try discriminate; auto;
    bits_x; bool_done.
Qed.

(** Every reachable state carries the register settings of its mode. *)
Lemma reachable_mode_inv (regs : ioreg -> Z) (s : MCU) :
  clean_reset regs -> reachable regs s -> mode_inv s.
Proof.
  intros Hreset. induction 1 as [|s e s' _ IH [r Hr ->]].
  - now apply boot_mode_inv.
  - destruct e; try (apply (mode_kept_inv s); [|exact IH];
                     eapply isr_kept; [exact Hr | discriminate]).
    cbn [handle lift] in Hr. injection Hr as <-.
    now apply loop_body_invs.
Qed.

Lemma reachable_config (regs : ioreg -> Z) (s : MCU) :
  reachable regs s -> config_kept (boot regs) s.
Proof.
  induction 1 as [|s e s' _ IH [r Hr ->]].
  - apply config_kept_refl.
  - apply (config_kept_trans _ s); [exact IH|].
    destruct e; try (eapply isr_kept; [exact Hr | discriminate]).
    cbn [handle lift] in Hr. injection Hr as <-.
    apply loop_body_invs.
Qed.

Lemma zero_reset_clean : clean_reset (fun _ => 0).
Proof. unfold clean_reset. repeat split. Qed.

Lemma charging_reachable : reachable (fun _ => 0) charging.
Proof.
  eapply reach_step; [apply reach_boot|].
  apply (step_handle _ (EvLoop (mkPins 2 16 0)) _
           (loop_body (mkPins 2 16 0) (boot (fun _ => 0))));
    reflexivity.
Qed.

Lemma reachable_sync (regs : ioreg -> Z) (s : MCU) :
  reachable regs s -> sync_inv s.
Proof.
  unfold sync_inv. induction 1 as [|s e s' _ IH [r Hr ->]].
  - cbn. lia.
  - destruct e;
      try (destruct (isr_kept _ _ _ Hr) as [(-> & -> & _) _];
           [discriminate | exact IH]).
    cbn [handle lift] in Hr. injection Hr as <-.
    destruct (sleep_enable_kept (state (evaluate pins s)))
      as [(Hm & Hp & _) _].
    unfold loop_body. rewrite bind_state. cbv beta. rewrite Hm, Hp.
    destruct (Z.eq_dec (requestStatus s) 1) as [Hreq|Hreq].
    + rewrite evaluate_mStatus, evaluate_pStatus by assumption.
      pose proof (getStatus_range pins s). lia.
    + rewrite evaluate_idle by assumption. exact IH.
Qed.

(** X1.  Between handlers the stored mode equals the previously applied
    mode and lies in 0..9, whatever the registers held at reset: the
    main loop assigns both in the same pass, and no interrupt handler
    writes either. *)
Theorem mode_and_previous_agree (regs : ioreg -> Z) (s : MCU) :
  reachable regs s -> mStatus s = pStatus s /\ 0 <= mStatus s <= 9.
Proof. apply reachable_sync. Qed.

Lemma mode_and_previous_agree_witness :
  mStatus low_battery = pStatus low_battery /\ 0 <= mStatus low_battery <= 9.
Proof.
  exact (mode_and_previous_agree (fun _ => 0) low_battery
           low_battery_reachable).
Defined.

(** X2.  From a clean reset, in every reachable state the
    output-enable pin is driven low by the controller exactly when the
    stored mode is 7; in every other mode the pin is an input and the
    line is left to the switch.  Its port latch is never set, so the
    pin is never driven high and never pulled up. *)
Theorem output_enable_driven_in_mode_7 (regs : ioreg -> Z) (s : MCU) :
  clean_reset regs -> reachable regs s ->
  driven_low s OUT_ENA = (mStatus s =? 7) /\
  Z.testbit (io s DDRB) OUT_ENA = (mStatus s =? 7) /\
  Z.testbit (io s PORTB) OUT_ENA = false.
Proof.
  intros Hreset Hreach.
  destruct (reachable_mode_inv regs s Hreset Hreach)
    as (_ & _ & (Hd & _) & _).
  assert (Hp : Z.testbit (regs PORTB) OUT_ENA = false) by apply Hreset.
  destruct (reachable_port_inv regs s Hp Hreach) as (Hl & _).
  unfold driven_low. rewrite Hd, Hl, andb_true_r. auto.
Qed.

Lemma output_enable_driven_in_mode_7_witness :
  driven_low low_battery OUT_ENA = true /\
  driven_low first_pass OUT_ENA = false.
Proof.
  split.
  - rewrite (proj1 (output_enable_driven_in_mode_7 (fun _ => 0) low_battery
                      zero_reset_clean low_battery_reachable)).
    vm_compute; reflexivity.
  - rewrite (proj1 (output_enable_driven_in_mode_7 (fun _ => 0) first_pass
                      zero_reset_clean first_pass_reachable)).
    vm_compute; reflexivity.
Defined.

(** X3.  From a clean reset, in every reachable state the timer 0
    compare-match and overflow interrupts are enabled and the timer is
    clocked exactly when the stored mode is 2 or 8, the two charging
    modes. *)
Theorem timer0_runs_in_charging_modes (regs : ioreg -> Z) (s : MCU) :
  clean_reset regs -> reachable regs s ->
  Z.testbit (io s TIMSK) OCIE0A = ((mStatus s =? 2) || (mStatus s =? 8)) /\
  Z.testbit (io s TIMSK) TOIE0 = ((mStatus s =? 2) || (mStatus s =? 8)) /\
  Z.testbit (io s TCCR0B) CS01 = ((mStatus s =? 2) || (mStatus s =? 8)).
Proof.
  intros Hreset Hreach.
  destruct (reachable_mode_inv regs s Hreset Hreach)
    as (_ & _ & (_ & _ & _ & H1 & H2 & H3 & _) & _).
  auto.
Qed.

Lemma timer0_runs_in_charging_modes_witness :
  Z.testbit (io first_pass TIMSK) OCIE0A = false.
Proof.
  rewrite (proj1 (timer0_runs_in_charging_modes (fun _ => 0) first_pass
                    zero_reset_clean first_pass_reachable)).
  vm_compute; reflexivity.
Defined.

(** X4.  From a clean reset, once a mode has been applied the watchdog
    prescaler bits follow the stored mode: WDP0 set and WDP1 clear in
    mode 6 (with WDP2: half a second), WDP1 set and WDP0 clear in every
    other mode (one second). *)
Theorem watchdog_period_by_mode (regs : ioreg -> Z) (s : MCU) :
  clean_reset regs -> reachable regs s -> mStatus s <> 0 ->
  Z.testbit (io s WDTCR) WDP2 = true /\
  Z.testbit (io s WDTCR) WDP1 = negb (mStatus s =? 6) /\
  Z.testbit (io s WDTCR) WDP0 = (mStatus s =? 6).
Proof.
  intros Hreset Hreach Hm.
  destruct (reachable_mode_inv regs s Hreset Hreach)
    as (_ & _ & (_ & _ & _ & _ & _ & _ & Hw & _) & _).
  destruct (Hw Hm) as [H0 H1].
  destruct (reachable_config regs s Hreach)
    as (_ & _ & _ & _ & _ & _ & _ & _ & _ & H2).
  rewrite H2. repeat split; try assumption.
  change (wp setup (power_up regs)
            (fun _ s' _ => Z.testbit (io s' WDTCR) WDP2 = true)).
  wp_run. bits. reflexivity.
Qed.

Lemma watchdog_period_by_mode_witness :
  Z.testbit (io low_battery WDTCR) WDP1 = true.
Proof.
  assert (Hm : mStatus low_battery <> 0) by (vm_compute; discriminate).
  rewrite (proj1 (proj2 (watchdog_period_by_mode (fun _ => 0) low_battery
                    zero_reset_clean low_battery_reachable Hm))).
  vm_compute; reflexivity.
Defined.

(** X5.  From a clean reset, in every reachable state whose stored mode
    is not one of the battery modes 4 to 7 the converter is disabled
    (ADEN clear), so no conversion is in progress. *)
Theorem converter_off_outside_battery_modes (regs : ioreg -> Z) (s : MCU) :
  clean_reset regs -> reachable regs s ->
  mStatus s < 4 \/ 7 < mStatus s ->
  Z.testbit (io s ADCSRA) ADEN = false /\ converting s = false.
Proof.
  intros Hreset Hreach Hm.
  destruct (reachable_mode_inv regs s Hreset Hreach)
    as (_ & _ & (_ & _ & _ & _ & _ & _ & _ & Ha) & _).
  assert (H : Z.testbit (io s ADCSRA) ADEN = false).
  { apply Ha. unfold battery_range.
    destruct (Z.leb_spec 4 (mStatus s)), (Z.leb_spec (mStatus s) 7);
      try reflexivity; lia. }
  split; [exact H|]. unfold converting. rewrite H. reflexivity.
Qed.

Lemma converter_off_outside_battery_modes_witness :
  converting charging = false.
Proof.
  refine (proj2 (converter_off_outside_battery_modes (fun _ => 0)
                   charging zero_reset_clean charging_reachable _)).
  right. vm_compute; reflexivity.
Defined.

(** X6.  From a clean reset, in every reachable state the LED pins are
    outputs as the stored mode prescribes: the green LED pin in modes
    4, 5, 6, 8 and 9, the red LED pin in modes 2, 3, 5 and 6; in modes
    1 and 7, and before any mode is applied, both are inputs and both
    LEDs are dark. *)
Theorem led_pin_directions (regs : ioreg -> Z) (s : MCU) :
  clean_reset regs -> reachable regs s ->
  Z.testbit (io s DDRB) LED_GRN
    = ((mStatus s =? 4) || (mStatus s =? 5) || (mStatus s =? 6) ||
       (mStatus s =? 8) || (mStatus s =? 9)) /\
  Z.testbit (io s DDRB) LED_RED
    = ((mStatus s =? 2) || (mStatus s =? 3) || (mStatus s =? 5) ||
       (mStatus s =? 6)).
Proof.
  intros Hreset Hreach.
  destruct (reachable_mode_inv regs s Hreset Hreach)
    as (_ & _ & (_ & H1 & H2 & _) & _).
  auto.
Qed.

Lemma led_pin_directions_witness :
  Z.testbit (io first_pass DDRB) LED_GRN = true /\
  Z.testbit (io low_battery DDRB) LED_GRN = false.
Proof.
  split.
  - rewrite (proj1 (led_pin_directions (fun _ => 0) first_pass
                      zero_reset_clean first_pass_reachable)).
    vm_compute; reflexivity.
  - rewrite (proj1 (led_pin_directions (fun _ => 0) low_battery
                      zero_reset_clean low_battery_reachable)).
    vm_compute; reflexivity.
Defined.

(** X7.  The direction bits of the two status inputs, [CHR_STA] and
    [USB_STA], are never written: in every reachable state they are as
    the reset left them, so pins that start as inputs stay inputs. *)
Theorem status_pins_stay_inputs (regs : ioreg -> Z) (s : MCU) :
  reachable regs s ->
  Z.testbit (io s DDRB) CHR_STA = Z.testbit (regs DDRB) CHR_STA /\
  Z.testbit (io s DDRB) USB_STA = Z.testbit (regs DDRB) USB_STA.
Proof.
  intros Hreach.
  destruct (reachable_config regs s Hreach)
    as (_ & _ & _ & H1 & H2 & _).
  split; assumption.
Qed.

Lemma status_pins_stay_inputs_witness :
  Z.testbit (io low_battery DDRB) USB_STA = false.
Proof.
  exact (proj2 (status_pins_stay_inputs (fun _ => 0) low_battery
                  low_battery_reachable)).
Defined.

(** X8.  What [setup] configures stays configured, whatever the
    registers held at reset: in every reachable state timer 0 is in
    fast PWM mode (WGM01, WGM00), the converter reads the band-gap
    channel (MUX3, MUX2) with prescaler bits ADPS2 and ADPS1 and its
    interrupt enabled (ADIE), timer 1 and the USI are powered down
    (PRTIM1, PRUSI), and the watchdog interrupt is enabled (WDIE). *)
Theorem setup_stays_in_force (regs : ioreg -> Z) (s : MCU) :
  reachable regs s ->
  Z.testbit (io s TCCR0A) WGM01 = true /\
  Z.testbit (io s TCCR0A) WGM00 = true /\
  Z.testbit (io s ADMUX) MUX3 = true /\
  Z.testbit (io s ADMUX) MUX2 = true /\
  Z.testbit (io s ADCSRA) ADPS2 = true /\
  Z.testbit (io s ADCSRA) ADPS1 = true /\
  Z.testbit (io s ADCSRA) ADIE = true /\
  Z.testbit (io s PRR) PRTIM1 = true /\
  Z.testbit (io s PRR) PRUSI = true /\
  Z.testbit (io s WDTCR) WDIE = true.
Proof.
  intros Hreach.
  destruct (reachable_config regs s Hreach)
    as (-> & -> & -> & _ & _ & -> & -> & -> & -> & _).
  change (wp setup (power_up regs) (fun _ s' _ =>
    Z.testbit (io s' TCCR0A) WGM01 = true /\
    Z.testbit (io s' TCCR0A) WGM00 = true /\
    Z.testbit (io s' ADMUX) MUX3 = true /\
    Z.testbit (io s' ADMUX) MUX2 = true /\
    Z.testbit (io s' ADCSRA) ADPS2 = true /\
    Z.testbit (io s' ADCSRA) ADPS1 = true /\
    Z.testbit (io s' ADCSRA) ADIE = true /\
    Z.testbit (io s' PRR) PRTIM1 = true /\
    Z.testbit (io s' PRR) PRUSI = true /\
    Z.testbit (io s' WDTCR) WDIE = true)).
  wp_run. unfold WDIE. repeat split; bits_x; bool_done.
Qed.

Lemma setup_stays_in_force_witness :
  Z.testbit (io low_battery ADCSRA) ADIE = true.
Proof.
  destruct (setup_stays_in_force (fun _ => 0) low_battery
              low_battery_reachable) as (_ & _ & _ & _ & _ & _ & H & _).
  exact H.
Defined.

(** X9.  From a clean reset, in every reachable state at most one of
    the two glow flags is set; in mode 2 it is the red one, in mode 8
    the green one. *)
Theorem glow_flags_exclusive (regs : ioreg -> Z) (s : MCU) :
  clean_reset regs -> reachable regs s ->
  ((red_glw s = 0 /\ grn_glw s = 0) \/
   (red_glw s = 1 /\ grn_glw s = 0) \/
   (red_glw s = 0 /\ grn_glw s = 1)) /\
  (mStatus s = 2 -> red_glw s = 1 /\ grn_glw s = 0) /\
  (mStatus s = 8 -> red_glw s = 0 /\ grn_glw s = 1).
Proof.
  intros Hreset Hreach.
  exact (proj2 (proj2 (proj2 (reachable_mode_inv regs s Hreset Hreach)))).
Qed.

Lemma glow_flags_exclusive_witness :
  red_glw low_battery = 0 /\ grn_glw low_battery = 0 \/
  red_glw low_battery = 1 /\ grn_glw low_battery = 0 \/
  red_glw low_battery = 0 /\ grn_glw low_battery = 1.
Proof.
  exact (proj1 (glow_flags_exclusive (fun _ => 0) low_battery
                  zero_reset_clean low_battery_reachable)).
Defined.

(** ** The LEDs *)

Lemma due_battery (m wc : Z) : due m wc = true -> 4 <= m <= 7.
Proof.
  unfold due.
  destruct (Z.eqb_spec m 4), (Z.eqb_spec m 5), (Z.eqb_spec m 7),
    (Z.eqb_spec m 6); cbn [orb]; intros H; try lia; discriminate H.
Qed.

(** What [main] itself stores when it applies a mode.  The statements
    below are about the values of its own stores: the bits an
    assignment forces do not depend on what the register held, nor on
    an interrupt handler that wrote the register before. *)

Lemma last_store_app (r : ioreg) (l1 l2 : list hw_op) :
  last_store r (l1 ++ l2)
  = match last_store r l2 with
    | Some v => Some v
    | None => last_store r l1
    end.
Proof.
  induction l1 as [|o l1 IH]; cbn [app last_store].
  - destruct (last_store r l2); reflexivity.
  - rewrite IH. destruct (last_store r l2); reflexivity.
Qed.

Ltac store_leaf :=
  cbn [last_store ioreg_eqb];
  repeat match goal with
    | |- exists _, _ => eexists
    | |- _ /\ _ => split
    | |- _ -> _ => intro
    end;
  try reflexivity; try lia; try congruence; bits; reflexivity.

Lemma setMode_stores (s : MCU) :
  1 <= mStatus s <= 9 ->
  (exists c, last_store MCUCR (ops (setMode s)) = Some c /\
     Z.testbit c SM1 = negb ((mStatus s =? 2) || (mStatus s =? 8))) /\
  (exists p, last_store PORTB (ops (setMode s)) = Some p /\
     Z.testbit p LED_RED = (mStatus s =? 2) /\
     (mStatus s <> 2 -> Z.testbit p LED_GRN = false)) /\
  (4 <= mStatus s <= 7 -> last_store ADCSRA (ops (setMode s)) = None).
Proof.
  intros Hm.
  change (wp setMode s (fun _ _ l =>
    (exists c, last_store MCUCR l = Some c /\
       Z.testbit c SM1 = negb ((mStatus s =? 2) || (mStatus s =? 8))) /\
    (exists p, last_store PORTB l = Some p /\
       Z.testbit p LED_RED = (mStatus s =? 2) /\
       (mStatus s <> 2 -> Z.testbit p LED_GRN = false)) /\
    (4 <= mStatus s <= 7 -> last_store ADCSRA l = None))).
  wp_run; known_mode s; store_leaf.
Qed.

Lemma getStatus_stores (pins : PinReads) (s : MCU) :
  acq_requested (ops (getStatus pins s)) = true ->
  (exists c, last_store MCUCR (ops (getStatus pins s)) = Some c /\
     Z.testbit c SM1 = false) /\
  (exists a, last_store ADCSRA (ops (getStatus pins s)) = Some a /\
     Z.testbit a ADEN = true /\ Z.testbit a ADSC = true).
Proof.
  change (wp (getStatus pins) s (fun _ _ l =>
    acq_requested l = true ->
    (exists c, last_store MCUCR l = Some c /\ Z.testbit c SM1 = false) /\
    (exists a, last_store ADCSRA l = Some a /\
       Z.testbit a ADEN = true /\ Z.testbit a ADSC = true))).
  wp_run; intros Hacq;
    try (cbn [acq_requested existsb starts_conversion orb] in Hacq;
         discriminate Hacq);
    clear Hacq; store_leaf.
Qed.

(** X10.  When an evaluation finds a mode other than the one applied,
    the last value [main] stores to PORTB in that evaluation has the
    red LED bit set exactly for mode 2 and, for every mode but 2, the
    green LED bit clear: [setMode] ends by switching both LED latches
    low, except that in mode 2 it ends by setting the red latch high,
    for timer 0 to pulse. *)
Theorem led_latch_stores_on_mode_entry (pins : PinReads) (s : MCU) :
  requestStatus s = 1 ->
  value (getStatus pins s) <> pStatus s ->
  exists p,
    last_store PORTB (ops (evaluate pins s)) = Some p /\
    Z.testbit p LED_RED = (value (getStatus pins s) =? 2) /\
    (value (getStatus pins s) <> 2 -> Z.testbit p LED_GRN = false).
Proof.
  intros Hreq Hnew. rewrite evaluate_ops_new by assumption.
  destruct (setMode_stores (set_mStatus (value (getStatus pins s))
                              (state (getStatus pins s)))
              (getStatus_range pins s))
    as (_ & (p & Hp & Hred & Hgrn) & _).
  exists p. rewrite last_store_app, Hp. auto.
Qed.

Lemma led_latch_stores_on_mode_entry_witness :
  exists p,
    last_store PORTB (ops (evaluate (mkPins 2 16 0) (boot (fun _ => 0))))
      = Some p /\
    Z.testbit p LED_RED = false /\
    (8 <> 2 -> Z.testbit p LED_GRN = false).
Proof.
  assert (Hreq : requestStatus (boot (fun _ => 0)) = 1) by reflexivity.
  assert (Hnew : value (getStatus (mkPins 2 16 0) (boot (fun _ => 0)))
                 <> pStatus (boot (fun _ => 0)))
    by (vm_compute; discriminate).
  exact (led_latch_stores_on_mode_entry (mkPins 2 16 0) (boot (fun _ => 0))
           Hreq Hnew).
Defined.

(** X11.  From a clean reset, an evaluation that finds the mode already
    applied inverts the red LED when that mode is 5 or 6 and leaves it
    as it was in every other mode; the green LED is left as it was in
    every mode.  So in modes 5 and 6 the red LED blinks, one change per
    evaluation. *)
Theorem red_led_blinks (regs : ioreg -> Z) (pins : PinReads) (s : MCU) :
  clean_reset regs -> reachable regs s ->
  requestStatus s = 1 ->
  value (getStatus pins s) = mStatus s ->
  driven_low (state (evaluate pins s)) LED_RED
    = (if (mStatus s =? 5) || (mStatus s =? 6)
       then negb (driven_low s LED_RED) else driven_low s LED_RED) /\
  driven_low (state (evaluate pins s)) LED_GRN = driven_low s LED_GRN.
Proof.
  intros Hreset Hreach Hreq Hsame.
  destruct (reachable_mode_inv regs s Hreset Hreach)
    as (Hmp & _ & (_ & _ & Hred & _) & _).
  rewrite evaluate_state_same by congruence.
  unfold driven_low.
  cbn [io set_requestStatus set_pStatus set_mStatus].
  rewrite !getStatus_io. unfold status_regs. rewrite Hsame.
  unfold red_mode in Hred.
  destruct (mStatus s =? 7), (mStatus s =? 5), (mStatus s =? 6),
    (mStatus s =? 2), (mStatus s =? 3);
    cbn [orb] in *; split; bits; rewrite ?Hred; bool_done.
Qed.

Lemma warning_reachable : reachable (fun _ => 0) warning.
Proof.
  unfold warning.
  destruct (run warning_run (boot (fun _ => 0))) as [s|] eqn:E.
  - exact (run_reachable _ _ _ _ (reach_boot _) E).
  - apply reach_boot.
Qed.

Lemma red_led_blinks_witness :
  driven_low (state (evaluate (mkPins 2 0 0) warning)) LED_RED
    = negb (driven_low warning LED_RED).
Proof.
  assert (Hreq : requestStatus warning = 1) by (vm_compute; reflexivity).
  assert (Hsame : value (getStatus (mkPins 2 0 0) warning) = mStatus warning)
    by (vm_compute; reflexivity).
  rewrite (proj1 (red_led_blinks (fun _ => 0) (mkPins 2 0 0) warning
                    zero_reset_clean warning_reachable Hreq Hsame)).
  vm_compute; reflexivity.
Defined.

(** ** Timer 0 *)

Lemma compa_closed (s : MCU) :
  ((u8 (countPWM s + 1) >=? PWM_RAMP_SPEED) = true ->
   countPWM (state (TIM0_COMPA_vect s)) = 0 /\
   io (state (TIM0_COMPA_vect s)) OCR0A
     = u8 (indexPWM (state (TIM0_COMPA_vect s))) /\
   indexPWM (state (TIM0_COMPA_vect s)) = u8 (indexPWM s + indexDirPWM s) /\
   io (state (TIM0_COMPA_vect s)) PORTB
     = u8 (Z.land (io s PORTB)
             (Z.land (~~ Z.shiftl (grn_glw s) LED_GRN)
                     (~~ Z.shiftl (red_glw s) LED_RED)))) /\
  ((u8 (countPWM s + 1) >=? PWM_RAMP_SPEED) = false ->
   countPWM (state (TIM0_COMPA_vect s)) = u8 (countPWM s + 1) /\
   io (state (TIM0_COMPA_vect s)) OCR0A = io s OCR0A /\
   indexPWM (state (TIM0_COMPA_vect s)) = indexPWM s /\
   indexDirPWM (state (TIM0_COMPA_vect s)) = indexDirPWM s /\
   io (state (TIM0_COMPA_vect s)) PORTB = io s PORTB).
Proof.
  change (wp TIM0_COMPA_vect s (fun _ s' _ =>
    ((u8 (countPWM s + 1) >=? PWM_RAMP_SPEED) = true ->
     countPWM s' = 0 /\
     io s' OCR0A = u8 (indexPWM s') /\
     indexPWM s' = u8 (indexPWM s + indexDirPWM s) /\
     io s' PORTB
       = u8 (Z.land (io s PORTB)
               (Z.land (~~ Z.shiftl (grn_glw s) LED_GRN)
                       (~~ Z.shiftl (red_glw s) LED_RED)))) /\
    ((u8 (countPWM s + 1) >=? PWM_RAMP_SPEED) = false ->
     countPWM s' = u8 (countPWM s + 1) /\
     io s' OCR0A = io s OCR0A /\
     indexPWM s' = indexPWM s /\
     indexDirPWM s' = indexDirPWM s /\
     io s' PORTB = io s PORTB))).
  wp_run; (split; intros H; [|]); try congruence; repeat split.
Qed.

Lemma compa_count_inv (s : MCU) :
  count_inv s -> count_inv (state (TIM0_COMPA_vect s)).
Proof.
  unfold count_inv, PWM_RAMP_SPEED. intros Hc.
  destruct (compa_closed s) as [Hstep Hkeep].
  unfold PWM_RAMP_SPEED in *.
  destruct (u8 (countPWM s + 1) >=? 3) eqn:E.
  - destruct (Hstep eq_refl) as (-> & _). lia.
  - destruct (Hkeep eq_refl) as (-> & _).
    rewrite Z.geb_leb in E. apply Z.leb_gt in E. unfold u8 in *.
    rewrite Z.mod_small in * by lia. lia.
Qed.

Lemma reachable_count_inv (regs : ioreg -> Z) (s : MCU) :
  reachable regs s -> count_inv s.
Proof.
  induction 1 as [|s e s' _ IH Hstep].
  - rewrite boot_vars. unfold count_inv, PWM_RAMP_SPEED. cbn. lia.
  - destruct e;
      try (destruct (step_same_pwm _ _ _ Hstep) as (Hc & _);
           [discriminate | unfold count_inv in *; rewrite Hc; exact IH]).
    destruct Hstep as [r Hr ->]. cbn [handle lift] in Hr.
    injection Hr as <-. now apply compa_count_inv.
Qed.

(** A compare-match interrupt performs a ramp step exactly when it
    finds the count at 2. *)
Lemma ramp_step_test (s : MCU) :
  count_inv s ->
  (u8 (countPWM s + 1) >=? PWM_RAMP_SPEED) = (countPWM s =? 2).
Proof.
  unfold count_inv, PWM_RAMP_SPEED, u8. intros Hc.
  rewrite Z.mod_small by lia.
  destruct (Z.eqb_spec (countPWM s) 2) as [->|Hn]; [reflexivity|].
  rewrite Z.geb_leb. apply Z.leb_gt. lia.
Qed.

Lemma tick_step (s : MCU) :
  pwm_inv s -> countPWM s = 2 ->
  countPWM (state (TIM0_COMPA_vect s)) = 0 /\
  indexPWM (state (TIM0_COMPA_vect s)) = indexPWM s + indexDirPWM s.
Proof.
  intros (Hb & Hd & Hmax & Hmin) Hc.
  destruct (compa_closed s) as [Hstep _].
  rewrite Hc in Hstep. destruct (Hstep eq_refl) as (-> & _ & -> & _).
  split; [reflexivity|].
  unfold PWM_MIN, PWM_MAX, u8 in *. apply Z.mod_small. lia.
Qed.

Lemma tick_wait (s : MCU) :
  0 <= countPWM s < 2 ->
  countPWM (state (TIM0_COMPA_vect s)) = countPWM s + 1 /\
  indexPWM (state (TIM0_COMPA_vect s)) = indexPWM s /\
  indexDirPWM (state (TIM0_COMPA_vect s)) = indexDirPWM s.
Proof.
  intros Hc. destruct (compa_closed s) as [_ Hkeep].
  assert (E : (u8 (countPWM s + 1) >=? PWM_RAMP_SPEED) = false).
  { unfold u8, PWM_RAMP_SPEED. rewrite Z.mod_small by lia.
    rewrite Z.geb_leb. apply Z.leb_gt. lia. }
  destruct (Hkeep E) as (-> & _ & -> & -> & _).
  unfold u8. rewrite Z.mod_small by lia. auto.
Qed.

(** X12.  The ramp moves once per three compare-match interrupts: from
    any reachable state, three compare-match interrupts in a row leave
    the count where it was and move the index by exactly the direction
    stored at the start, one step up or one step down, without
    wrapping. *)
Theorem ramp_moves_every_third_tick (regs : ioreg -> Z) (s : MCU) :
  reachable regs s ->
  countPWM (ticks 3 s) = countPWM s /\
  indexPWM (ticks 3 s) = indexPWM s + indexDirPWM s /\
  (indexDirPWM s = 1 \/ indexDirPWM s = -1).
Proof.
  intros Hreach.
  pose proof (reachable_count_inv regs s Hreach) as Hc.
  pose proof (reachable_pwm_inv regs s Hreach) as Hp.
  assert (Hd : indexDirPWM s = 1 \/ indexDirPWM s = -1) by apply Hp.
  unfold count_inv, PWM_RAMP_SPEED in Hc. cbn [ticks].
  set (s1 := state (TIM0_COMPA_vect s)).
  set (s2 := state (TIM0_COMPA_vect s1)).
  assert (Hp1 : pwm_inv s1) by now apply compa_pwm_inv.
  assert (Hp2 : pwm_inv s2) by now apply compa_pwm_inv.
  assert (Hcase : countPWM s = 0 \/ countPWM s = 1 \/ countPWM s = 2)
    by lia.
  destruct Hcase as [H0|[H1|H2]].
  - destruct (tick_wait s) as (Hc1 & Hi1 & Hd1); [lia|]. fold s1 in Hc1, Hi1, Hd1.
    destruct (tick_wait s1) as (Hc2 & Hi2 & Hd2); [lia|].
    fold s2 in Hc2, Hi2, Hd2.
    destruct (tick_step s2 Hp2) as (Hc3 & Hi3); [lia|].
    repeat split; [lia | | exact Hd]. rewrite Hi3, Hi2, Hd2, Hi1, Hd1.
    reflexivity.
  - destruct (tick_wait s) as (Hc1 & Hi1 & Hd1); [lia|]. fold s1 in Hc1, Hi1, Hd1.
    destruct (tick_step s1 Hp1) as (Hc2 & Hi2); [lia|]. fold s2 in Hc2, Hi2.
    destruct (tick_wait s2) as (Hc3 & Hi3 & Hd3); [lia|].
    repeat split; [lia | | exact Hd]. rewrite Hi3, Hi2, Hi1, Hd1.
    reflexivity.
  - destruct (tick_step s Hp) as (Hc1 & Hi1); [lia|]. fold s1 in Hc1, Hi1.
    destruct (tick_wait s1) as (Hc2 & Hi2 & Hd2); [lia|].
    fold s2 in Hc2, Hi2, Hd2.
    destruct (tick_wait s2) as (Hc3 & Hi3 & Hd3); [lia|].
    repeat split; [lia | | exact Hd]. rewrite Hi3, Hi2, Hi1.
    reflexivity.
Qed.

Lemma ramp_moves_every_third_tick_witness :
  indexPWM (ticks 3 first_pass) = indexPWM first_pass + indexDirPWM first_pass.
Proof.
  exact (proj1 (proj2 (ramp_moves_every_third_tick (fun _ => 0) first_pass
                         first_pass_reachable))).
Defined.

Lemma event_eq_compa (e : event) : e = EvCOMPA \/ e <> EvCOMPA.
Proof. destruct e; (now left) || (right; discriminate). Qed.

Lemma setMode_ocr (s : MCU) : io (state (setMode s)) OCR0A = io s OCR0A.
Proof.
  change (wp setMode s (fun _ s' _ => io s' OCR0A = io s OCR0A)).
  wp_run; reflexivity.
Qed.

Lemma evaluate_ocr (pins : PinReads) (s : MCU) :
  io (state (evaluate pins s)) OCR0A = io s OCR0A.
Proof.
  destruct (Z.eq_dec (requestStatus s) 1) as [Hreq|Hreq].
  - destruct (Z.eq_dec (value (getStatus pins s)) (pStatus s)) as [E|E].
    + rewrite evaluate_state_same by assumption.
      cbn [io set_requestStatus set_pStatus set_mStatus].
      now rewrite getStatus_io.
    + rewrite evaluate_state_new by assumption.
      cbn [io set_requestStatus set_pStatus]. rewrite setMode_ocr.
      cbn [io set_mStatus]. now rewrite getStatus_io.
  - now rewrite evaluate_idle.
Qed.

Lemma ocr_kept (e : event) (s : MCU) r :
  handle e s = Some r -> e <> EvCOMPA -> io (state r) OCR0A = io s OCR0A.
Proof.
  intros Hr He.
  destruct e; cbn [handle lift] in Hr; try (injection Hr as <-).
  - unfold loop_body. rewrite bind_state. cbv beta.
    rewrite <- (evaluate_ocr pins s).
    generalize (state (evaluate pins s)). intros s'.
    change (wp sleep_enable s' (fun _ s2 _ => io s2 OCR0A = io s' OCR0A)).
    wp_run; reflexivity.
  - change (wp wake_up s (fun _ s2 _ => io s2 OCR0A = io s OCR0A)).
    wp_run; reflexivity.
  - change (wp WDT_vect s (fun _ s2 _ => io s2 OCR0A = io s OCR0A)).
    wp_run; reflexivity.
  - destruct (Z_lt_le_dec (numSamples s) 10) as [Hlt|Hge].
    + destruct (Z.eq_dec (raw_code (adcl, adch)) 0) as [H0|H0].
      * rewrite ADC_vect_fault in Hr by assumption. discriminate.
      * rewrite ADC_vect_accumulate in Hr by assumption.
        injection Hr as <-. reflexivity.
    + rewrite ADC_vect_publish in Hr by assumption.
      injection Hr as <-. reflexivity.
  - change (wp TIM0_OVF_vect s (fun _ s2 _ => io s2 OCR0A = io s OCR0A)).
    wp_run; reflexivity.
  - contradiction.
Qed.

Lemma reachable_ocr_inv (regs : ioreg -> Z) (s : MCU) :
  reachable regs s -> ocr_inv s.
Proof.
  induction 1 as [|s e s' _ IH Hstep].
  - right. split; reflexivity.
  - unfold ocr_inv in *.
    destruct (event_eq_compa e) as [->|He].
    + destruct Hstep as [r Hr ->]. cbn [handle lift] in Hr.
      injection Hr as <-.
      destruct (compa_closed s) as [Hstep Hkeep].
      destruct (u8 (countPWM s + 1) >=? PWM_RAMP_SPEED).
      * destruct (Hstep eq_refl) as (_ & -> & Hi & _). left.
        rewrite Hi. unfold u8. apply Z.mod_mod. discriminate.
      * destruct (Hkeep eq_refl) as (_ & -> & -> & _). exact IH.
    + destruct (step_same_pwm _ _ _ Hstep He) as (_ & _ & ->).
      destruct Hstep as [r Hr ->]. rewrite (ocr_kept _ _ _ Hr He).
      exact IH.
Qed.

(** X13.  In every reachable state the duty-cycle register [OCR0A]
    lies in 0..253: it holds the ramp index from the first ramp step
    on, and until then the 0 that [setup] stored.  No handler other
    than the compare-match interrupt writes it. *)
Theorem duty_cycle_tracks_index (regs : ioreg -> Z) (s : MCU) :
  reachable regs s ->
  (io s OCR0A = indexPWM s \/ io s OCR0A = 0 /\ indexPWM s = 70) /\
  PWM_MIN <= io s OCR0A <= PWM_MAX.
Proof.
  intros Hreach.
  pose proof (reachable_ocr_inv regs s Hreach) as Ho.
  destruct (reachable_pwm_inv regs s Hreach) as (Hb & _).
  split; [exact Ho|].
  unfold PWM_MIN, PWM_MAX in *.
  destruct Ho as [->|[-> _]]; lia.
Qed.

Lemma duty_cycle_tracks_index_witness :
  io (ticks 3 first_pass) OCR0A = indexPWM (ticks 3 first_pass).
Proof.
  assert (Hr : reachable (fun _ => 0) (ticks 3 first_pass)).
  { refine (run_reachable (fun _ => 0) [EvCOMPA; EvCOMPA; EvCOMPA]
              first_pass _ first_pass_reachable _).
    vm_compute; reflexivity. }
  destruct (duty_cycle_tracks_index (fun _ => 0) (ticks 3 first_pass) Hr)
    as [[H|[_ H]] _].
  - exact H.
  - vm_compute in H. discriminate H.
Defined.

Lemma ovf_closed (s : MCU) :
  io (state (TIM0_OVF_vect s)) PORTB
    = u8 (Z.lor (io s PORTB)
            (Z.lor (Z.shiftl (grn_glw s) LED_GRN)
                   (Z.shiftl (red_glw s) LED_RED))) /\
  io (state (TIM0_OVF_vect s)) DDRB = io s DDRB.
Proof.
  change (wp TIM0_OVF_vect s (fun _ s' _ =>
    io s' PORTB
      = u8 (Z.lor (io s PORTB)
              (Z.lor (Z.shiftl (grn_glw s) LED_GRN)
                     (Z.shiftl (red_glw s) LED_RED))) /\
    io s' DDRB = io s DDRB)).
  wp_run. split; reflexivity.
Qed.

Lemma compa_ddrb (s : MCU) : io (state (TIM0_COMPA_vect s)) DDRB = io s DDRB.
Proof. apply TIM0_COMPA_vect_kept. Qed.

Ltac pin_cases pin :=
  let H := fresh "H" in
  assert (H : pin = 0 \/ pin = 1 \/ pin = 2 \/ pin = 3 \/ pin = 4 \/
              pin = 5 \/ pin = 6 \/ pin = 7) by lia;
  repeat (destruct H as [H|H]; [subst pin|]); [..|subst pin].

Ltac glow_bits :=
  change (Z.shiftl 1 ?b) with (_BV b); rewrite ?Z.shiftl_0_l;
  bits; rewrite ?Z.bits_0; cbn [negb andb orb];
  rewrite ?andb_true_r, ?andb_false_r, ?orb_true_r, ?orb_false_r.

(** X14.  From a clean reset, in the charging modes 2 and 8 timer 0
    pulses the LED of the mode (red in 2, green in 8): the overflow
    interrupt switches it off; the compare-match interrupt switches it
    on when it performs a ramp step, the count standing at 2, and
    otherwise leaves it; neither interrupt changes another pin of
    port B. *)
Theorem glow_pulse (regs : ioreg -> Z) (s : MCU) :
  clean_reset regs -> reachable regs s ->
  mStatus s = 2 \/ mStatus s = 8 ->
  driven_low (state (TIM0_OVF_vect s)) (glow_led (mStatus s)) = false /\
  driven_low (state (TIM0_COMPA_vect s)) (glow_led (mStatus s))
    = (if countPWM s =? 2 then true
       else driven_low s (glow_led (mStatus s))) /\
  (forall pin, 0 <= pin < 8 -> pin <> glow_led (mStatus s) ->
     Z.testbit (io (state (TIM0_OVF_vect s)) PORTB) pin
       = Z.testbit (io s PORTB) pin /\
     Z.testbit (io (state (TIM0_COMPA_vect s)) PORTB) pin
       = Z.testbit (io s PORTB) pin).
Proof.
  intros Hreset Hreach Hm.
  destruct (reachable_mode_inv regs s Hreset Hreach)
    as (_ & _ & (_ & Hgrn & Hred & _) & (_ & Hf2 & Hf8)).
  pose proof (reachable_count_inv regs s Hreach) as Hc.
  pose proof (ramp_step_test s Hc) as Htest.
  destruct (ovf_closed s) as [Hop Hod].
  destruct (compa_closed s) as [Hstep Hkeep].
  pose proof (compa_ddrb s) as Hcd.
  unfold driven_low. rewrite Hop, Hod, Hcd.
  rewrite Htest in Hstep, Hkeep.
  assert (Hflags : red_glw s = (if mStatus s =? 2 then 1 else 0) /\
                   grn_glw s = (if mStatus s =? 2 then 0 else 1) /\
                   Z.testbit (io s DDRB) (glow_led (mStatus s)) = true).
  { destruct Hm as [E|E]; rewrite E in *.
    - destruct (Hf2 eq_refl) as [-> ->]. repeat split. exact Hred.
    - destruct (Hf8 eq_refl) as [-> ->]. repeat split. exact Hgrn. }
  destruct Hflags as (Hr & Hg & Hd).
  rewrite Hr, Hg, Hd in *. clear Hr Hg.
  destruct (countPWM s =? 2).
  - destruct (Hstep eq_refl) as (_ & _ & _ & ->).
    unfold glow_led in *.
    destruct (mStatus s =? 2);
      (split; [glow_bits; reflexivity|]);
      (split; [glow_bits; reflexivity|]);
      intros pin Hp Hne; pin_cases pin;
      try (exfalso; apply Hne; reflexivity);
      split; glow_bits; reflexivity.
  - destruct (Hkeep eq_refl) as (_ & _ & _ & _ & ->).
    unfold glow_led in *.
    destruct (mStatus s =? 2);
      (split; [glow_bits; reflexivity|]);
      (split; [reflexivity|]);
      intros pin Hp Hne; pin_cases pin;
      try (exfalso; apply Hne; reflexivity);
      split; glow_bits; reflexivity.
Qed.

Lemma glow_pulse_witness :
  driven_low (state (TIM0_OVF_vect charging)) LED_GRN = false.
Proof.
  assert (Hm : mStatus charging = 2 \/ mStatus charging = 8)
    by (right; vm_compute; reflexivity).
  exact (proj1 (glow_pulse (fun _ => 0) charging zero_reset_clean
                  charging_reachable Hm)).
Defined.

(** ** Evaluations and watchdog interrupts *)

Lemma evaluate_request (pins : PinReads) (s : MCU) :
  requestStatus (state (evaluate pins s))
  = if requestStatus s =? 1 then 0 else requestStatus s.
Proof.
  destruct (Z.eqb_spec (requestStatus s) 1) as [Hreq|Hreq].
  - destruct (Z.eq_dec (value (getStatus pins s)) (pStatus s)) as [E|E].
    + now rewrite evaluate_state_same.
    + now rewrite evaluate_state_new.
  - now rewrite evaluate_idle.
Qed.

Lemma handle_pending (e : event) (s : MCU) r :
  handle e s = Some r ->
  pending (state r) = match e with
                      | EvLoop _ => 0%nat
                      | EvWDT => 1%nat
                      | _ => pending s
                      end.
Proof.
  intros Hr. unfold pending.
  destruct e; cbn [handle lift] in Hr; try (injection Hr as <-).
  - rewrite loop_body_state. cbn [requestStatus set_io].
    rewrite evaluate_request.
    destruct (Z.eqb_spec (requestStatus s) 1) as [_|Hn]; [reflexivity|].
    destruct (Z.eqb_spec (requestStatus s) 1); [contradiction|reflexivity].
  - now rewrite wake_up_state.
  - now rewrite WDT_vect_state.
  - now rewrite (ADC_vect_state _ _ _ _ Hr).
  - now rewrite TIM0_OVF_vect_state.
  - now rewrite TIM0_COMPA_vect_state.
Qed.

(** X15.  The main loop evaluates at most once per watchdog interrupt:
    over any run of events, the number of evaluation cycles is at most
    the number of watchdog interrupts in the run, plus one when an
    evaluation was already pending at its start.  Loop passes woken by
    the converter or by timer 0 evaluate nothing. *)
Theorem evaluations_bounded_by_watchdogs (es : list event) :
  forall (s : MCU) (tr : list (Z * bool)),
    cycles es s = Some tr ->
    (length tr <= watchdogs es + pending s)%nat.
Proof.
  induction es as [|e es IH]; intros s tr Hc; cbn [cycles] in Hc.
  - injection Hc as <-. cbn. lia.
  - destruct (handle e s) as [r|] eqn:Hr; [|discriminate].
    destruct (cycles es (state r)) as [tr'|] eqn:Hc'; [|discriminate].
    pose proof (IH _ _ Hc') as Hlen.
    rewrite (handle_pending _ _ _ Hr) in Hlen.
    unfold watchdogs in *. cbn [filter].
    destruct e; cbn [is_wdt length] in *;
      try (injection Hc as <-; lia).
    unfold pending.
    destruct (requestStatus s =? 1); injection Hc as <-; cbn [length]; lia.
Qed.

Lemma evaluations_bounded_by_watchdogs_witness :
  (length [(4, true); (7, false)] <= watchdogs low_battery_run + 1)%nat.
Proof.
  refine (evaluations_bounded_by_watchdogs low_battery_run
            (boot (fun _ => 0)) [(4, true); (7, false)] _).
  vm_compute; reflexivity.
Defined.

(** ** The conversion-complete handler *)

Lemma raw_code_sum (adcl adch : Z) :
  raw_code (adcl, adch) = u8 adcl + 256 * u8 adch.
Proof.
  unfold raw_code. cbn [fst snd].
  assert (Hl : 0 <= u8 adcl < 256) by (apply Z.mod_pos_bound; lia).
  assert (Hh : 0 <= u8 adch < 256) by (apply Z.mod_pos_bound; lia).
  assert (Hdisj : Z.land (u8 adcl) (Z.shiftl (u8 adch) 8) = 0).
  { apply Z.bits_inj'. intros n Hn.
    rewrite Z.land_spec, Z.bits_0.
    destruct (Z.ltb_spec n 8).
    - rewrite (Z.shiftl_spec_low _ _ _ H). apply andb_false_r.
    - rewrite (testbit_u8_any adcl n Hn).
      destruct (Z.ltb_spec n 8); [lia|]. reflexivity. }
  rewrite <- (Z.lxor_lor _ _ Hdisj), <- (Z.add_nocarry_lxor _ _ Hdisj).
  rewrite Z.shiftl_mul_pow2 by lia. change (2 ^ 8) with 256.
  unfold u16. rewrite Z.mod_small by lia. lia.
Qed.

(** X16.  The conversion-complete handler divides by zero exactly when
    it is still accumulating (fewer than ten samples held) and both
    result bytes read as zero; a call that finds ten samples held never
    divides, whatever the converter returned. *)
Theorem ADC_vect_faults_iff (adcl adch : Z) (s : MCU) :
  ADC_vect adcl adch s = None <->
  numSamples s < 10 /\ u8 adcl = 0 /\ u8 adch = 0.
Proof.
  assert (Hl : 0 <= u8 adcl < 256) by (apply Z.mod_pos_bound; lia).
  assert (Hh : 0 <= u8 adch < 256) by (apply Z.mod_pos_bound; lia).
  pose proof (raw_code_sum adcl adch) as Hraw.
  split.
  - intros Hnone.
    destruct (Z_lt_le_dec (numSamples s) 10) as [Hlt|Hge].
    + destruct (Z.eq_dec (raw_code (adcl, adch)) 0) as [H0|H0].
      * lia.
      * rewrite ADC_vect_accumulate in Hnone by assumption. discriminate.
    + rewrite ADC_vect_publish in Hnone by assumption. discriminate.
  - intros (Hlt & H1 & H2). apply ADC_vect_fault; [exact Hlt | lia].
Qed.

(** X17.  A conversion-complete handler that returns leaves in
    [adcVal] the ten-bit result assembled from the two bytes read:
    ADCL plus 256 times ADCH, each taken as a byte. *)
Theorem ADC_vect_assembles_result (adcl adch : Z) (s : MCU) r :
  ADC_vect adcl adch s = Some r ->
  adcVal (state r) = u8 adcl + 256 * u8 adch.
Proof.
  intros Hr. rewrite <- raw_code_sum.
  destruct (Z_lt_le_dec (numSamples s) 10) as [Hlt|Hge].
  - destruct (Z.eq_dec (raw_code (adcl, adch)) 0) as [H0|H0].
    + rewrite ADC_vect_fault in Hr by assumption. discriminate.
    + rewrite ADC_vect_accumulate in Hr by assumption.
      injection Hr as <-. reflexivity.
  - rewrite ADC_vect_publish in Hr by assumption.
    injection Hr as <-. reflexivity.
Qed.

Lemma ADC_vect_assembles_result_witness :
  exists r, ADC_vect 104 1 first_pass = Some r /\ adcVal (state r) = 360.
Proof.
  destruct (ADC_vect 104 1 first_pass) as [r|] eqn:E.
  - exists r. split; [reflexivity|].
    exact (ADC_vect_assembles_result 104 1 first_pass r E).
  - vm_compute in E. discriminate E.
Defined.

(** ** An acquisition request and the sleep mode *)

(** X18.  When an evaluation requests an acquisition, the last value
    [main] stores to ADCSRA in that evaluation has ADEN and ADSC set,
    and the last value it stores to MCUCR has SM1 clear (idle sleep) if
    the mode found is the one already applied, and SM1 set (power-down)
    if the mode is new: [setMode] then runs after the request and
    stores the sleep mode of the new mode over the one the request
    selected, without stopping the converter. *)
Theorem request_then_sleep_store (pins : PinReads) (s : MCU) :
  requestStatus s = 1 ->
  acq_requested (ops (getStatus pins s)) = true ->
  (exists a,
     last_store ADCSRA (ops (evaluate pins s)) = Some a /\
     Z.testbit a ADEN = true /\ Z.testbit a ADSC = true) /\
  (exists c,
     last_store MCUCR (ops (evaluate pins s)) = Some c /\
     Z.testbit c SM1 = negb (value (getStatus pins s) =? pStatus s)).
Proof.
  intros Hreq Hacq.
  destruct (getStatus_stores pins s Hacq)
    as ((c & Hc & Hsm) & (a & Ha & Hen & Hsc)).
  rewrite getStatus_requests in Hacq.
  destruct (Z.eqb_spec (value (getStatus pins s)) (pStatus s)) as [E|E].
  - rewrite evaluate_ops_same by assumption.
    split; [exists a | exists c]; auto.
  - rewrite evaluate_ops_new by assumption.
    destruct (setMode_stores (set_mStatus (value (getStatus pins s))
                                (state (getStatus pins s)))
                (getStatus_range pins s))
      as ((c' & Hc' & Hsm') & _ & Hnone).
    cbn [mStatus set_mStatus] in Hsm', Hnone.
    pose proof (due_battery _ _ Hacq) as Hm.
    rewrite !last_store_app, Hc', (Hnone Hm).
    split; [exists a; auto | exists c'].
    split; [reflexivity|]. rewrite Hsm'.
    destruct (Z.eqb_spec (value (getStatus pins s)) 2),
      (Z.eqb_spec (value (getStatus pins s)) 8);
      first [reflexivity | lia].
Qed.

Lemma request_then_sleep_store_witness :
  exists c,
    last_store MCUCR (ops (evaluate (mkPins 2 0 0) (boot (fun _ => 0))))
      = Some c /\
    Z.testbit c SM1 = true.
Proof.
  assert (Hreq : requestStatus (boot (fun _ => 0)) = 1) by reflexivity.
  assert (Hacq : acq_requested
                   (ops (getStatus (mkPins 2 0 0) (boot (fun _ => 0))))
                 = true) by (vm_compute; reflexivity).
  exact (proj2 (request_then_sleep_store (mkPins 2 0 0) (boot (fun _ => 0))
                  Hreq Hacq)).
Defined.

(** X19.  When an evaluation finds a mode other than the one applied,
    the last value [main] stores to MCUCR in that evaluation has SM1
    clear (idle sleep) exactly when the new mode is 2 or 8, the
    charging modes, where timer 0 has to keep running; for every other
    mode it has SM1 set (power-down). *)
Theorem sleep_mode_store_on_mode_entry (pins : PinReads) (s : MCU) :
  requestStatus s = 1 ->
  value (getStatus pins s) <> pStatus s ->
  exists c,
    last_store MCUCR (ops (evaluate pins s)) = Some c /\
    Z.testbit c SM1 = negb ((value (getStatus pins s) =? 2) ||
                            (value (getStatus pins s) =? 8)).
Proof.
  intros Hreq Hnew. rewrite evaluate_ops_new by assumption.
  destruct (setMode_stores (set_mStatus (value (getStatus pins s))
                              (state (getStatus pins s)))
              (getStatus_range pins s))
    as ((c & Hc & Hsm) & _).
  exists c. rewrite last_store_app, Hc. auto.
Qed.

Lemma sleep_mode_store_on_mode_entry_witness :
  exists c,
    last_store MCUCR (ops (evaluate (mkPins 2 16 0) (boot (fun _ => 0))))
      = Some c /\
    Z.testbit c SM1 = false.
Proof.
  assert (Hreq : requestStatus (boot (fun _ => 0)) = 1) by reflexivity.
  assert (Hnew : value (getStatus (mkPins 2 16 0) (boot (fun _ => 0)))
                 <> pStatus (boot (fun _ => 0)))
    by (vm_compute; discriminate).
  exact (sleep_mode_store_on_mode_entry (mkPins 2 16 0) (boot (fun _ => 0))
           Hreq Hnew).
Defined.

(** ** The accumulator *)

Lemma reachable_voltage_inv (regs : ioreg -> Z) (s : MCU) :
  reachable regs s -> voltage_inv s.
Proof.
  unfold voltage_inv. induction 1 as [|s e s' Hs IH Hstep].
  - rewrite boot_vars. cbn. lia.
  - destruct e;
      try (destruct (step_same_adc _ _ _ Hstep) as (_ & _ & -> & _);
           [discriminate | exact IH]).
    destruct (reachable_adc_inv regs s Hs) as (_ & Hsum & _).
    destruct Hstep as [r Hr ->]. cbn [handle] in Hr.
    destruct (Z_lt_le_dec (numSamples s) 10) as [Hlt|Hge].
    + destruct (Z.eq_dec (raw_code (adcl, adch)) 0) as [H0|H0].
      * rewrite ADC_vect_fault in Hr by assumption. discriminate.
      * rewrite ADC_vect_accumulate in Hr by assumption.
        injection Hr as <-. exact IH.
    + rewrite ADC_vect_publish in Hr by assumption.
      injection Hr as <-. cbn [state fst snd voltage set_io set_sumVolt
        set_numSamples set_voltage].
      assert (Hq : 0 <= sumVolt s / 10 <= 6553).
      { split; [apply Z.div_pos; lia|].
        apply Z.lt_succ_r. apply Z.div_lt_upper_bound; lia. }
      unfold u16. rewrite Z.mod_small by lia. exact Hq.
Qed.

(** X20.  In every reachable state the accumulator is within its
    bounds: at most ten samples are held, the sum is zero when none is
    held, and the published voltage lies in 0..6553 mV, a tenth of the
    largest sum 16 bits can hold. *)
Theorem accumulator_bounds (regs : ioreg -> Z) (s : MCU) :
  reachable regs s ->
  0 <= numSamples s <= 10 /\
  (numSamples s = 0 -> sumVolt s = 0) /\
  0 <= voltage s <= 6553.
Proof.
  intros Hreach.
  destruct (reachable_adc_inv regs s Hreach) as (Hn & _ & Hz).
  pose proof (reachable_voltage_inv regs s Hreach) as Hv.
  auto.
Qed.

Lemma accumulator_bounds_witness :
  0 <= voltage low_battery <= 6553.
Proof.
  exact (proj2 (proj2 (accumulator_bounds (fun _ => 0) low_battery
                         low_battery_reachable))).
Defined.
